(** * Clearpath RAG chatbot: a shallow embedding of the backend core

    The development follows the Python sources module by module:

    - [Py]           : the fragment of Python's [str] API the code relies on;
    - [Re]           : a backtracking matcher for the regular expressions the
                       code compiles with [re];
    - [Router]       : backend/router/deterministic_router.py;
    - [Evaluator]    : backend/evaluator/output_evaluator.py;
    - [VectorStore]  : backend/rag/vector_store.py;
    - [Retriever]    : backend/rag/retriever.py;
    - [TextSanitizer], [TokenCounter], [Ingestion] :
                       backend/utils/text_sanitizer.py,
                       backend/utils/token_counter.py, backend/rag/ingestion.py;
    - [GroqClient]   : backend/llm/groq_client.py.

    Strings.  A Python [str] is modelled by Rocq's [string]; one [ascii] is one
    code point in the range 0..255 (Latin-1).  The character classes below
    ([isspace], the regex classes \s, \w, \d, and [str.lower]) are Python's,
    restricted to that range.

    Effects.  Code that mutates the store or the index directory is written
    in a state-and-exception monad over an explicit world.  [RetrievedChunk]
    objects, which [deduplicate] and the re-ranking mutate in place, live in
    a heap addressed by references.

    Numbers.  Similarity scores and vector entries are Python floats; they
    are modelled by rationals, and the code only compares them or adds the
    constant boost.  The float arithmetic of ingestion (token estimates and
    the proportional page offset) is modelled by IEEE binary64 floats.

    External libraries (faiss, the embedding model, the tokenizer, PyMuPDF,
    the groq SDK, the file system) are parameters of the definitions that
    call them. *)

From Stdlib Require Import ZArith QArith Bool Ascii String DecimalString Floats Uint63 Sorted.
From stdpp Require Import base option list strings gmap.

Local Open Scope string_scope.
Local Open Scope list_scope.

(* ===================================================================== *)
(** ** Python strings *)
(* ===================================================================== *)

Module Py.

Definition code (c : ascii) : N := N_of_ascii c.

Definition in_range (lo hi : N) (c : ascii) : bool :=
  (N.leb lo (code c) && N.leb (code c) hi)%bool.

(** [str.isspace] on one character, which is also the regex class \s. *)
Definition isspace (c : ascii) : bool :=
  (in_range 9 13 c || in_range 28 32 c
   || N.eqb (code c) 133 || N.eqb (code c) 160)%bool.

(** The regex class \d (Unicode category Nd). *)
Definition isdigit (c : ascii) : bool := in_range 48 57 c.

Definition isupper_ascii (c : ascii) : bool := in_range 65 90 c.
Definition islower_ascii (c : ascii) : bool := in_range 97 122 c.

(** The regex class \w: alphanumeric code points and the underscore. *)
Definition isword (c : ascii) : bool :=
  (isdigit c || isupper_ascii c || islower_ascii c || N.eqb (code c) 95
   || N.eqb (code c) 170 || in_range 178 179 c || N.eqb (code c) 181
   || in_range 185 186 c || in_range 188 190 c
   || in_range 192 214 c || in_range 216 246 c || in_range 248 255 c)%bool.

(** [str.lower] on one character. *)
Definition lower_char (c : ascii) : ascii :=
  if (isupper_ascii c || in_range 192 214 c || in_range 216 222 c)%bool
  then ascii_of_N (code c + 32) else c.

Fixpoint lower (s : string) : string :=
  match s with
  | EmptyString => EmptyString
  | String c s' => String (lower_char c) (lower s')
  end.

Definition len (s : string) : nat := String.length s.

(** [s.startswith(p)]. *)
Fixpoint startswith (p s : string) : bool :=
  match p, s with
  | EmptyString, _ => true
  | String a p', String b s' => if Ascii.eqb a b then startswith p' s' else false
  | String _ _, EmptyString => false
  end.

(** [p in s]. *)
Fixpoint contains (p s : string) : bool :=
  if startswith p s then true
  else match s with
       | EmptyString => false
       | String _ s' => contains p s'
       end.

(** [s.count(c)] for a one-character needle. *)
Fixpoint count_char (c : ascii) (s : string) : nat :=
  match s with
  | EmptyString => 0
  | String x s' => (if Ascii.eqb x c then 1 else 0) + count_char c s'
  end.

Fixpoint drop (n : nat) (s : string) : string :=
  match n, s with
  | 0, _ => s
  | S _, EmptyString => EmptyString
  | S n', String _ s' => drop n' s'
  end.

Fixpoint take (n : nat) (s : string) : string :=
  match n, s with
  | 0, _ => EmptyString
  | S _, EmptyString => EmptyString
  | S n', String c s' => String c (take n' s')
  end.

(** First index at which [p] occurs in [s], counted from the head of [s]. *)
Fixpoint find_from (p s : string) (i : nat) : option nat :=
  if startswith p s then Some i
  else match s with
       | EmptyString => None
       | String _ s' => find_from p s' (S i)
       end.

(** [s.find(p, start)]: [None] stands for Python's -1. *)
Definition find (s p : string) (start : nat) : option nat :=
  if Nat.ltb (len s) start then None else find_from p (drop start s) start.

Fixpoint lstrip (s : string) : string :=
  match s with
  | String c s' => if isspace c then lstrip s' else s
  | EmptyString => EmptyString
  end.

Fixpoint rstrip (s : string) : string :=
  match s with
  | EmptyString => EmptyString
  | String c s' =>
      match rstrip s' with
      | EmptyString => if isspace c then EmptyString else String c EmptyString
      | r => String c r
      end
  end.

(** [s.strip()]. *)
Definition strip (s : string) : string := rstrip (lstrip s).

(** [s.split()]: maximal runs of non-whitespace characters.  [cur] is the
    word being read, in reverse. *)
Fixpoint split_ws_aux (s : string) (cur : list ascii) : list string :=
  let flush := match cur with
               | [] => []
               | _ => [string_of_list_ascii (rev cur)]
               end in
  match s with
  | EmptyString => flush
  | String c s' =>
      if isspace c then flush ++ split_ws_aux s' []
      else split_ws_aux s' (c :: cur)
  end.

Definition split_ws (s : string) : list string := split_ws_aux s [].

(** [s.split(sep)] for a non-empty separator: all segments, empty ones
    included.  [fuel] bounds the number of characters still to read. *)
Fixpoint split_sep_aux (fuel : nat) (sep s : string) (cur : list ascii)
  : list string :=
  match fuel with
  | 0 => [string_of_list_ascii (rev cur)]
  | S fuel' =>
      match s with
      | EmptyString => [string_of_list_ascii (rev cur)]
      | String c s' =>
          if startswith sep s
          then string_of_list_ascii (rev cur)
               :: split_sep_aux fuel' sep (drop (len sep) s) []
          else split_sep_aux fuel' sep s' (c :: cur)
      end
  end.

Definition split_sep (s sep : string) : list string :=
  split_sep_aux (S (len s)) sep s [].

(** [sep.join(parts)]. *)
Fixpoint join (sep : string) (parts : list string) : string :=
  match parts with
  | [] => ""
  | [p] => p
  | p :: rest => p +:+ sep +:+ join sep rest
  end.

(** [int(s)] for a string of decimal digits. *)
Definition int_of_digits (s : string) : nat :=
  fold_left (fun acc c => 10 * acc + (N.to_nat (code c) - 48))
            (list_ascii_of_string s) 0.

(** Python truthiness of a string. *)
Definition truthy (s : string) : bool :=
  match s with EmptyString => false | _ => true end.

End Py.

(* ===================================================================== *)
(** ** Regular expressions (the fragment of [re] used by the backend) *)
(* ===================================================================== *)

Module Re.

Inductive regex : Type :=
| Lit (c : ascii)                 (* a literal character *)
| LitI (c : ascii)                (* a literal under re.IGNORECASE *)
| Class (p : ascii -> bool)       (* [...] , \s , \d *)
| Dot                             (* .  (no DOTALL: not a newline) *)
| Seq (r1 r2 : regex)
| Alt (r1 r2 : regex)             (* r1|r2, r1 tried first *)
| Star (r : regex)                (* greedy r* *)
| Opt (r : regex)                 (* greedy r? *)
| WordB                           (* \b *)
| Eos                             (* $ without MULTILINE *)
| Eps.

Definition Plus (r : regex) : regex := Seq r (Star r).

Fixpoint lits (mk : ascii -> regex) (s : string) : regex :=
  match s with
  | EmptyString => Eps
  | String c EmptyString => mk c
  | String c s' => Seq (mk c) (lits mk s')
  end.

(** A literal string, e.g. the result of [re.escape]. *)
Definition Str (s : string) : regex := lits Lit s.
Definition StrI (s : string) : regex := lits LitI s.

Definition is_word_opt (c : option ascii) : bool :=
  match c with Some x => Py.isword x | None => false end.

Definition head (s : string) : option ascii :=
  match s with String c _ => Some c | EmptyString => None end.

Section Matcher.
Context {A : Type}.

(** [run r prev s k]: match [r] at the head of [s], [prev] being the
    character just before it, and hand the rest to the continuation [k];
    alternatives are explored in the order of a backtracking matcher. *)
Fixpoint run (r : regex) (prev : option ascii) (s : string)
         (k : option ascii -> string -> option A) {struct r} : option A :=
  match r with
  | Lit c =>
      match s with
      | String x s' => if Ascii.eqb x c then k (Some x) s' else None
      | EmptyString => None
      end
  | LitI c =>
      match s with
      | String x s' =>
          if Ascii.eqb (Py.lower_char x) (Py.lower_char c)
          then k (Some x) s' else None
      | EmptyString => None
      end
  | Class p =>
      match s with
      | String x s' => if p x then k (Some x) s' else None
      | EmptyString => None
      end
  | Dot =>
      match s with
      | String x s' => if Ascii.eqb x "010" then None else k (Some x) s'
      | EmptyString => None
      end
  | Seq r1 r2 => run r1 prev s (fun p' s' => run r2 p' s' k)
  | Alt r1 r2 =>
      match run r1 prev s k with
      | Some a => Some a
      | None => run r2 prev s k
      end
  | Opt r1 =>
      match run r1 prev s k with
      | Some a => Some a
      | None => k prev s
      end
  | Star r1 =>
      (fix star (fuel : nat) (prev : option ascii) (s : string) : option A :=
         match fuel with
         | 0 => k prev s
         | S fuel' =>
             match run r1 prev s
                     (fun p' s' =>
                        if Nat.ltb (Py.len s') (Py.len s)
                        then star fuel' p' s' else None) with
             | Some a => Some a
             | None => k prev s
             end
         end) (Py.len s) prev s
  | WordB =>
      if xorb (is_word_opt prev) (is_word_opt (head s)) then k prev s else None
  | Eos =>
      match s with
      | EmptyString => k prev s
      | String x EmptyString => if Ascii.eqb x "010" then k prev s else None
      | _ => None
      end
  | Eps => k prev s
  end.
End Matcher.

(** The match of [r] that starts exactly at the head of [s], if any:
    the matched text, the last character before the rest, and the rest. *)
Definition match_here (r : regex) (prev : option ascii) (s : string)
  : option (string * option ascii * string) :=
  run r prev s
      (fun p' s' => Some (Py.take (Py.len s - Py.len s') s, p', s')).

Record found := { m_start : nat; m_text : string;
                  m_prev : option ascii; m_rest : string }.

(** Leftmost match at or after the head of [s] (which sits at offset [i]). *)
Fixpoint search_from (r : regex) (prev : option ascii) (s : string) (i : nat)
  : option found :=
  match match_here r prev s with
  | Some (t, p', s') => Some {| m_start := i; m_text := t;
                                m_prev := p'; m_rest := s' |}
  | None =>
      match s with
      | EmptyString => None
      | String c s' => search_from r (Some c) s' (S i)
      end
  end.

(** [bool(pattern.search(s))]. *)
Definition search (r : regex) (s : string) : bool :=
  match search_from r None s 0 with Some _ => true | None => false end.

(** [pattern.finditer(s)]: the successive non-overlapping matches.  After
    an empty match the scan moves on by one character. *)
Fixpoint finditer_aux (fuel : nat) (r : regex) (prev : option ascii)
         (s : string) (i : nat) : list found :=
  match fuel with
  | 0 => []
  | S fuel' =>
      match search_from r prev s i with
      | None => []
      | Some m =>
          match m_text m with
          | EmptyString =>
              match m_rest m with
              | EmptyString => [m]
              | String c s' => m :: finditer_aux fuel' r (Some c) s' (S (m_start m))
              end
          | _ => m :: finditer_aux fuel' r (m_prev m) (m_rest m)
                                   (m_start m + Py.len (m_text m))
          end
      end
  end.

Definition finditer (r : regex) (s : string) : list found :=
  finditer_aux (S (Py.len s)) r None s 0.

(** [pattern.findall(s)] for a pattern without capturing groups. *)
Definition findall (r : regex) (s : string) : list string :=
  map m_text (finditer r s).

(** The pieces of [s] between the matches of [finditer]; [pos] is the
    offset at which the current piece starts. *)
Fixpoint pieces (ms : list found) (s : string) (pos : nat) : list string :=
  match ms with
  | [] => [s]
  | m :: ms' =>
      Py.take (m_start m - pos) s
      :: pieces ms' (Py.drop (m_start m - pos + Py.len (m_text m)) s)
                (m_start m + Py.len (m_text m))
  end.

(** [pattern.split(s)] for a pattern that matches no empty string. *)
Definition split (r : regex) (s : string) : list string :=
  pieces (finditer r s) s 0.

(** [pattern.sub(repl, s)] for a pattern that matches no empty string and
    a replacement without back-references. *)
Definition sub (r : regex) (repl s : string) : string :=
  Py.join repl (split r s).

End Re.

(* ===================================================================== *)
(** ** backend/router/deterministic_router.py *)
(* ===================================================================== *)

Module Router.
Import Re.

Definition seqs (rs : list regex) : regex := fold_right Seq Eps rs.

Definition COMPLEXITY_KEYWORDS : list string :=
  [ "compare"; "comparison"; "difference"; "differences"; "versus"; "vs";
    "integrate"; "integration"; "configure"; "configuration"; "migrate";
    "migration"; "troubleshoot"; "troubleshooting"; "architecture";
    "workflow"; "optimize"; "optimization"; "analyze"; "analysis";
    "strategy"; "strategies"; "compliance"; "security"; "audit";
    "enterprise"; "scalability"; "performance"; "benchmark"; "custom";
    "advanced"; "multiple"; "several"; "complex"; "detailed"; "comprehensive";
    "explain how"; "walk me through"; "step by step"; "in depth" ].

Definition AMBIGUITY_MARKERS : list string :=
  [ "it depends"; "what if"; "hypothetically"; "in general";
    "is it possible"; "can you explain"; "could you elaborate";
    "what are the pros and cons"; "trade-off"; "tradeoff";
    "best practice"; "best practices"; "recommend"; "recommendation";
    "should i"; "which one"; "what would" ].

Definition COMPLAINT_MARKERS : list string :=
  [ "not working"; "broken"; "bug"; "issue"; "problem"; "error";
    "frustrated"; "disappointed"; "unacceptable"; "terrible";
    "worst"; "angry"; "complaint"; "escalate"; "refund";
    "cancel"; "cancellation"; "speak to manager"; "supervisor" ].

Definition ws : regex := Class Py.isspace.

(** COMPARISON_PATTERNS, each compiled with re.IGNORECASE. *)
Definition _COMPARISON_PATTERN_RES : list regex :=
  [ seqs [WordB; StrI "vs"; Opt (Lit "."); WordB];               (* \bvs\.?\b *)
    seqs [WordB; StrI "versus"; WordB];                          (* \bversus\b *)
    seqs [WordB; StrI "compare"; Opt (LitI "d"); Plus ws;
          StrI "to"; WordB];                                     (* \bcompared?\s+to\b *)
    seqs [WordB; StrI "difference"; Plus ws; StrI "between"; WordB];
    seqs [WordB; StrI "better"; Plus ws; StrI "than"; WordB];
    seqs [WordB; StrI "worse"; Plus ws; StrI "than"; WordB];
    seqs [WordB; StrI "or"; WordB; Star Dot; WordB; StrI "or"; WordB] ].

(** re.compile(r"\b" + re.escape(kw) + r"\b", re.IGNORECASE) *)
Definition _COMPLEXITY_KEYWORD_RES : list regex :=
  map (fun kw => seqs [WordB; StrI kw; WordB]) COMPLEXITY_KEYWORDS.

Definition sentence_punct (c : ascii) : bool :=
  (Ascii.eqb c "." || Ascii.eqb c "?" || Ascii.eqb c "!")%bool.

(** [.?!](?:\s|$) *)
Definition _SENTENCE_END_RE : regex :=
  Seq (Class sentence_punct) (Alt ws Eos).

Record Features := {
  word_count : nat;
  char_count : nat;
  question_count : nat;
  has_complexity_keywords : bool;
  has_ambiguity_markers : bool;
  has_complaint_markers : bool;
  has_comparison_pattern : bool;
  sentence_count : nat }.

Definition _extract_features (query : string) : Features :=
  let query_lower := Py.lower query in
  {| word_count := length (Py.split_ws query_lower);
     char_count := Py.len query;
     question_count := Py.count_char "?" query;
     sentence_count := length (findall _SENTENCE_END_RE query);
     has_complexity_keywords :=
       existsb (fun pat => search pat query_lower) _COMPLEXITY_KEYWORD_RES;
     has_ambiguity_markers :=
       existsb (fun m => Py.contains m query_lower) AMBIGUITY_MARKERS;
     has_complaint_markers :=
       existsb (fun m => Py.contains m query_lower) COMPLAINT_MARKERS;
     has_comparison_pattern :=
       existsb (fun pat => search pat query_lower) _COMPARISON_PATTERN_RES |}.

(** The body of [classify_query] once the features are extracted: six
    tests, each an early return, with the score built up by successive
    additions to a local variable. *)
Definition classify_features (f : Features) : string :=
  (* NODE 1 *)
  if (Nat.leb (word_count f) 3 && Nat.leb (question_count f) 1
      && negb (has_complexity_keywords f))%bool then "simple"
  (* NODE 2 *)
  else if has_complaint_markers f then "complex"
  (* NODE 3 *)
  else if Nat.leb 3 (question_count f) then "complex"
  (* NODE 4 *)
  else if has_comparison_pattern f then "complex"
  else
    (* NODE 5 *)
    let complexity_score := 0 in
    let complexity_score :=
      if has_complexity_keywords f then complexity_score + 2 else complexity_score in
    let complexity_score :=
      if has_ambiguity_markers f then complexity_score + 2 else complexity_score in
    let complexity_score :=
      if Nat.ltb 40 (word_count f) then complexity_score + 1 else complexity_score in
    let complexity_score :=
      if Nat.leb 3 (sentence_count f) then complexity_score + 1 else complexity_score in
    if Nat.leb 2 complexity_score then "complex"
    (* NODE 6 *)
    else if (Nat.ltb 25 (word_count f) && has_ambiguity_markers f)%bool then "complex"
    else "simple".

Definition classify_query (query : string) : string :=
  let f := _extract_features query in
  classify_features f.

(** *** The decision tree as section 4.5 of the specification words it *)

Inductive route := Simple | Complex.

Definition route_name (r : route) : string :=
  match r with Simple => "simple" | Complex => "complex" end.

Definition spec_score (f : Features) : nat :=
  (if has_complexity_keywords f then 2 else 0)
  + (if has_ambiguity_markers f then 2 else 0)
  + (if Nat.ltb 40 (word_count f) then 1 else 0)
  + (if Nat.leb 3 (sentence_count f) then 1 else 0).

Definition spec_node (n : nat) (f : Features) : bool :=
  match n with
  | 1 => (Nat.leb (word_count f) 3 && Nat.leb (question_count f) 1
          && negb (has_complexity_keywords f))%bool
  | 2 => has_complaint_markers f
  | 3 => Nat.leb 3 (question_count f)
  | 4 => has_comparison_pattern f
  | 5 => Nat.leb 2 (spec_score f)
  | 6 => (Nat.ltb 25 (word_count f) && has_ambiguity_markers f)%bool
  | _ => false
  end.

Definition spec_outcome (n : nat) : route :=
  match n with 1 => Simple | _ => Complex end.

(** First match wins; when no node fires the answer is simple. *)
Definition spec_tree (f : Features) : route :=
  match List.find (fun n => spec_node n f) [1; 2; 3; 4; 5; 6] with
  | Some n => spec_outcome n
  | None => Simple
  end.

End Router.

(* ===================================================================== *)
(** ** backend/evaluator/output_evaluator.py *)
(* ===================================================================== *)

Module Evaluator.
Import Re.

Definition REFUSAL_PHRASES : list string :=
  [ "i cannot";
    "i can't";
    "i don't have information";
    "i don't have enough information";
    "i do not have";
    "i'm not sure";
    "i am not sure";
    "i'm unable to";
    "i am unable to";
    "outside my knowledge";
    "beyond my scope";
    "not able to help";
    "cannot assist with";
    "no information available";
    "unfortunately, i don't";
    "i apologize, but i";
    "i'm sorry, but i don't" ].

Definition ALLOWED_TERMS : list string := ["Clearpath"; "Clearpath Assistant"].

Definition ws : regex := Class Py.isspace.
Definition digit : regex := Class Py.isdigit.

(** \$\d+(?:\.\d{2})?(?:\s*/\s*(?:month|year|mo|yr))?  with re.IGNORECASE *)
Definition _PRICE_RE : regex :=
  Router.seqs
    [ Lit "$"; Plus digit;
      Opt (Router.seqs [Lit "."; digit; digit]);
      Opt (Router.seqs
             [ Star ws; Lit "/"; Star ws;
               Alt (StrI "month") (Alt (StrI "year") (Alt (StrI "mo") (StrI "yr"))) ]) ].

Definition capitalised : regex :=
  Seq (Class Py.isupper_ascii) (Plus (Class Py.islower_ascii)).

(** \b[A-Z][a-z]+(?:\s+[A-Z][a-z]+)+\b *)
Definition _PROPER_NOUN_RE : regex :=
  Router.seqs [ WordB; capitalised; Plus (Seq (Plus ws) capitalised); WordB ].

Definition extract_prices (text : string) : list string :=
  findall _PRICE_RE text.

Definition extract_proper_nouns (text : string) : list string :=
  findall _PROPER_NOUN_RE text.

(** A retrieved chunk as the evaluator receives it: a dict with the keys
    text, source_file, page_number and score.  Only "text" is read, through
    [c.get("text", "")], so the key may be missing. *)
Record chunk_dict := { cd_text : option string }.

Definition get_text (c : chunk_dict) : string :=
  match cd_text c with Some t => t | None => "" end.

Definition mem (x : string) (l : list string) : bool :=
  existsb (String.eqb x) l.

(** The two [for] loops of [check_hallucination], each returning at the
    first offending element. *)
Definition check_hallucination (response_text : string)
           (retrieved_chunks : list chunk_dict) : option string :=
  let chunk_text := Py.join " " (map get_text retrieved_chunks) in
  let response_prices := extract_prices response_text in
  let chunk_prices_set := extract_prices chunk_text in
  if existsb (fun price => negb (mem price chunk_prices_set)) response_prices
  then Some "potential_hallucination"
  else
    let response_names := extract_proper_nouns response_text in
    let chunk_names_set := extract_proper_nouns chunk_text in
    if existsb (fun name => (negb (mem name chunk_names_set)
                             && negb (mem name ALLOWED_TERMS))%bool)
               response_names
    then Some "potential_hallucination"
    else None.

(** [for phrase in REFUSAL_PHRASES: if phrase in response_lower:
    flags.append(...); break] *)
Fixpoint refusal_loop (phrases : list string) (response_lower : string)
         (flags : list string) : list string :=
  match phrases with
  | [] => flags
  | phrase :: rest =>
      if Py.contains phrase response_lower
      then flags ++ ["refusal_detected"]
      else refusal_loop rest response_lower flags
  end.

Definition evaluate_output (response_text : string) (retrieval_count : Z)
           (retrieved_chunks : list chunk_dict) : list string :=
  let flags : list string := [] in
  let flags := if Z.eqb retrieval_count 0
               then flags ++ ["no_context_warning"] else flags in
  let response_lower := Py.lower response_text in
  let flags := refusal_loop REFUSAL_PHRASES response_lower flags in
  let hallucination_flag := check_hallucination response_text retrieved_chunks in
  match hallucination_flag with
  | Some flag => if Py.truthy flag then flags ++ [flag] else flags
  | None => flags
  end.

(** The fixed order in which the three checks run. *)
Definition ALL_FLAGS : list string :=
  ["no_context_warning"; "refusal_detected"; "potential_hallucination"].

(** [flags.count("refusal_detected")] *)
Definition refusal_count (flags : list string) : nat :=
  count_occ string_dec flags "refusal_detected".

End Evaluator.

(* ===================================================================== *)
(** ** Exceptions and the state-and-exception monad *)
(* ===================================================================== *)

(** The exception classes the modelled code raises or lets through. *)
Inductive exn : Type :=
| RuntimeError        (* dimension mismatch on load; PyMuPDF cannot open *)
| ValueError          (* dimension mismatch on add; no extractable text *)
| IndexError          (* list or tuple index out of range *)
| TypeError
| OSError             (* a failing file-system call *)
| FaissError          (* raised inside the faiss library *)
| PickleError         (* raised inside pickle *)
| NumpyError.         (* np.array refuses a ragged or partly missing input *)

Inductive result (A : Type) : Type :=
| Ok (a : A)
| Raise (e : exn).
Arguments Ok {A} a.
Arguments Raise {A} e.

Definition is_ok {A} (r : result A) : bool :=
  match r with Ok _ => true | Raise _ => false end.

(** A computation over a mutable world [W]: mutations made before an
    exception is raised stay in place, as in Python. *)
Definition M (W A : Type) : Type := W -> result A * W.

Definition ret {W A} (a : A) : M W A := fun w => (Ok a, w).
Definition raise {W A} (e : exn) : M W A := fun w => (Raise e, w).
Definition bind {W A B} (c : M W A) (k : A -> M W B) : M W B :=
  fun w => match c w with
           | (Ok a, w') => k a w'
           | (Raise e, w') => (Raise e, w')
           end.
Definition get {W} : M W W := fun w => (Ok w, w).
Definition put {W} (w : W) : M W unit := fun _ => (Ok tt, w).
Definition lift_result {W A} (r : result A) : M W A := fun w => (r, w).

Declare Scope py_scope.
Delimit Scope py_scope with py.
Notation "'let*' x ':=' c 'in' k" := (bind c (fun x => k))
  (at level 10, x name, c at level 100, k at level 200) : py_scope.

(* ===================================================================== *)
(** ** backend/rag/vector_store.py *)
(* ===================================================================== *)

Module VectorStore.
Local Open Scope py_scope.

(** A float32 vector; its entries are modelled by rationals. *)
Definition vector : Type := list Q.

Record ChunkRecord := {
  chunk_id : string;
  text : string;
  source_file : string;
  page_number : Z;
  chunk_index : nat;
  embedding : option vector }.

(** The metadata dict produced by [ChunkRecord.to_dict]; [search] adds the
    key "score" to a copy of it. *)
Record Meta := {
  m_chunk_id : string;
  m_text : string;
  m_source_file : string;
  m_page_number : Z;
  m_chunk_index : nat }.

Definition to_dict (r : ChunkRecord) : Meta :=
  {| m_chunk_id := chunk_id r; m_text := text r;
     m_source_file := source_file r; m_page_number := page_number r;
     m_chunk_index := chunk_index r |}.

(** faiss.IndexFlatIP: its dimension [d] and the stored vectors, the i-th
    of which has internal id i. *)
Record IndexFlatIP := { d : nat; xb : list vector }.

Definition ntotal (ix : IndexFlatIP) : nat := length (xb ix).

Definition new_index (dim : nat) : IndexFlatIP := {| d := dim; xb := [] |}.

(** [index.add(x)] for a two-dimensional array [x] with [cols] columns;
    faiss asserts that the width of [x] is the index dimension. *)
Definition index_add (ix : IndexFlatIP) (cols : nat) (rows : list vector)
  : result IndexFlatIP :=
  if Nat.eqb cols (d ix) then Ok {| d := d ix; xb := xb ix ++ rows |}
  else Raise FaissError.

(** A file of the index directory. *)
Inductive file (A : Type) : Type :=
| Absent
| Garbled                 (* present, but not a complete serialisation *)
| Content (a : A).
Arguments Absent {A}.
Arguments Garbled {A}.
Arguments Content {A} a.

Definition exists_ {A} (f : file A) : bool :=
  match f with Absent => false | _ => true end.

Record disk := { faiss_file : file IndexFlatIP; pkl_file : file (list Meta) }.

Record store := {
  dimension : nat;
  _index : option IndexFlatIP;
  _metadata : list Meta;
  _loaded : bool }.

Record world := { st : store; dk : disk }.

(** [VectorStore.__init__] *)
Definition init (dim : nat) : store :=
  {| dimension := dim; _index := None; _metadata := []; _loaded := false |}.

(** settings.EMBEDDING_DIM *)
Definition EMBEDDING_DIM : nat := 384.

Definition set_store (s : store) : M world unit :=
  fun w => (Ok tt, {| st := s; dk := dk w |}).
Definition set_disk (dsk : disk) : M world unit :=
  fun w => (Ok tt, {| st := st w; dk := dsk |}).

Definition read_index (f : file IndexFlatIP) : M world IndexFlatIP :=
  match f with
  | Content ix => ret ix
  | _ => raise FaissError
  end.

Definition pickle_load (f : file (list Meta)) : M world (list Meta) :=
  match f with
  | Content m => ret m
  | _ => raise PickleError
  end.

Definition load : M world unit :=
  let* w := get in
  let self := st w in
  let* _ :=
    (if (exists_ (faiss_file (dk w)) && exists_ (pkl_file (dk w)))%bool then
       let* index := read_index (faiss_file (dk w)) in
       let loaded_dim := d index in
       if negb (Nat.eqb loaded_dim (dimension self)) then raise RuntimeError
       else
         let* metadata := pickle_load (pkl_file (dk w)) in
         set_store {| dimension := dimension self; _index := Some index;
                      _metadata := metadata; _loaded := _loaded self |}
     else
       set_store {| dimension := dimension self;
                    _index := Some (new_index (dimension self));
                    _metadata := []; _loaded := _loaded self |}) in
  let* w' := get in
  set_store {| dimension := dimension (st w'); _index := _index (st w');
               _metadata := _metadata (st w'); _loaded := true |}.

Definition _ensure_loaded : M world unit :=
  let* w := get in
  if negb (_loaded (st w)) then load else ret tt.

(** What the file system does to one call of [persist]: every step may
    succeed, or one of them fails.  A failing write either never touched
    its file or left it incomplete. *)
Inductive fault : Type :=
| NoFault
| MakedirsFails
| WriteIndexFails (partial : bool)
| DumpFails (partial : bool).

Definition makedirs (f : fault) : M world unit :=
  match f with MakedirsFails => raise OSError | _ => ret tt end.

(** faiss.write_index(self._index, self.faiss_path) *)
Definition write_index (f : fault) : M world unit :=
  let* w := get in
  match _index (st w) with
  | None => raise TypeError
  | Some ix =>
      match f with
      | WriteIndexFails partial =>
          let* _ :=
            (if partial
             then set_disk {| faiss_file := Garbled; pkl_file := pkl_file (dk w) |}
             else ret tt) in
          raise FaissError
      | _ => set_disk {| faiss_file := Content ix; pkl_file := pkl_file (dk w) |}
      end
  end.

(** with open(self.pkl_path, "wb") as fh: pickle.dump(self._metadata, fh) *)
Definition dump_metadata (f : fault) : M world unit :=
  let* w := get in
  match f with
  | DumpFails partial =>
      let* _ :=
        (if partial
         then set_disk {| faiss_file := faiss_file (dk w); pkl_file := Garbled |}
         else ret tt) in
      raise OSError
  | _ => set_disk {| faiss_file := faiss_file (dk w);
                     pkl_file := Content (_metadata (st w)) |}
  end.

Definition persist (f : fault) : M world unit :=
  let* _ := _ensure_loaded in
  let* _ := makedirs f in
  let* _ := write_index f in
  dump_metadata f.

Fixpoint all_some {A} (l : list (option A)) : option (list A) :=
  match l with
  | [] => Some []
  | Some a :: l' => match all_some l' with Some r => Some (a :: r) | None => None end
  | None :: _ => None
  end.

(** np.array(rows, dtype=np.float32) followed by the read of [shape[1]]:
    a rectangular input gives its width; a ragged one, or one with a
    missing embedding, makes one of the two raise. *)
Definition np_array (rows : list (option vector)) : result (nat * list vector) :=
  match all_some rows with
  | Some (v :: vs) =>
      if forallb (fun v' => Nat.eqb (length v') (length v)) vs
      then Ok (length v, v :: vs)
      else Raise NumpyError
  | Some [] => Raise IndexError
  | None => Raise NumpyError
  end.

Definition add (records : list ChunkRecord) : M world unit :=
  let* _ := _ensure_loaded in
  match records with
  | [] => ret tt
  | _ =>
      let* embeddings := lift_result (np_array (map embedding records)) in
      let* w := get in
      let self := st w in
      if negb (Nat.eqb (fst embeddings) (dimension self)) then raise ValueError
      else
        match _index self with
        | None => raise TypeError
        | Some ix =>
            let* ix' := lift_result (index_add ix (fst embeddings) (snd embeddings)) in
            set_store {| dimension := dimension self; _index := Some ix';
                         _metadata := _metadata self ++ map to_dict records;
                         _loaded := _loaded self |}
        end
  end.

(** One hit of [search]: the metadata and the score. *)
Record Hit := { h_meta : Meta; h_score : Q }.

(** [l[idx]] with Python's treatment of negative indices. *)
Definition py_index {A} (l : list A) (idx : Z) : result A :=
  let i := if Z.ltb idx 0 then (Z.of_nat (length l) + idx)%Z else idx in
  if Z.ltb i 0 then Raise IndexError
  else match nth_error l (Z.to_nat i) with
       | Some a => Ok a
       | None => Raise IndexError
       end.

Section WithFaiss.
(** [self._index.search(query, k)]: the pairs of [zip(scores[0],
    indices[0])].  The search itself belongs to faiss. *)
Variable faiss_search :
  IndexFlatIP -> vector -> nat -> result (list (Q * Z)).

Fixpoint collect_hits (metadata : list Meta) (pairs : list (Q * Z))
  : result (list Hit) :=
  match pairs with
  | [] => Ok []
  | (score, idx) :: rest =>
      if Z.eqb idx (-1) then collect_hits metadata rest
      else match py_index metadata idx with
           | Raise e => Raise e
           | Ok meta =>
               match collect_hits metadata rest with
               | Raise e => Raise e
               | Ok hits => Ok ({| h_meta := meta; h_score := score |} :: hits)
               end
           end
  end.

Definition search (query_embedding : vector) (k : nat) : M world (list Hit) :=
  let* _ := _ensure_loaded in
  let* w := get in
  match _index (st w) with
  | None => raise TypeError
  | Some ix =>
      if Nat.eqb (ntotal ix) 0 then ret []
      else
        let* pairs := lift_result (faiss_search ix query_embedding k) in
        lift_result (collect_hits (_metadata (st w)) pairs)
  end.
End WithFaiss.

Definition get_total_chunks : M world nat :=
  let* _ := _ensure_loaded in
  let* w := get in
  match _index (st w) with
  | Some ix => ret (ntotal ix)
  | None => raise TypeError
  end.

Definition is_loaded (s : store) : bool := _loaded s.

Definition get_dimension : M world nat :=
  let* _ := _ensure_loaded in
  let* w := get in
  match _index (st w) with
  | Some ix => ret (d ix)
  | None => raise TypeError
  end.

(** Number of vectors held in memory; a store that was never loaded has
    no index object yet. *)
Definition index_count (s : store) : nat :=
  match _index s with Some ix => ntotal ix | None => 0 end.

(** *** Sequences of operations *)

Inductive op : Type :=
| OpLoad
| OpAdd (records : list ChunkRecord)
| OpSearch (query_embedding : vector) (k : nat)
| OpPersist (f : fault).

Section Runs.
Variable faiss_search :
  IndexFlatIP -> vector -> nat -> result (list (Q * Z)).

(** The world after one operation, whether it returned or raised. *)
Definition step (o : op) (w : world) : world :=
  match o with
  | OpLoad => snd (load w)
  | OpAdd records => snd (add records w)
  | OpSearch q k => snd (search faiss_search q k w)
  | OpPersist f => snd (persist f w)
  end.

Definition run (ops : list op) (w : world) : world :=
  fold_left (fun w o => step o w) ops w.
End Runs.

(** In-memory invariant: sidecar length = index vector count. *)
Definition aligned (s : store) : Prop :=
  length (_metadata s) = index_count s.

(** The two files, when both hold complete data, describe the same
    number of chunks. *)
Definition disk_consistent (dsk : disk) : Prop :=
  forall ix m, faiss_file dsk = Content ix -> pkl_file dsk = Content m ->
               length m = ntotal ix.

(** Both together: what every operation other than a torn persist keeps. *)
Definition good (w : world) : Prop :=
  aligned (st w) /\ disk_consistent (dk w).

(** A persist whose sidecar write fails without touching index.pkl, after
    index.faiss has been rewritten. *)
Definition torn (o : op) : bool :=
  match o with OpPersist (DumpFails false) => true | _ => false end.

End VectorStore.

(* ===================================================================== *)
(** ** backend/rag/retriever.py *)
(* ===================================================================== *)

Module Retriever.
Import Re.
Local Open Scope py_scope.

(** Scores are Python floats; they are modelled by rationals, on which
    the comparisons of the code are the usual order. *)
Record RetrievedChunk := {
  text : string;
  source_file : string;
  page_number : Z;
  score : Q }.

(** [RetrievedChunk] objects are mutable and shared between the lists
    that hold them: a list holds references, the heap holds the fields. *)
Definition ref : Type := nat.
Definition heap : Type := ref -> RetrievedChunk.

Definition upd (h : heap) (l : ref) (v : RetrievedChunk) : heap :=
  fun l' => if Nat.eqb l' l then v else h l'.

Definition set_text (h : heap) (l : ref) (v : string) : heap :=
  upd h l {| text := v; source_file := source_file (h l);
             page_number := page_number (h l); score := score (h l) |}.
Definition set_score (h : heap) (l : ref) (v : Q) : heap :=
  upd h l {| text := text (h l); source_file := source_file (h l);
             page_number := page_number (h l); score := v |}.
Definition set_source_file (h : heap) (l : ref) (v : string) : heap :=
  upd h l {| text := text (h l); source_file := v;
             page_number := page_number (h l); score := score (h l) |}.
Definition set_page_number (h : heap) (l : ref) (v : Z) : heap :=
  upd h l {| text := text (h l); source_file := source_file (h l);
             page_number := v; score := score (h l) |}.

Definition Qgtb (x y : Q) : bool := negb (Qle_bool x y).
Definition Qltb (x y : Q) : bool := negb (Qle_bool y x).

(** [set(s)] *)
Definition char_set (s : string) : gset ascii :=
  list_to_set (list_ascii_of_string s).

(** [len(set_a & set_b) / len(union)] is a quotient of two small
    integers, so the float comparison [sim > 0.80] of [deduplicate] holds
    exactly when the rational exceeds 4/5. *)
Definition _jaccard_similarity (a b : string) : Q :=
  let set_a := char_set a in
  let set_b := char_set b in
  let union := set_a ∪ set_b in
  if Nat.eqb (size union) 0 then 0
  else Z.of_nat (size (set_a ∩ set_b)) # Pos.of_nat (size union).

(** The four assignments that overwrite [existing] with [candidate]. *)
Definition overwrite (h : heap) (existing candidate : ref) : heap :=
  let h := set_text h existing (text (h candidate)) in
  let h := set_score h existing (score (h candidate)) in
  let h := set_source_file h existing (source_file (h candidate)) in
  set_page_number h existing (page_number (h candidate)).

(** The inner loop of [deduplicate]: the heap afterwards and the final
    value of [is_duplicate]. *)
Fixpoint scan_accepted (h : heap) (candidate : ref) (accepted : list ref)
  : heap * bool :=
  match accepted with
  | [] => (h, false)
  | existing :: rest =>
      let sim := _jaccard_similarity (text (h candidate)) (text (h existing)) in
      if Qgtb sim (80 # 100) then
        ((if Qgtb (score (h candidate)) (score (h existing))
          then overwrite h existing candidate else h), true)
      else scan_accepted h candidate rest
  end.

Fixpoint dedup_loop (h : heap) (chunks accepted : list ref) : heap * list ref :=
  match chunks with
  | [] => (h, accepted)
  | candidate :: rest =>
      let '(h', is_duplicate) := scan_accepted h candidate accepted in
      dedup_loop h' rest (if is_duplicate then accepted else accepted ++ [candidate])
  end.

Definition deduplicate (h : heap) (chunks : list ref) : heap * list ref :=
  match chunks with
  | [] => (h, [])
  | _ => dedup_loop h chunks []
  end.

(** *** The same loops, recording which accepted chunks were overwritten *)

Fixpoint scan_overwritten (h : heap) (candidate : ref) (accepted : list ref)
  : option ref :=
  match accepted with
  | [] => None
  | existing :: rest =>
      let sim := _jaccard_similarity (text (h candidate)) (text (h existing)) in
      if Qgtb sim (80 # 100) then
        if Qgtb (score (h candidate)) (score (h existing))
        then Some existing else None
      else scan_overwritten h candidate rest
  end.

Fixpoint overwritten_loop (h : heap) (chunks accepted : list ref) : list ref :=
  match chunks with
  | [] => []
  | candidate :: rest =>
      let '(h', is_duplicate) := scan_accepted h candidate accepted in
      let here := match scan_overwritten h candidate accepted with
                  | Some e => [e]
                  | None => []
                  end in
      here ++ overwritten_loop h' rest
                (if is_duplicate then accepted else accepted ++ [candidate])
  end.

(** The accepted chunks into which a higher-scored candidate was
    score-replaced during [deduplicate h chunks]. *)
Definition score_replaced (h : heap) (chunks : list ref) : list ref :=
  overwritten_loop h chunks [].

(** *** Re-ranking *)

Definition filename_sep (c : ascii) : bool :=
  (Ascii.eqb c "_" || Ascii.eqb c "-" || Ascii.eqb c "." || Py.isspace c)%bool.

Definition _extract_filename_keywords (source_file : string) : list string :=
  (* re.sub(r"\.pdf$", "", source_file, flags=re.IGNORECASE) *)
  let stem := sub (Seq (Lit ".") (Seq (StrI "pdf") Eos)) "" source_file in
  (* re.split(r"[_\-.\s]+", stem) *)
  let tokens := split (Plus (Class filename_sep)) stem in
  map Py.lower (List.filter (fun t => Nat.leb 3 (Py.len t)) tokens).

Definition BOOST : Q := 5 # 100.

Definition boost_one (query_lower : string) (h : heap) (chunk : ref) : heap :=
  let keywords := _extract_filename_keywords (source_file (h chunk)) in
  if existsb (fun kw => Py.contains kw query_lower) keywords
  then set_score h chunk (score (h chunk) + BOOST)
  else h.

(** [list.sort(key=lambda c: c.score, reverse=True)]: a stable sort, the
    larger scores first. *)
Fixpoint insert_desc (h : heap) (x : ref) (l : list ref) : list ref :=
  match l with
  | [] => [x]
  | y :: l' => if Qgtb (score (h y)) (score (h x))
               then y :: insert_desc h x l' else x :: l
  end.

Definition sort_desc (h : heap) (l : list ref) : list ref :=
  fold_right (insert_desc h) [] l.

Definition _apply_reranking_boost (h : heap) (chunks : list ref)
           (query_lower : string) : heap * list ref :=
  let h' := fold_left (boost_one query_lower) chunks h in
  (h', sort_desc h' chunks).

(** settings.TOP_K and settings.SIMILARITY_THRESHOLD *)
Definition TOP_K : nat := 5.
Definition SIMILARITY_THRESHOLD : Q := 35 # 100.

Definition blank : RetrievedChunk :=
  {| text := ""; source_file := ""; page_number := 0; score := 0 |}.

(** The filtering loop of [retrieve]: one fresh object per search result
    that passes the threshold.  [next] is the next free reference. *)
Fixpoint filter_hits (threshold : Q) (raw_results : list VectorStore.Hit)
         (h : heap) (next : ref) (retrieved : list ref) : heap * list ref :=
  match raw_results with
  | [] => (h, retrieved)
  | res :: rest =>
      let score := VectorStore.h_score res in
      if Qltb score threshold then filter_hits threshold rest h next retrieved
      else
        let obj := {| text := VectorStore.m_text (VectorStore.h_meta res);
                      source_file := VectorStore.m_source_file (VectorStore.h_meta res);
                      page_number := VectorStore.m_page_number (VectorStore.h_meta res);
                      score := score |} in
        filter_hits threshold rest (upd h next obj) (S next) (retrieved ++ [next])
  end.

(** What [retrieve] does once the search results are there. *)
Definition rank (query : string) (threshold : Q)
           (raw_results : list VectorStore.Hit) : list RetrievedChunk :=
  let '(h, retrieved) := filter_hits threshold raw_results (fun _ => blank) 0 [] in
  let query_lower := Py.lower query in
  let '(h, retrieved) := _apply_reranking_boost h retrieved query_lower in
  let '(h, retrieved) := deduplicate h retrieved in
  map h retrieved.

(** Two texts are near-duplicates when the test of [deduplicate] fires. *)
Definition near (a b : string) : bool :=
  Qgtb (_jaccard_similarity a b) (80 # 100).

(** No two distinct positions of [accepted] hold near-duplicates, unless
    one of the two chunks is listed in [ow]. *)
Definition separated (h : heap) (accepted ow : list ref) : Prop :=
  forall i j a b,
    i <> j -> accepted !! i = Some a -> accepted !! j = Some b ->
    a ∈ ow \/ b ∈ ow \/ near (text (h a)) (text (h b)) = false.

(** A chunk as the filtering loop of [retrieve] creates it: the fields of
    a search result that passes the threshold, the score not boosted. *)
Definition plain (threshold : Q) (raw_results : list VectorStore.Hit)
           (v : RetrievedChunk) : Prop :=
  exists hit,
    hit ∈ raw_results
    /\ (threshold <= VectorStore.h_score hit)%Q
    /\ text v = VectorStore.m_text (VectorStore.h_meta hit)
    /\ source_file v = VectorStore.m_source_file (VectorStore.h_meta hit)
    /\ page_number v = VectorStore.m_page_number (VectorStore.h_meta hit)
    /\ score v = VectorStore.h_score hit.

(** [v] carries the text, file and page of a search result whose score is
    at least the threshold, and that score, boosted or not. *)
Definition from_hit (threshold : Q) (raw_results : list VectorStore.Hit)
           (v : RetrievedChunk) : Prop :=
  exists hit,
    hit ∈ raw_results
    /\ (threshold <= VectorStore.h_score hit)%Q
    /\ text v = VectorStore.m_text (VectorStore.h_meta hit)
    /\ source_file v = VectorStore.m_source_file (VectorStore.h_meta hit)
    /\ page_number v = VectorStore.m_page_number (VectorStore.h_meta hit)
    /\ (score v = VectorStore.h_score hit
        \/ score v = (VectorStore.h_score hit + BOOST)%Q).

Section WithModels.
(** [embedder.encode(query)] and the faiss search are external. *)
Variable encode : string -> VectorStore.vector.
Variable faiss_search :
  VectorStore.IndexFlatIP -> VectorStore.vector -> nat -> result (list (Q * Z)).

Definition retrieve (query : string) (k : nat) (threshold : Q)
  : M VectorStore.world (list RetrievedChunk) :=
  let query_embedding := encode query in
  let* raw_results := VectorStore.search faiss_search query_embedding k in
  ret (rank query threshold raw_results).
End WithModels.

End Retriever.

(* ===================================================================== *)
(** ** Python floats (IEEE binary64) for the arithmetic of ingestion *)
(* ===================================================================== *)

Module PyFloat.

(** [float(n)] for a length or a count. *)
Definition of_nat (n : nat) : float :=
  PrimFloat.of_uint63 (Uint63.of_Z (Z.of_nat n)).

(** [int(x)]: truncation towards zero of a finite float. *)
Definition to_int (x : float) : Z :=
  match Prim2SF x with
  | S754_finite s m e =>
      let v := if Z.leb 0 e then (Zpos m * 2 ^ e)%Z else (Zpos m / 2 ^ (- e))%Z in
      if s then (- v)%Z else v
  | _ => 0%Z
  end.

End PyFloat.

(* ===================================================================== *)
(** ** backend/utils/text_sanitizer.py (the part ingestion uses) *)
(* ===================================================================== *)

Module TextSanitizer.
Import Re.

(** [^\x09\x0A\x0D\x20-\x7E\x80-\xFF] *)
Definition not_printable (c : ascii) : bool :=
  negb (N.eqb (Py.code c) 9 || N.eqb (Py.code c) 10 || N.eqb (Py.code c) 13
        || Py.in_range 32 126 c || Py.in_range 128 255 c)%bool.

Definition blank_or_tab (c : ascii) : bool :=
  (N.eqb (Py.code c) 32 || N.eqb (Py.code c) 9)%bool.

Definition nl : regex := Lit "010".

Definition sanitize_pdf_text (text : string) : string :=
  if negb (Py.truthy text) then ""
  else
    let text := sub (Lit "000") "" text in               (* replace("\x00", "") *)
    let text := sub (Class not_printable) "" text in
    let text := sub (Plus (Class blank_or_tab)) " " text in  (* [ \t]+ *)
    let text := sub (Seq nl (Seq nl (Plus nl)))
                    (String "010" (String "010" "")) text in  (* \n{3,} *)
    Py.strip text.


(** <[^>]*> *)
Definition html_tag : regex :=
  Seq (Lit "<") (Seq (Star (Class (fun c => negb (Ascii.eqb c ">")))) (Lit ">")).

Definition sanitize_input (text : string) : string :=
  if negb (Py.truthy text) then ""
  else
    let text := sub (Lit "000") "" text in               (* replace("\x00", "") *)
    let text := sub html_tag "" text in
    let text := sub (Class not_printable) "" text in
    let text := sub (Plus (Class blank_or_tab)) " " text in
    let text := sub (Seq nl (Seq nl (Plus nl)))
                    (String "010" (String "010" "")) text in
    Py.strip text.

(** \[PAGE_BREAK:\d+\] *)
Definition _PAGE_BREAK_RE : regex :=
  Seq (Str "[PAGE_BREAK:") (Seq (Plus (Class Py.isdigit)) (Lit "]")).

Definition spaces : regex := Star (Class Py.isspace).

(** ^\s*SYSTEM\s*: , ^\s*INSTRUCTION\s*: , ^\s*IGNORE\s+PREVIOUS and
    ^\s*YOU\s+ARE , all under re.IGNORECASE. *)
Definition _INJECTION_PATTERNS : list regex :=
  [ Seq spaces (Seq (StrI "SYSTEM") (Seq spaces (Lit ":")));
    Seq spaces (Seq (StrI "INSTRUCTION") (Seq spaces (Lit ":")));
    Seq spaces (Seq (StrI "IGNORE") (Seq (Plus (Class Py.isspace)) (StrI "PREVIOUS")));
    Seq spaces (Seq (StrI "YOU") (Seq (Plus (Class Py.isspace)) (StrI "ARE"))) ].

Definition _CHUNK_MAX_TOKENS : nat := 600.

(** [bool(pat.match(line))] *)
Definition pat_match (pat : regex) (line : string) : bool :=
  match match_here pat None line with Some _ => true | None => false end.

Definition sanitize_chunk (text : string) : string :=
  if negb (Py.truthy text) then ""
  else
    let text := sub _PAGE_BREAK_RE "" text in
    let text := sub (Plus (Class blank_or_tab)) " " text in
    let text := sub (Seq nl (Seq nl (Plus nl)))
                    (String "010" (String "010" "")) text in
    let lines := Py.split_sep text (String "010" "") in
    let filtered_lines :=
      List.filter
        (fun line => negb (existsb (fun pat => pat_match pat line) _INJECTION_PATTERNS))
        lines in
    let text := Py.join (String "010" "") filtered_lines in
    (* int(_CHUNK_MAX_TOKENS * 0.75) *)
    let max_words :=
      Z.to_nat (PyFloat.to_int
                  (PrimFloat.mul (PyFloat.of_nat _CHUNK_MAX_TOKENS) 0.75%float)) in
    let words := Py.split_ws text in
    let text := if Nat.ltb max_words (length words)
                then Py.join " " (firstn max_words words) else text in
    Py.strip text.

End TextSanitizer.

(* ===================================================================== *)
(** ** backend/utils/token_counter.py *)
(* ===================================================================== *)

Module TokenCounter.

(** The tokenizer of the embedding model.  [None] from one of its methods
    stands for an exception, which the callers catch. *)
Record Tokenizer := {
  encode : string -> option (list nat);
  decode : list nat -> option string }.

Section WithTokenizer.
(** The value of [_get_tokenizer()]: the cached tokenizer, or [None]
    once loading it has failed. *)
Variable tokenizer : option Tokenizer.

(** int(len(words) / 0.75) *)
Definition count_fallback (text : string) : nat :=
  let words := Py.split_ws text in
  Z.to_nat (PyFloat.to_int
              (PrimFloat.div (PyFloat.of_nat (length words)) 0.75%float)).

Definition count_tokens (text : string) : nat :=
  if negb (Py.truthy text) then 0
  else
    match tokenizer with
    | Some t =>
        match encode t text with
        | Some token_ids => length token_ids
        | None => count_fallback text
        end
    | None => count_fallback text
    end.

(** [l[-n:]] for n > 0 *)
Definition last_n {A} (n : nat) (l : list A) : list A :=
  skipn (length l - n) l.

Definition last_fallback (text : string) (n : nat) : string :=
  let words := Py.split_ws text in
  let word_count :=
    Z.to_nat (Z.max 1 (PyFloat.to_int
                         (PrimFloat.mul (PyFloat.of_nat n) 0.75%float))) in
  Py.join " " (last_n word_count words).

Definition get_last_n_tokens (text : string) (n : nat) : string :=
  if (negb (Py.truthy text) || Nat.eqb n 0)%bool then ""
  else
    match tokenizer with
    | Some t =>
        match encode t text with
        | Some token_ids =>
            match decode t (last_n n token_ids) with
            | Some s => s
            | None => last_fallback text n
            end
        | None => last_fallback text n
        end
    | None => last_fallback text n
    end.
End WithTokenizer.

End TokenCounter.

(* ===================================================================== *)
(** ** backend/rag/ingestion.py *)
(* ===================================================================== *)

Module Ingestion.
Import Re.
Local Open Scope py_scope.

Definition NL : string := String "010" "".

Definition _SEPARATORS : list string := [NL +:+ NL; NL; ". "; " "].
Definition _CHUNK_SIZE : nat := 512.
Definition _CHUNK_OVERLAP : nat := 64.

(** \[PAGE_BREAK:(\d+)\] *)
Definition _PAGE_BREAK_PATTERN : regex :=
  Seq (Str "[PAGE_BREAK:") (Seq (Plus (Class Py.isdigit)) (Lit "]")).

(** [match.group(1)]: the digits between the prefix and the bracket. *)
Definition group1 (matched : string) : string :=
  Py.take (Py.len matched - 13) (Py.drop 12 matched).

(** [str(n)] *)
Definition str_of_nat (n : nat) : string :=
  NilEmpty.string_of_uint (Nat.to_uint n).

(** The page loop of [extract_text_from_pdf]; [page_num] is the 0-based
    index of the first page of [pages]. *)
Fixpoint concat_pages (pages : list string) (page_num : nat) (full_text : string)
  : string :=
  match pages with
  | [] => full_text
  | page_text :: rest =>
      let page_text := TextSanitizer.sanitize_pdf_text page_text in
      concat_pages rest (S page_num)
        (full_text +:+ page_text +:+ NL +:+ "[PAGE_BREAK:"
                   +:+ str_of_nat (page_num + 1) +:+ "]" +:+ NL)
  end.

(** [doc] is what PyMuPDF yields for the file: the text of each page, or
    the failure to open it. *)
Definition extract_text_from_pdf (doc : result (list string))
  : result (string * nat) :=
  match doc with
  | Raise e => Raise e
  | Ok pages =>
      let total_pages := length pages in
      let full_text := concat_pages pages 0 "" in
      let stripped := Py.strip (sub _PAGE_BREAK_PATTERN "" full_text) in
      if negb (Py.truthy stripped) then Raise ValueError
      else Ok (full_text, total_pages)
  end.

Section WithTokenizer.
Variable tokenizer : option TokenCounter.Tokenizer.

Definition count_tokens := TokenCounter.count_tokens tokenizer.
Definition get_last_n_tokens := TokenCounter.get_last_n_tokens tokenizer.

(** One turn of the loop over [segments]; the state is [(chunks,
    current)] and [recurse] is [_recursive_split] on the remaining
    separators. *)
Definition split_step (sep : string) (recurse : string -> list string)
           (state : list string * string) (segment : string)
  : list string * string :=
  let '(chunks, current) := state in
  let candidate := if negb (Py.truthy current) then segment
                   else current +:+ sep +:+ segment in
  if Nat.ltb _CHUNK_SIZE (count_tokens candidate) then
    if Py.truthy current then
      let chunks := chunks ++ [current] in
      let overlap_text := get_last_n_tokens current _CHUNK_OVERLAP in
      if Py.truthy overlap_text
      then (chunks, overlap_text +:+ sep +:+ segment)
      else (chunks, segment)
    else
      let sub_chunks := recurse segment in
      (chunks ++ removelast sub_chunks, List.last sub_chunks "")
  else (chunks, candidate).

Fixpoint _recursive_split (text : string) (separators : list string)
         {struct separators} : list string :=
  if Nat.leb (count_tokens text) _CHUNK_SIZE then [text]
  else
    match separators with
    | [] =>
        let words := Py.split_ws text in
        let mid := Nat.max 1 (length words / 2) in
        [Py.join " " (firstn mid words); Py.join " " (skipn mid words)]
    | sep :: remaining_seps =>
        if negb (Py.contains sep text)
        then _recursive_split text remaining_seps
        else
          let segments := Py.split_sep text sep in
          let '(chunks, current) :=
            fold_left
              (split_step sep (fun segment => _recursive_split segment remaining_seps))
              segments ([], "") in
          if Py.truthy current then chunks ++ [current] else chunks
    end.

(** [sorted(page_map, key=lambda x: x[0])], a stable sort. *)
Fixpoint insert_by_offset (x : nat * nat) (l : list (nat * nat)) : list (nat * nat) :=
  match l with
  | [] => [x]
  | y :: l' => if Nat.leb (fst y) (fst x) then y :: insert_by_offset x l' else x :: l
  end.

Definition _build_page_map (full_text : string) : list (nat * nat) :=
  let page_map :=
    map (fun m => (m_start m, Py.int_of_digits (group1 (m_text m))))
        (finditer _PAGE_BREAK_PATTERN full_text) in
  fold_right insert_by_offset [] (rev page_map).

(** The loop of [_lookup_page], with its [break]. *)
Fixpoint lookup_loop (char_offset : Z) (page_map : list (nat * nat)) (page : nat)
  : nat :=
  match page_map with
  | [] => page
  | (marker_offset, marker_page) :: rest =>
      if Z.leb (Z.of_nat marker_offset) char_offset
      then lookup_loop char_offset rest marker_page
      else page
  end.

Definition _lookup_page (char_offset : Z) (page_map : list (nat * nat)) : nat :=
  lookup_loop char_offset page_map 1.

(** int((idx / max(len(clean_text), 1)) * len(full_text)) *)
Definition approx_full_offset (idx : nat) (clean_text full_text : string) : Z :=
  let ratio := PrimFloat.div (PyFloat.of_nat idx)
                             (PyFloat.of_nat (Nat.max (Py.len clean_text) 1)) in
  PyFloat.to_int (PrimFloat.mul ratio (PyFloat.of_nat (Py.len full_text))).

(** The loop of [chunk_text] over the raw chunks. *)
Fixpoint assign_pages (clean_text full_text : string) (page_map : list (nat * nat))
         (raw_chunks : list string) (search_start : nat)
  : list (string * nat) :=
  match raw_chunks with
  | [] => []
  | chunk_text_content :: rest =>
      if negb (Py.truthy (Py.strip chunk_text_content))
      then assign_pages clean_text full_text page_map rest search_start
      else
        let idx := match Py.find clean_text chunk_text_content search_start with
                   | Some i => Some i
                   | None => Py.find clean_text chunk_text_content 0
                   end in
        match idx with
        | Some idx =>
            let page_num :=
              _lookup_page (approx_full_offset idx clean_text full_text) page_map in
            (Py.strip chunk_text_content, page_num)
            :: assign_pages clean_text full_text page_map rest
                            (idx + Py.len chunk_text_content)
        | None =>
            (Py.strip chunk_text_content, 1)
            :: assign_pages clean_text full_text page_map rest search_start
        end
  end.

(** The dicts of the result are pairs (text, page_number). *)
Definition chunk_text (full_text : string) : list (string * nat) :=
  let page_map := _build_page_map full_text in
  let clean_text := sub _PAGE_BREAK_PATTERN "" full_text in
  let raw_chunks := _recursive_split clean_text _SEPARATORS in
  assign_pages clean_text full_text page_map raw_chunks 0.

(** [embedder.encode(texts, batch_size=32)]: the rows of the array.
    [uuid4 i] is the identifier drawn for the i-th record. *)
Variable encode_batch : list string -> list VectorStore.vector.
Variable uuid4 : nat -> string.

(** for i, (meta, emb) in enumerate(zip(chunks_meta, embeddings)) *)
Fixpoint build_records (filename : string) (i : nat)
         (chunks_meta : list (string * nat)) (embeddings : list VectorStore.vector)
  : list VectorStore.ChunkRecord :=
  match chunks_meta, embeddings with
  | meta :: chunks_meta', emb :: embeddings' =>
      {| VectorStore.chunk_id := uuid4 i;
         VectorStore.text := fst meta;
         VectorStore.source_file := filename;
         VectorStore.page_number := Z.of_nat (snd meta);
         VectorStore.chunk_index := i;
         VectorStore.embedding := Some emb |}
      :: build_records filename (S i) chunks_meta' embeddings'
  | _, _ => []
  end.

(** [filename] is os.path.basename(file_path), [doc] the opened PDF and
    [f] what the file system does to the final [persist]. *)
Definition ingest_pdf (filename : string) (doc : result (list string))
           (f : VectorStore.fault)
  : M VectorStore.world (list VectorStore.ChunkRecord) :=
  let* extracted := lift_result (extract_text_from_pdf doc) in
  let full_text := fst extracted in
  let chunks_meta := chunk_text full_text in
  match chunks_meta with
  | [] => raise ValueError
  | _ =>
      let texts := map fst chunks_meta in
      let embeddings := encode_batch texts in
      let records := build_records filename 0 chunks_meta embeddings in
      let* _ := VectorStore.add records in
      let* _ := VectorStore.persist f in
      ret records
  end.
End WithTokenizer.

End Ingestion.

(* ===================================================================== *)
(** ** backend/llm/groq_client.py *)
(* ===================================================================== *)

Module GroqClient.

(** The exceptions of the groq SDK the [except] clauses tell apart.
    [BadRequestError] is the SDK's class for status 400; every other
    status error is an [APIStatusError] with its [status_code]. *)
Inductive groq_exn : Type :=
| BadRequestError
| APIStatusError (status_code : nat)
| APITimeoutError
| APIConnectionError
| Unexpected.                 (* anything else *)

Inductive outcome (R : Type) : Type :=
| Returns (response : R)
| Fails (exc : groq_exn).
Arguments Returns {R} response.
Arguments Fails {R} exc.

(** How a call of [generate] ends. *)
Inductive ending (R : Type) : Type :=
| Returned (response : R)
| Propagated (exc : groq_exn)                     (* a bare [raise] *)
| ConnectionError (last_exception : option groq_exn)
| IndexRaised.                                    (* _BACKOFF_DELAYS[attempt] *)
Arguments Returned {R} response.
Arguments Propagated {R} exc.
Arguments ConnectionError {R} last_exception.
Arguments IndexRaised {R}.

Definition _MAX_RETRIES : nat := 2.
Definition _BACKOFF_DELAYS : list nat := [1; 3].

(** What the client does, in order: one call of
    [self._client.chat.completions.create] (an attempt), or a sleep. *)
Inductive event : Type :=
| Request
| Sleep (seconds : nat).

(** The events so far, oldest first. *)
Definition net : Type := list event.

Definition is_request (ev : event) : bool :=
  match ev with Request => true | Sleep _ => false end.

Definition requests (w : net) : nat := length (List.filter is_request w).

(** getattr(exc, "status_code", None) *)
Definition status_code_of (exc : groq_exn) : option nat :=
  match exc with
  | BadRequestError => Some 400
  | APIStatusError c => Some c
  | _ => None
  end.

Section WithUpstream.
Context {R : Type}.
(** [upstream n] is how the n-th request (counted from 0) ends. *)
Variable upstream : nat -> outcome R.

(** self._client.chat.completions.create(...) *)
Definition create (w : net) : outcome R * net :=
  (upstream (requests w), w ++ [Request]).

(** time.sleep(delay) *)
Definition sleep (delay : nat) (w : net) : net := w ++ [Sleep delay].

(** The [for attempt in range(_MAX_RETRIES + 1)] loop and the [raise]
    that follows it. *)
Fixpoint attempts (todo : list nat) (last_exception : option groq_exn)
         (w : net) : ending R * net :=
  match todo with
  | [] => (ConnectionError last_exception, w)
  | attempt :: rest =>
      match create w with
      | (Returns response, w) => (Returned response, w)
      | (Fails exc, w) =>
          match exc with
          | BadRequestError => (Propagated exc, w)
          | APIStatusError _ | APITimeoutError | APIConnectionError =>
              let last_exception := Some exc in
              let status_code := status_code_of exc in
              if match status_code with
                 | Some c => (Nat.leb 400 c && Nat.ltb c 500)%bool
                 | None => false
                 end
              then (Propagated exc, w)
              else if Nat.ltb attempt _MAX_RETRIES then
                match nth_error _BACKOFF_DELAYS attempt with
                | Some delay => attempts rest last_exception (sleep delay w)
                | None => (IndexRaised, w)
                end
              else attempts rest last_exception w
          | Unexpected => (Propagated exc, w)
          end
      end
  end.

Definition generate (w : net) : ending R * net :=
  attempts (seq 0 (_MAX_RETRIES + 1)) None w.
End WithUpstream.

(** The errors the specification calls retriable: timeouts, connection
    failures and 5xx statuses. *)
Definition retriable (exc : groq_exn) : Prop :=
  exc = APITimeoutError \/ exc = APIConnectionError
  \/ exists c, exc = APIStatusError c /\ 500 <= c < 600.

(** An explicit 4xx client error. *)
Definition client_error (exc : groq_exn) : Prop :=
  exc = BadRequestError
  \/ exists c, exc = APIStatusError c /\ 400 <= c < 500.

End GroqClient.

(* ===================================================================== *)
(** ** Concrete data used by the examples below *)
(* ===================================================================== *)

Module Samples.
Import VectorStore.

(** A unit vector of dimension 384. *)
Definition e1 : vector := 1%Q :: repeat 0%Q 383.

Definition record (id txt : string) (i : nat) (emb : option vector) : ChunkRecord :=
  {| chunk_id := id; text := txt; source_file := "guide.pdf";
     page_number := 1; chunk_index := i; embedding := emb |}.

Definition r0 : ChunkRecord := record "id-0" "first chunk" 0 (Some e1).
Definition r1 : ChunkRecord := record "id-1" "second chunk" 1 (Some e1).
Definition short : ChunkRecord := record "id-2" "short" 2 (Some [1%Q; 0%Q]).

Definition no_files : disk := {| faiss_file := Absent; pkl_file := Absent |}.

(** A freshly constructed store next to an empty index directory. *)
Definition fresh : world := {| st := init EMBEDDING_DIM; dk := no_files |}.

(** A store holding [r0] and [r1] in memory while the directory still
    holds the pair persisted when only [r0] was there. *)
Definition one_behind : world :=
  {| st := {| dimension := EMBEDDING_DIM;
              _index := Some {| d := EMBEDDING_DIM; xb := [e1; e1] |};
              _metadata := [to_dict r0; to_dict r1];
              _loaded := true |};
     dk := {| faiss_file := Content {| d := EMBEDDING_DIM; xb := [e1] |};
              pkl_file := Content [to_dict r0] |} |}.

(** A fresh store next to an index file written with dimension 128. *)
Definition wrong_dimension : world :=
  {| st := init EMBEDDING_DIM;
     dk := {| faiss_file := Content {| d := 128; xb := [] |};
              pkl_file := Content [] |} |}.

(** A fresh store next to the persisted pair of a one-chunk index. *)
Definition not_yet_loaded : world :=
  {| st := init EMBEDDING_DIM; dk := dk one_behind |}.

(** A search that finds nothing: every slot is the vacant id -1. *)
Definition no_hits (ix : IndexFlatIP) (q : vector) (k : nat)
  : result (list (Q * Z)) :=
  Ok (repeat (0%Q, (-1)%Z) k).

(** A stand-in for the embedding model: one unit vector per text. *)
Definition embed_all (texts : list string) : list vector :=
  map (fun _ => e1) texts.

Definition uuid (i : nat) : string := "uuid-" +:+ Ingestion.str_of_nat i.

(** A one-page PDF whose text starts with a marker-shaped string. *)
Definition marker_pdf : result (list string) := Ok ["[PAGE_BREAK:0] hello"].

Definition two_page_pdf : result (list string) :=
  Ok ["Hello Clearpath world."; "Second page."].

(** add, persist, add, a persist whose sidecar write fails, load. *)
Definition torn_run : list op :=
  [OpAdd [r0]; OpPersist NoFault; OpAdd [r1]; OpPersist (DumpFails false); OpLoad].

Definition quiet_run : list op :=
  [OpLoad; OpAdd [r0]; OpSearch e1 5; OpPersist NoFault; OpAdd [short];
   OpPersist (WriteIndexFails true); OpLoad; OpAdd [r1]; OpPersist (DumpFails true)].

(** Three chunks: the first two are not near-duplicates of each other,
    the third is a higher-scored near-duplicate of the first and also a
    near-duplicate of the second. *)
Definition chunk (t : string) (s : Q) : Retriever.RetrievedChunk :=
  {| Retriever.text := t; Retriever.source_file := "faq.pdf";
     Retriever.page_number := 1; Retriever.score := s |}.

Definition three : Retriever.heap :=
  fun l => match l with
           | 0 => chunk "abcdefghij" (50 # 100)
           | 1 => chunk "abcdefghijklm" (40 # 100)
           | 2 => chunk "abcdefghijk" (90 # 100)
           | _ => Retriever.blank
           end.

(** What [retrieve] returns for [r0] found with score 0.42. *)
Definition first_found : Retriever.RetrievedChunk :=
  {| Retriever.text := "first chunk"; Retriever.source_file := "guide.pdf";
     Retriever.page_number := 1; Retriever.score := 42 # 100 |}.

(** Every request answered with status 503. *)
Definition always_503 (n : nat) : GroqClient.outcome unit :=
  GroqClient.Fails (GroqClient.APIStatusError 503).

(** A timeout, then status 429. *)
Definition timeout_then_429 (n : nat) : GroqClient.outcome unit :=
  match n with
  | 0 => GroqClient.Fails GroqClient.APITimeoutError
  | _ => GroqClient.Fails (GroqClient.APIStatusError 429)
  end.

(** One vector close to the query in a store that is already loaded. *)
Definition best_first (ix : IndexFlatIP) (q : vector) (k : nat)
  : result (list (Q * Z)) :=
  Ok ((42 # 100, 0%Z) :: (30 # 100, 1%Z) :: repeat (0%Q, (-1)%Z) (k - 2)).

End Samples.

(* ===================================================================== *)
(** ** backend/main.py *)
(* ===================================================================== *)

Module Main.
Import VectorStore.
Local Open Scope py_scope.

(** [try: body except <class>: handler], for the exceptions [handles]
    selects. *)
Definition try_except {W A} (body : M W A) (handles : exn -> bool)
           (handler : M W A) : M W A :=
  fun w => match body w with
           | (Raise e, w') => if handles e then handler w' else (Raise e, w')
           | r => r
           end.

(** [load] tests [os.path.exists] before it opens a file, and the errors
    of faiss, pickle and the dimension test are no FileNotFoundError. *)
Definition FileNotFoundError (e : exn) : bool := false.

(** The start-up half of [lifespan], up to [yield]. *)
Definition lifespan : M world unit :=
  try_except
    (let* _ := load in
     let* loaded_dim := get_dimension in
     if negb (Nat.eqb loaded_dim EMBEDDING_DIM) then raise RuntimeError
     else
       let* _ := get_total_chunks in      (* argument of logger.info *)
       ret tt)
    FileNotFoundError
    (ret tt).

End Main.

(* ===================================================================== *)
(** ** scripts/validate_index.py *)
(* ===================================================================== *)

Module ValidateIndex.
Import VectorStore.

Definition EXPECTED_DIM : nat := 384.

(** What index.pkl unpickles to, as far as the script looks at it: a list
    whose entries are metadata dicts or objects without a [get] method, or
    an object that is not a list. *)
Inductive entry : Type :=
| Dict (m : Meta)
| NotADict.

Inductive pickled : Type :=
| PyList (entries : list entry)
| NotAList.

Definition is_dict (e : entry) : bool :=
  match e with Dict _ => true | NotADict => false end.

(** The index directory as the script reads it. *)
Record directory := {
  index_file : file IndexFlatIP;
  metadata_file : file pickled }.

(** [faiss_installed] tells whether [import faiss] succeeds. *)
Definition validate_index (faiss_installed : bool) (index_dir : directory) : bool :=
  if negb (exists_ (index_file index_dir)) then false
  else if negb (exists_ (metadata_file index_dir)) then false
  else
    match (if faiss_installed then
             match index_file index_dir with
             | Content index =>
                 if negb (Nat.eqb (d index) EXPECTED_DIM) then Some false else None
             | _ => Some false               (* except Exception *)
             end
           else None)                        (* except ImportError *)
    with
    | Some r => r
    | None =>
        match metadata_file index_dir with
        | Content (PyList metadata) =>
            (* for i, entry in enumerate(metadata[:3]): entry.get(...) raises
               AttributeError on an entry that is not a dict *)
            if forallb is_dict (firstn 3 metadata) then true
            else false                       (* except Exception *)
        | Content NotAList => false          (* not isinstance(metadata, list) *)
        | _ => false                         (* except Exception *)
        end
    end.

(** The same directory as [VectorStore.load] reads it, for a sidecar that
    holds the list [metadata] of metadata dicts. *)
Definition as_disk (index_dir : directory) (metadata : list Meta) : disk :=
  {| faiss_file := index_file index_dir; pkl_file := Content metadata |}.

End ValidateIndex.

(* ===================================================================== *)
(** ** backend/api/routes_health.py *)
(* ===================================================================== *)

Module RoutesHealth.
Import VectorStore.
Local Open Scope py_scope.

Record HealthResponse := {
  status : string;
  faiss_index_loaded : bool;
  total_chunks : nat;
  groq_api_reachable : bool;
  uptime_seconds : Q }.

(** [groq_reachable] is the answer of [_check_groq_reachable], [uptime]
    the rounded difference of the two clock readings. *)
Definition health_endpoint (groq_reachable : bool) (uptime : Q)
  : M world HealthResponse :=
  let* w := get in
  let faiss_loaded := is_loaded (st w) in
  let* total := get_total_chunks in
  let overall_status :=
    if (faiss_loaded && groq_reachable)%bool then "healthy" else "degraded" in
  ret {| status := overall_status; faiss_index_loaded := faiss_loaded;
         total_chunks := total; groq_api_reachable := groq_reachable;
         uptime_seconds := uptime |}.

End RoutesHealth.

(* ===================================================================== *)
(** ** backend/logging_/structured_logger.py, routes_logs.py, routes_debug.py *)
(* ===================================================================== *)

Module StructuredLogger.

(** [l[start:stop]] for a list and integer bounds; [None] is an omitted
    bound.  Negative bounds count from the end, and every bound is clamped
    to the list. *)
Definition slice_index (len i : Z) : Z :=
  if Z.ltb i 0 then Z.max 0 (len + i) else Z.min len i.

Definition py_slice {A} (l : list A) (start stop : option Z) : list A :=
  let len := Z.of_nat (length l) in
  let a := match start with Some i => slice_index len i | None => 0%Z end in
  let b := match stop with Some j => slice_index len j | None => len end in
  firstn (Z.to_nat (b - a)) (skipn (Z.to_nat a) l).

(** queries.jsonl as a reader sees it: missing, readable to the end, or
    readable up to an OSError.  Each line still carries its newline. *)
Inductive log_file : Type :=
| Missing
| Readable (lines : list string)
| Failing (lines_before_error : list string).

Section WithSchema.
(** The pydantic model [LogEntry]; [validate] is [json.loads] followed by
    the construction of the model from the decoded dict, [None] when
    either raises. *)
Variable LogEntry : Type.
Variable validate : string -> option LogEntry.

Definition _parse_log_line (line : string) : option LogEntry :=
  validate (Py.strip line).

(** The loop [for line in fh]. *)
Fixpoint read_entries (lines : list string) (entries : list LogEntry)
  : list LogEntry :=
  match lines with
  | [] => entries
  | line :: rest =>
      if Py.truthy (Py.strip line) then
        match _parse_log_line line with
        | Some entry => read_entries rest (entries ++ [entry])
        | None => read_entries rest entries
        end
      else read_entries rest entries
  end.

Definition get_all_logs (fh : log_file) : list LogEntry :=
  match fh with
  | Missing => []
  | Readable lines => read_entries lines []
  | Failing lines => read_entries lines []      (* except OSError: logged *)
  end.

(** list(reversed(all_entries[-n:])) *)
Definition get_recent_logs (fh : log_file) (n : Z) : list LogEntry :=
  let all_entries := get_all_logs fh in
  rev (py_slice all_entries (Some (- n)%Z) None).

(** routes_logs.py *)
Record LogsResponse := {
  logs : list LogEntry;
  total : nat;
  offset : Z;
  limit : Z }.

Definition logs_endpoint (fh : log_file) (offset limit : Z) : LogsResponse :=
  let all_logs := get_all_logs fh in
  let total := length all_logs in
  let paged := py_slice all_logs (Some offset) (Some (offset + limit)%Z) in
  {| logs := paged; total := total; offset := offset; limit := limit |}.

(** routes_debug.py *)
Record DebugResponse := {
  entries : list LogEntry;
  total_count : nat }.

Definition debug_endpoint (fh : log_file) (n : Z) : DebugResponse :=
  let entries := get_recent_logs fh n in
  {| entries := entries; total_count := length entries |}.
End WithSchema.

End StructuredLogger.

(* ===================================================================== *)
(** ** backend/api/routes_ingest.py *)
(* ===================================================================== *)

Module RoutesIngest.
Import Re.

(** [s.replace(a, b)] for one-character strings. *)
Fixpoint replace_char (a b : ascii) (s : string) : string :=
  match s with
  | EmptyString => EmptyString
  | String c s' => String (if Ascii.eqb c a then b else c) (replace_char a b s')
  end.

(** [s.endswith(suffix)] *)
Definition endswith (suffix s : string) : bool :=
  (Nat.leb (Py.len suffix) (Py.len s)
   && String.eqb (Py.drop (Py.len s - Py.len suffix) s) suffix)%bool.

(** posixpath.basename: what follows the last slash. *)
Definition basename (p : string) : string :=
  List.last (Py.split_sep p "/") "".

(** [\w\-] under re.ASCII *)
Definition safe_char (c : ascii) : bool :=
  (Py.isdigit c || Py.isupper_ascii c || Py.islower_ascii c
   || Ascii.eqb c "_" || Ascii.eqb c "-")%bool.

(** ^[\w\-]+\.pdf$ under re.ASCII | re.IGNORECASE *)
Definition _SAFE_FILENAME_RE : regex :=
  Seq (Plus (Class safe_char)) (Seq (Lit ".") (Seq (StrI "pdf") Eos)).

(** [^\w\-.] *)
Definition unsafe_char (c : ascii) : bool :=
  negb (Py.isword c || Ascii.eqb c "-" || Ascii.eqb c ".")%bool.

Definition _sanitize_filename (filename : string) : result string :=
  if negb (Py.truthy filename) then Raise ValueError
  else
    let basename := basename filename in
    let sanitized := replace_char " " "_" basename in
    let sanitized := sub (Class unsafe_char) "" sanitized in
    if negb (endswith ".pdf" (Py.lower sanitized)) then Raise ValueError
    else
      match match_here _SAFE_FILENAME_RE None sanitized with
      | None => Raise ValueError
      | Some _ => Ok sanitized
      end.

End RoutesIngest.

(* ===================================================================== *)
(** ** Predicates of the statements *)
(* ===================================================================== *)

(** [a] may stand before [b] in a list sorted by descending score. *)
Definition by_score (h : Retriever.heap) (a b : Retriever.ref) : Prop :=
  (Retriever.score (h b) <= Retriever.score (h a))%Q.

(** The errors after which the retry loop of [generate] does not go on. *)
Definition gives_up (exc : GroqClient.groq_exn) : bool :=
  match exc with
  | GroqClient.BadRequestError | GroqClient.Unexpected => true
  | GroqClient.APIStatusError c => (Nat.leb 400 c && Nat.ltb c 500)%bool
  | GroqClient.APITimeoutError | GroqClient.APIConnectionError => false
  end.

(** The characters of [s] that satisfy [q], in order. *)
Fixpoint keep (q : ascii -> bool) (s : string) : string :=
  match s with
  | EmptyString => EmptyString
  | String c s' => if q c then String c (keep q s') else keep q s'
  end.

Definition chars (P : ascii -> Prop) (s : string) : Prop :=
  Forall P (list_ascii_of_string s).

(** A regex that matches exactly one character, those of the class [p]. *)
Definition single (r : Re.regex) (p : ascii -> bool) : Prop :=
  forall prev s,
    Re.match_here r prev s
    = match s with
      | String x s' => if p x then Some (String x "", Some x, s') else None
      | EmptyString => None
      end.

(** A word of [str.split()]: not empty, and free of white space. *)
Definition word (w : string) : Prop :=
  w <> EmptyString /\ Forall (fun c => Py.isspace c = false) (list_ascii_of_string w).

(** [derives r prev s prev' rest]: [r] matches a prefix of [s], read after
    the character [prev], and leaves [rest], read after [prev']. *)
Inductive derives
  : Re.regex -> option ascii -> string -> option ascii -> string -> Prop :=
| d_Lit c prev s : derives (Re.Lit c) prev (String c s) (Some c) s
| d_LitI c x prev s :
    Py.lower_char x = Py.lower_char c ->
    derives (Re.LitI c) prev (String x s) (Some x) s
| d_Class (p : ascii -> bool) x prev s :
    p x = true -> derives (Re.Class p) prev (String x s) (Some x) s
| d_Dot x prev s : x <> "010"%char -> derives Re.Dot prev (String x s) (Some x) s
| d_Seq r1 r2 prev s p1 s1 p2 s2 :
    derives r1 prev s p1 s1 -> derives r2 p1 s1 p2 s2 ->
    derives (Re.Seq r1 r2) prev s p2 s2
| d_Alt_l r1 r2 prev s p' s' :
    derives r1 prev s p' s' -> derives (Re.Alt r1 r2) prev s p' s'
| d_Alt_r r1 r2 prev s p' s' :
    derives r2 prev s p' s' -> derives (Re.Alt r1 r2) prev s p' s'
| d_Opt_some r prev s p' s' :
    derives r prev s p' s' -> derives (Re.Opt r) prev s p' s'
| d_Opt_none r prev s : derives (Re.Opt r) prev s prev s
| d_Star_nil r prev s : derives (Re.Star r) prev s prev s
| d_Star_cons r prev s p1 s1 p2 s2 :
    derives r prev s p1 s1 -> derives (Re.Star r) p1 s1 p2 s2 ->
    derives (Re.Star r) prev s p2 s2
| d_WordB prev s :
    xorb (Re.is_word_opt prev) (Re.is_word_opt (Re.head s)) = true ->
    derives Re.WordB prev s prev s
| d_Eos prev s :
    s = EmptyString \/ s = String "010" EmptyString -> derives Re.Eos prev s prev s
| d_Eps prev s : derives Re.Eps prev s prev s.

(* ===================================================================== *)
(** ** Proof automation *)
(* ===================================================================== *)

(** Unfold the monadic plumbing of the vector store. *)
Ltac munfold :=
  unfold VectorStore.persist, VectorStore.makedirs, VectorStore.write_index,
    VectorStore.dump_metadata, VectorStore._ensure_loaded, VectorStore.load,
    VectorStore.read_index, VectorStore.pickle_load, VectorStore.set_store,
    VectorStore.set_disk, bind, get, put, ret, raise, lift_result in *.

(** Decide the tests of one turn of the retry loop. *)
Ltac retry_step :=
  cbn [Nat.ltb Nat.leb nth_error GroqClient._BACKOFF_DELAYS GroqClient._MAX_RETRIES];
  rewrite <- ?app_assoc; cbn [app].

(* ===================================================================== *)
(** * Theorems *)
(* ===================================================================== *)

(** ** Router *)

Section RouterFacts.
Import Router.

Lemma classify_features_cases (f : Features) :
  classify_features f = "simple" \/ classify_features f = "complex".
Proof.
  unfold classify_features.
  repeat match goal with
         | |- context [if ?b then _ else _] => destruct b
         end; auto.
Qed.

Lemma classify_features_spec_tree (f : Features) :
  classify_features f = route_name (spec_tree f).
Proof.
  destruct f as [wc cc qc kw amb cpl cmp sc].
  unfold classify_features, spec_tree, spec_node, spec_score, List.find.
  cbn [word_count question_count sentence_count has_complexity_keywords
       has_ambiguity_markers has_complaint_markers has_comparison_pattern].
  generalize (Nat.leb wc 3), (Nat.leb qc 1), (Nat.leb 3 qc),
    (Nat.ltb 40 wc), (Nat.leb 3 sc), (Nat.ltb 25 wc).
  intros b1 b2 b3 b4 b5 b6.
  destruct b1, b2, b3, b4, b5, b6, kw, amb, cpl, cmp; reflexivity.
Qed.
End RouterFacts.

(** C1.  For every query, [classify_query] answers "simple" or "complex",
    and the answer is the one the first-match six-node decision tree of the
    specification gives on the extracted features: node 1 (at most three
    words, at most one question mark, no complexity keyword) gives simple;
    complaint markers, three or more question marks, a comparison pattern, a
    score of at least 2, or more than 25 words with an ambiguity marker give
    complex, in that order; otherwise simple. *)
Theorem classify_query_is_decision_tree (query : string) :
  Router.classify_query query
  = Router.route_name (Router.spec_tree (Router._extract_features query))
  /\ (Router.classify_query query = "simple"
      \/ Router.classify_query query = "complex").
Proof.
  unfold Router.classify_query. split.
  - apply classify_features_spec_tree.
  - apply classify_features_cases.
Qed.

(** ** Evaluator *)

Section EvaluatorFacts.
Import Evaluator.

Lemma refusal_loop_app (phrases : list string) (r : string) (flags : list string) :
  refusal_loop phrases r flags
  = flags ++ (if existsb (fun p => Py.contains p r) phrases
              then ["refusal_detected"] else []).
Proof.
  induction phrases as [|p ps IH]; cbn.
  - now rewrite app_nil_r.
  - destruct (Py.contains p r); [reflexivity | exact IH].
Qed.

Lemma check_hallucination_cases (r : string) (cs : list chunk_dict) :
  check_hallucination r cs = None
  \/ check_hallucination r cs = Some "potential_hallucination".
Proof.
  unfold check_hallucination.
  repeat match goal with
         | |- context [if ?b then _ else _] => destruct b
         end; auto.
Qed.

(** The flag list is the concatenation of three optional flags. *)
Lemma evaluate_output_shape (r : string) (n : Z) (cs : list chunk_dict) :
  evaluate_output r n cs
  = (if Z.eqb n 0 then ["no_context_warning"] else [])
      ++ (if existsb (fun p => Py.contains p (Py.lower r)) REFUSAL_PHRASES
          then ["refusal_detected"] else [])
      ++ (match check_hallucination r cs with
          | Some _ => ["potential_hallucination"]
          | None => []
          end).
Proof.
  unfold evaluate_output. rewrite refusal_loop_app.
  destruct (check_hallucination_cases r cs) as [-> | ->];
    destruct (Z.eqb n 0);
    destruct (existsb (fun p => Py.contains p (Py.lower r)) REFUSAL_PHRASES);
    reflexivity.
Qed.

(** A response without price and without proper noun is never flagged as
    a hallucination, whatever the chunks are. *)
Lemma check_hallucination_clean (r : string) (cs : list chunk_dict) :
  extract_prices r = [] -> extract_proper_nouns r = [] ->
  check_hallucination r cs = None.
Proof.
  intros Hp Hn. unfold check_hallucination. rewrite Hp, Hn. reflexivity.
Qed.

Lemma probe_flags (p : string) (c : chunk_dict) :
  extract_prices ("prefix " +:+ p +:+ " suffix") = [] ->
  extract_proper_nouns ("prefix " +:+ p +:+ " suffix") = [] ->
  existsb (fun q => Py.contains q (Py.lower ("prefix " +:+ p +:+ " suffix")))
          REFUSAL_PHRASES = true ->
  evaluate_output ("prefix " +:+ p +:+ " suffix") 1 [c] = ["refusal_detected"].
Proof.
  intros Hp Hn Hr. rewrite evaluate_output_shape, Hr.
  rewrite (check_hallucination_clean _ _ Hp Hn). reflexivity.
Qed.
End EvaluatorFacts.

(** C8.  For each of the 17 refusal phrases p, the flags of the response
    "prefix " + p + " suffix" with retrieval count 1 and a single chunk hold
    "refusal_detected" exactly once; and on every input the flag occurs at
    most once. *)
Theorem refusal_detected_once :
  length Evaluator.REFUSAL_PHRASES = 17
  /\ Forall (fun p => forall chunk : Evaluator.chunk_dict,
                 Evaluator.refusal_count
                   (Evaluator.evaluate_output ("prefix " +:+ p +:+ " suffix") 1 [chunk])
                 = 1)
            Evaluator.REFUSAL_PHRASES
  /\ (forall response retrieval_count chunks,
         Evaluator.refusal_count (Evaluator.evaluate_output response retrieval_count chunks) <= 1).
Proof.
  split; [reflexivity|]. split.
  - unfold Evaluator.REFUSAL_PHRASES.
    repeat (apply Forall_cons; split;
            [intros chunk; rewrite probe_flags; [reflexivity | vm_compute; reflexivity ..]|]).
    apply Forall_nil_2.
  - intros r n cs. rewrite evaluate_output_shape. unfold Evaluator.refusal_count.
    destruct (Z.eqb n 0);
      destruct (existsb _ Evaluator.REFUSAL_PHRASES);
      destruct (Evaluator.check_hallucination r cs); cbn; lia.
Qed.

(** C10.  The flag list of [evaluate_output] is always a subsequence of
    ["no_context_warning"; "refusal_detected"; "potential_hallucination"]:
    no other string occurs, none occurs twice, and the order is fixed. *)
Theorem evaluate_output_flags_sublist
        (response : string) (retrieval_count : Z) (chunks : list Evaluator.chunk_dict) :
  sublist (Evaluator.evaluate_output response retrieval_count chunks) Evaluator.ALL_FLAGS
  /\ NoDup (Evaluator.evaluate_output response retrieval_count chunks)
  /\ (forall flag, flag ∈ Evaluator.evaluate_output response retrieval_count chunks ->
                   flag ∈ Evaluator.ALL_FLAGS).
Proof.
  rewrite evaluate_output_shape. unfold Evaluator.ALL_FLAGS.
  destruct (Z.eqb retrieval_count 0);
    destruct (existsb _ Evaluator.REFUSAL_PHRASES);
    destruct (Evaluator.check_hallucination response chunks); cbn [app].
  all: split; [repeat constructor | split].
  all: try (intros flag; rewrite ?elem_of_cons, ?elem_of_nil; tauto).
  all: repeat (apply NoDup_cons_2; [rewrite ?elem_of_cons, ?elem_of_nil; intuition discriminate|]).
  all: apply NoDup_nil_2.
Qed.

(** ** Vector store *)

Section VectorStoreFacts.
Import VectorStore.

(** [load] either raises and leaves the world as it is, or installs what
    the two files hold (or an empty index when one of them is missing). *)
Lemma load_cases (w : world) :
  (exists e, load w = (Raise e, w))
  \/ exists ix m,
      load w = (Ok tt, {| st := {| dimension := dimension (st w); _index := Some ix;
                                   _metadata := m; _loaded := true |};
                          dk := dk w |})
      /\ ((faiss_file (dk w) = Content ix /\ pkl_file (dk w) = Content m
           /\ d ix = dimension (st w))
          \/ (ix = new_index (dimension (st w)) /\ m = []
              /\ (faiss_file (dk w) = Absent \/ pkl_file (dk w) = Absent))).
Proof.
  destruct w as [s [ff pf]]. munfold. cbn.
  destruct ff as [| |ix], pf as [| |m]; cbn;
    try (right; eexists _, _; split; [reflexivity|right; auto]; fail);
    try (left; eexists; reflexivity; fail).
  - destruct (Nat.eqb (d ix) (dimension s)); cbn; left; eexists; reflexivity.
  - destruct (Nat.eqb (d ix) (dimension s)) eqn:E; cbn.
    + right. exists ix, m. split; [reflexivity|]. left.
      apply Nat.eqb_eq in E. auto.
    + left; eexists; reflexivity.
Qed.

Lemma ensure_loaded_cases (w : world) :
  (exists e, _ensure_loaded w = (Raise e, w))
  \/ exists s', _ensure_loaded w = (Ok tt, {| st := s'; dk := dk w |})
                /\ dimension s' = dimension (st w)
                /\ (_loaded (st w) = true -> s' = st w)
                /\ (_loaded (st w) = false ->
                    exists ix m, s' = {| dimension := dimension (st w);
                                         _index := Some ix; _metadata := m;
                                         _loaded := true |}
                                 /\ ((faiss_file (dk w) = Content ix
                                      /\ pkl_file (dk w) = Content m)
                                     \/ (ix = new_index (dimension (st w)) /\ m = []))).
Proof.
  unfold _ensure_loaded, bind, get. cbv beta iota.
  destruct (_loaded (st w)) eqn:L; cbn [negb].
  - right. exists (st w). destruct w; cbn. unfold ret. repeat split; auto. discriminate.
  - destruct (load_cases w) as [[e ->] | (ix & m & -> & H)]; [left; eauto|].
    right. eexists. split; [reflexivity|]. cbn. repeat split; [discriminate|].
    intros _. exists ix, m. split; [reflexivity|]. intuition.
Qed.

Lemma ensure_loaded_loaded (w : world) :
  _loaded (st w) = true -> _ensure_loaded w = (Ok tt, w).
Proof.
  intros L. unfold _ensure_loaded, bind, get, ret. cbv beta iota. rewrite L. reflexivity.
Qed.

Lemma ensure_loaded_good (w : world) :
  aligned (st w) -> disk_consistent (dk w) ->
  aligned (st (snd (_ensure_loaded w))) /\ dk (snd (_ensure_loaded w)) = dk w.
Proof.
  intros A D.
  destruct (ensure_loaded_cases w) as [[e ->] | (s' & -> & _ & Hl & Hu)]; [auto|].
  cbn. split; [|reflexivity].
  destruct (_loaded (st w)) eqn:L.
  - rewrite Hl; auto.
  - destruct (Hu eq_refl) as (ix & m & -> & [[Hf Hp] | [-> ->]]).
    + unfold aligned, index_count. cbn. eauto.
    + reflexivity.
Qed.

Lemma load_good (w : world) :
  disk_consistent (dk w) ->
  aligned (st (snd (load w))) \/ snd (load w) = w.
Proof.
  intros D.
  destruct (load_cases w) as [[e ->] | (ix & m & -> & [(Hf & Hp & _) | (-> & -> & _)])];
    cbn; auto; left; unfold aligned, index_count; cbn; eauto.
Qed.

Lemma load_disk (w : world) : dk (snd (load w)) = dk w.
Proof.
  destruct (load_cases w) as [[e ->] | (ix & m & -> & _)]; reflexivity.
Qed.

Lemma all_some_Forall2 {A} (l : list (option A)) (vs : list A) :
  all_some l = Some vs -> Forall2 (fun o v => o = Some v) l vs.
Proof.
  revert vs. induction l as [|[a|] l IH]; cbn; intros vs H.
  - injection H as <-. constructor.
  - destruct (all_some l) as [r|]; [|discriminate].
    injection H as <-. constructor; auto.
  - discriminate.
Qed.

Lemma np_array_ok (rows : list (option vector)) (c : nat) (vs : list vector) :
  np_array rows = Ok (c, vs) ->
  Forall2 (fun o v => o = Some v /\ length v = c) rows vs.
Proof.
  unfold np_array. destruct (all_some rows) as [[|v vs']|] eqn:E; try discriminate.
  destruct (forallb (fun v' => Nat.eqb (length v') (length v)) vs') eqn:F;
    [|discriminate].
  intros [= <- <-]. apply all_some_Forall2 in E.
  rewrite forallb_forall in F.
  assert (Hall : Forall (fun v' => length v' = length v) (v :: vs')).
  { constructor; [reflexivity|]. apply List.Forall_forall. intros x Hx.
    apply Nat.eqb_eq. auto. }
  clear F. revert E Hall. generalize (length v), (v :: vs'), rows.
  clear. intros n l rows E. induction E; intros Hall; [constructor|].
  inversion Hall; subst. constructor; auto.
Qed.

(** What [add] does, seen from the state [w1] in which its first line,
    [_ensure_loaded], leaves the store. *)
Definition add_post (records : list ChunkRecord) (w1 : world)
           (r : result unit * world) : Prop :=
  match r with
  | (Raise _, w') => w' = w1
  | (Ok _, w') =>
      dk w' = dk w1
      /\ _metadata (st w') = _metadata (st w1) ++ map to_dict records
      /\ exists vs,
          Forall2 (fun rec v => embedding rec = Some v
                                /\ length v = dimension (st w1)) records vs
          /\ index_count (st w') = index_count (st w1) + length records
          /\ (records <> [] ->
              exists ix, _index (st w1) = Some ix
                         /\ _index (st w') = Some {| d := d ix; xb := xb ix ++ vs |})
  end.

Lemma add_loaded (records : list ChunkRecord) (w : world) :
  _loaded (st w) = true -> add_post records w (add records w).
Proof.
  intros L. unfold add, bind. rewrite (ensure_loaded_loaded w L).
  destruct records as [|r0 rs].
  - cbn. repeat split; [now rewrite app_nil_r|].
    exists []. repeat split; [constructor | lia | congruence].
  - set (recs := r0 :: rs). unfold lift_result, get.
    destruct (np_array (map embedding recs)) as [[c vs]|e] eqn:E; [|reflexivity].
    cbn [fst snd].
    destruct (Nat.eqb c (dimension (st w))) eqn:Ec; cbn [negb]; [|reflexivity].
    apply Nat.eqb_eq in Ec. subst c.
    destruct (_index (st w)) as [ix|] eqn:Ei; [|reflexivity].
    unfold index_add. destruct (Nat.eqb (dimension (st w)) (d ix)); [|reflexivity].
    cbn. split; [reflexivity|]. split; [reflexivity|].
    apply np_array_ok in E. exists vs. split.
    { clear -E. revert vs E. generalize recs. intros l. induction l; intros vs E;
        inversion E; subst; constructor; auto. }
    split.
    { apply Forall2_length in E. rewrite length_map in E.
      unfold index_count. cbn [st _index]. rewrite Ei. unfold ntotal. cbn [xb].
      rewrite length_app. subst recs. cbn [length] in E.
      unfold vector in *. lia. }
    intros _. exists ix. auto.
Qed.

Lemma add_cases (records : list ChunkRecord) (w : world) :
  (exists e, _ensure_loaded w = (Raise e, w) /\ add records w = (Raise e, w))
  \/ exists w1, _ensure_loaded w = (Ok tt, w1) /\ _loaded (st w1) = true
                /\ dimension (st w1) = dimension (st w)
                /\ add records w = add records w1.
Proof.
  destruct (ensure_loaded_cases w) as [[e He] | (s' & He & Hdim & Hl & Hu)].
  - left. exists e. split; [exact He|]. unfold add, bind. rewrite He. reflexivity.
  - right. eexists. split; [exact He|].
    assert (L : _loaded s' = true).
    { destruct (_loaded (st w)) eqn:L.
      - rewrite Hl; auto.
      - destruct (Hu eq_refl) as (ix & m & -> & _). reflexivity. }
    split; [exact L|]. split; [exact Hdim|]. unfold add, bind.
    rewrite He, (ensure_loaded_loaded {| st := s'; dk := dk w |} L). reflexivity.
Qed.

Lemma add_spec (records : list ChunkRecord) (w : world) :
  add_post records (snd (_ensure_loaded w)) (add records w).
Proof.
  destruct (add_cases records w) as [(e & -> & ->) | (w1 & -> & L & _ & ->)]; cbn.
  - reflexivity.
  - apply add_loaded, L.
Qed.

Lemma add_good (records : list ChunkRecord) (w : world) :
  aligned (st w) -> disk_consistent (dk w) ->
  aligned (st (snd (add records w))) /\ dk (snd (add records w)) = dk w.
Proof.
  intros A D. pose proof (add_spec records w) as P.
  destruct (ensure_loaded_good w A D) as [A1 D1].
  destruct (add records w) as [[[]|e] w']; cbn in *.
  - destruct P as (Hd & Hm & vs & _ & Hc & _). split; [|congruence].
    unfold aligned in *. rewrite Hm, Hc, length_app, length_map. lia.
  - subst. auto.
Qed.

Lemma add_rejects (records : list ChunkRecord) (w : world) (r : ChunkRecord) :
  In r records ->
  (forall v, embedding r = Some v -> length v <> dimension (st w)) ->
  is_ok (fst (add records w)) = false.
Proof.
  intros Hin Hbad.
  destruct (add_cases records w) as [(e & _ & ->) | (w1 & _ & L & Hdim & ->)];
    [reflexivity|].
  pose proof (add_loaded records w1 L) as P.
  destruct (add records w1) as [[[]|e] w']; [|reflexivity]. exfalso.
  destruct P as (_ & _ & vs & F & _).
  clear -Hin Hbad F Hdim. induction F as [|x v l vs' [Hx Hv] F IH]; [contradiction|].
  destruct Hin as [-> | Hin]; [|auto].
  apply (Hbad v Hx). congruence.
Qed.

Section Steps.
Variable faiss_search : IndexFlatIP -> vector -> nat -> result (list (Q * Z)).

Lemma search_world (q : vector) (k : nat) (w : world) :
  snd (search faiss_search q k w) = snd (_ensure_loaded w).
Proof.
  unfold search, bind, get, lift_result, ret, raise.
  destruct (_ensure_loaded w) as [[[]|e] w1]; [|reflexivity]. cbn.
  destruct (_index (st w1)); [|reflexivity].
  destruct (Nat.eqb _ 0); [reflexivity|].
  destruct (faiss_search _ _ _) as [pairs|]; [|reflexivity]. cbn.
  destruct (collect_hits (_metadata (st w1)) pairs); reflexivity.
Qed.

Lemma persist_store (f : fault) (w : world) :
  st (snd (persist f w)) = st (snd (_ensure_loaded w)).
Proof.
  unfold persist, bind.
  destruct (_ensure_loaded w) as [[[]|e] w1]; [|reflexivity]. cbn.
  destruct f; munfold; cbn; try reflexivity;
    destruct (_index (st w1)); try reflexivity;
    try destruct partial; reflexivity.
Qed.

Lemma persist_disk (f : fault) (w : world) :
  aligned (st w) -> disk_consistent (dk w) -> f <> DumpFails false ->
  disk_consistent (dk (snd (persist f w))).
Proof.
  intros A D Hf.
  destruct (ensure_loaded_good w A D) as [A1 D1].
  unfold persist, bind.
  destruct (_ensure_loaded w) as [[[]|e] w1]; cbn [fst snd] in *;
    [|rewrite D1; exact D].
  rewrite <- D1 in D. clear D1 A.
  destruct f as [| |p|p]; munfold; cbn.
  - destruct (_index (st w1)) as [ix|] eqn:Ei; cbn; [|exact D].
    intros ix' m [= <-] [= <-]. unfold aligned, index_count in A1.
    now rewrite Ei in A1.
  - exact D.
  - destruct (_index (st w1)); cbn; [|exact D].
    destruct p; cbn; [|exact D]. intros ? ? [=].
  - destruct (_index (st w1)); cbn; [|exact D].
    destruct p; [|congruence]. cbn. intros ? ? _ [=].
Qed.

Lemma step_good (o : op) (w : world) :
  torn o = false -> good w -> good (step faiss_search o w).
Proof.
  intros T [A D]. destruct o as [|records|q k|f]; cbn [step].
  - split; [|now rewrite load_disk].
    destruct (load_good w D) as [H | ->]; auto.
  - destruct (add_good records w A D) as [A' D'].
    split; [auto | rewrite D'; exact D].
  - rewrite search_world. destruct (ensure_loaded_good w A D) as [A' D'].
    split; [auto | rewrite D'; exact D].
  - split.
    + unfold aligned. rewrite persist_store. apply ensure_loaded_good; auto.
    + apply persist_disk; auto. intros ->. discriminate.
Qed.

Lemma run_good (ops : list op) (w : world) :
  forallb (fun o => negb (torn o)) ops = true -> good w ->
  good (run faiss_search ops w).
Proof.
  revert w. induction ops as [|o ops IH]; intros w T G; [exact G|].
  cbn in T. apply andb_true_iff in T as [To T].
  cbn. apply IH; [exact T|]. apply step_good; [|exact G].
  now apply negb_true_iff.
Qed.
End Steps.
End VectorStoreFacts.

(** C2 (as amended).  Start from a store whose sidecar and index are
    aligned, next to an index directory whose two files, if both complete,
    agree in length.  Then along every sequence of load, add, search and
    persist in which no persist fails between its two writes leaving a stale
    index.pkl, the sidecar is as long as the index holds vectors after every
    operation.  Moreover [add] first makes sure the store is loaded and then
    either raises, leaving index and sidecar as the load left them, or
    appends one vector and one metadata entry per record, the i-th record at
    the same new position in both; it raises whenever a record's embedding
    has not the store's dimension (384). *)
Theorem sidecar_aligned_with_index
        (faiss_search : VectorStore.IndexFlatIP -> VectorStore.vector -> nat
                        -> result (list (Q * Z)))
        (w : VectorStore.world) (ops : list VectorStore.op)
        (records : list VectorStore.ChunkRecord) :
  VectorStore.aligned (VectorStore.st w) ->
  VectorStore.disk_consistent (VectorStore.dk w) ->
  forallb (fun o => negb (VectorStore.torn o)) ops = true ->
  (forall n, VectorStore.aligned
               (VectorStore.st (VectorStore.run faiss_search (take n ops) w)))
  /\ (let w1 := snd (VectorStore._ensure_loaded w) in
      match VectorStore.add records w with
      | (Raise _, w') => w' = w1
      | (Ok _, w') =>
          length (VectorStore._metadata (VectorStore.st w'))
          = length (VectorStore._metadata (VectorStore.st w1)) + length records
          /\ VectorStore.index_count (VectorStore.st w')
             = VectorStore.index_count (VectorStore.st w1) + length records
          /\ forall i r, records !! i = Some r ->
               exists ix' v,
                 VectorStore._index (VectorStore.st w') = Some ix'
                 /\ VectorStore.embedding r = Some v
                 /\ length v = VectorStore.dimension (VectorStore.st w)
                 /\ VectorStore.xb ix'
                      !! (VectorStore.index_count (VectorStore.st w1) + i) = Some v
                 /\ VectorStore._metadata (VectorStore.st w')
                      !! (VectorStore.index_count (VectorStore.st w1) + i)
                    = Some (VectorStore.to_dict r)
      end)
  /\ (forall r, In r records ->
        (forall v, VectorStore.embedding r = Some v ->
                   length v <> VectorStore.dimension (VectorStore.st w)) ->
        is_ok (fst (VectorStore.add records w)) = false).
Proof.
  intros A D T. split; [|split].
  - intros n. apply (run_good faiss_search (take n ops) w); [|split; assumption].
    rewrite <- (take_drop n ops) in T. rewrite forallb_app in T.
    now apply andb_true_iff in T as [T _].
  - cbv zeta. pose proof (add_spec records w) as P.
    destruct (ensure_loaded_good w A D) as [A1 _].
    assert (Hdim : VectorStore.dimension (VectorStore.st (snd (VectorStore._ensure_loaded w)))
                   = VectorStore.dimension (VectorStore.st w)).
    { destruct (ensure_loaded_cases w) as [[e ->] | (s' & -> & Hd & _)]; auto. }
    destruct (VectorStore.add records w) as [[[]|e] w']; [|exact P].
    destruct P as (_ & Hm & vs & F & Hc & Hix).
    split; [rewrite Hm, length_app, length_map; reflexivity|].
    split; [exact Hc|].
    intros i r Hi.
    destruct records as [|r' rs]; [discriminate|].
    destruct Hix as (ix & Hix1 & Hix'); [discriminate|].
    destruct (Forall2_lookup_l _ _ _ _ _ F Hi) as (v & Hv & He & Hl).
    exists {| VectorStore.d := VectorStore.d ix;
              VectorStore.xb := VectorStore.xb ix ++ vs |}, v.
    split; [exact Hix'|]. split; [exact He|]. split; [congruence|].
    unfold VectorStore.aligned in A1.
    unfold VectorStore.index_count in *. rewrite Hix1 in *.
    unfold VectorStore.ntotal in *. cbn [VectorStore.xb]. split.
    + rewrite lookup_app_r by lia.
      replace (_ + i - _) with i by lia. exact Hv.
    + rewrite Hm, lookup_app_r by lia.
      replace (_ + i - _) with i by lia.
      rewrite list_lookup_fmap, Hi. reflexivity.
  - intros r Hin Hbad. eapply add_rejects; eauto.
Qed.

(** The amended C2 applies to a run from a fresh store that mixes all four
    operations, a rejected add and two failing persists. *)
Lemma sidecar_aligned_with_index_witness :
  VectorStore.aligned
    (VectorStore.st (VectorStore.run Samples.no_hits Samples.quiet_run Samples.fresh))
  /\ VectorStore.index_count
       (VectorStore.st (VectorStore.run Samples.no_hits Samples.quiet_run Samples.fresh))
     = 2.
Proof.
  split; [|vm_compute; reflexivity].
  apply (proj1 (sidecar_aligned_with_index
                  Samples.no_hits Samples.fresh Samples.quiet_run [Samples.r0]
                  eq_refl
                  ltac:(intros ix m H; discriminate H)
                  eq_refl)
               (length Samples.quiet_run)).
Defined.

(** C2 as stated fails.  After a persist that rewrote index.faiss and then
    failed to open index.pkl, [load] installs an index of two vectors next
    to a sidecar of one entry.  And on a store that was not loaded yet, an
    [add] that raises for a wrong dimension has first filled the sidecar
    from index.pkl. *)
Lemma sidecar_misaligned_after_torn_persist :
  (let w := VectorStore.run Samples.no_hits Samples.torn_run Samples.fresh in
   VectorStore.index_count (VectorStore.st w) = 2
   /\ length (VectorStore._metadata (VectorStore.st w)) = 1
   /\ ~ VectorStore.aligned (VectorStore.st w))
  /\ (let r := VectorStore.add [Samples.short] Samples.not_yet_loaded in
      fst r = Raise ValueError
      /\ VectorStore._metadata (VectorStore.st Samples.not_yet_loaded) = []
      /\ VectorStore._metadata (VectorStore.st (snd r))
         = [VectorStore.to_dict Samples.r0]).
Proof.
  cbv zeta. split; [|repeat split].
  assert (H : VectorStore.index_count
                (VectorStore.st (VectorStore.run Samples.no_hits
                                   Samples.torn_run Samples.fresh)) = 2
              /\ length (VectorStore._metadata
                           (VectorStore.st (VectorStore.run Samples.no_hits
                                              Samples.torn_run Samples.fresh))) = 1).
  { vm_compute. auto. }
  destruct H as [H1 H2]. repeat split; auto.
  unfold VectorStore.aligned. rewrite H1, H2. discriminate.
Qed.

(** C4 (as amended).  [persist] writes index.faiss and then index.pkl in
    place.  When it raises, the in-memory store is the one its first line,
    [_ensure_loaded], left (nothing is rolled back); a failure of that line
    or of the directory creation leaves the directory untouched; a failure
    of the index write leaves index.pkl untouched; and when the sidecar
    write fails, index.faiss already holds the current index. *)
Theorem persist_failure_effects
        (f : VectorStore.fault) (w w' : VectorStore.world) (e : exn) :
  VectorStore.persist f w = (Raise e, w') ->
  VectorStore.st w' = VectorStore.st (snd (VectorStore._ensure_loaded w))
  /\ (is_ok (fst (VectorStore._ensure_loaded w)) = false
      \/ f = VectorStore.MakedirsFails \/ f = VectorStore.WriteIndexFails false ->
      VectorStore.dk w' = VectorStore.dk w)
  /\ (forall p, f = VectorStore.WriteIndexFails p ->
        VectorStore.pkl_file (VectorStore.dk w') = VectorStore.pkl_file (VectorStore.dk w))
  /\ (forall p ix, f = VectorStore.DumpFails p ->
        is_ok (fst (VectorStore._ensure_loaded w)) = true ->
        VectorStore._index (VectorStore.st w') = Some ix ->
        VectorStore.faiss_file (VectorStore.dk w') = VectorStore.Content ix
        /\ VectorStore.pkl_file (VectorStore.dk w')
           = if p then VectorStore.Garbled
             else VectorStore.pkl_file (VectorStore.dk w)).
Proof.
  intros H. split; [rewrite <- (persist_store f w), H; reflexivity|].
  revert H. unfold VectorStore.persist, bind.
  destruct (ensure_loaded_cases w) as [[e0 ->] | (s' & -> & _)]; cbn [fst snd is_ok].
  - intros [= <- <-]. repeat split; try reflexivity; discriminate.
  - unfold VectorStore.makedirs, VectorStore.write_index, VectorStore.dump_metadata,
      VectorStore.set_disk, bind, get, ret, raise.
    destruct f as [| |p|p]; cbn;
      try (destruct (VectorStore._index s') as [ix0|] eqn:Ei; cbn);
      try (destruct p; cbn);
      intros H; try discriminate H; injection H as <- <-; cbn.
    all: split; [intros [|[|]]; solve [reflexivity | discriminate]|].
    all: split; [intros; solve [reflexivity | discriminate]|].
    all: intros p' ix Hf _ Hix; try discriminate Hf.
    all: injection Hf as <-; cbn in Hix; rewrite Ei in Hix.
    all: try discriminate Hix; injection Hix as <-; auto.
Qed.

Lemma persist_failure_effects_witness :
  VectorStore.st (snd (VectorStore.persist (VectorStore.DumpFails true) Samples.one_behind))
  = VectorStore.st Samples.one_behind.
Proof.
  exact (proj1 (persist_failure_effects
                  (VectorStore.DumpFails true) Samples.one_behind
                  (snd (VectorStore.persist (VectorStore.DumpFails true) Samples.one_behind))
                  OSError eq_refl)).
Defined.

(** C4 as stated fails: the sidecar write fails without touching
    index.pkl, and the previously persisted index.faiss is already gone. *)
Lemma persist_failure_overwrites_index :
  let r := VectorStore.persist (VectorStore.DumpFails false) Samples.one_behind in
  fst r = Raise OSError
  /\ VectorStore.st (snd r) = VectorStore.st Samples.one_behind
  /\ VectorStore.pkl_file (VectorStore.dk (snd r))
     = VectorStore.pkl_file (VectorStore.dk Samples.one_behind)
  /\ VectorStore.faiss_file (VectorStore.dk (snd r))
     <> VectorStore.faiss_file (VectorStore.dk Samples.one_behind).
Proof.
  cbv zeta. repeat split. cbn. intros H. injection H as H. discriminate H.
Qed.

(** C9 (as amended).  On a store that has been loaded, [add] with an empty
    record list returns normally and changes nothing, neither in memory nor
    on disk. *)
Theorem add_empty_is_noop (w : VectorStore.world) :
  VectorStore._loaded (VectorStore.st w) = true ->
  VectorStore.add [] w = (Ok tt, w).
Proof.
  intros L. unfold VectorStore.add, bind. rewrite (ensure_loaded_loaded w L).
  reflexivity.
Qed.

Lemma add_empty_is_noop_witness :
  VectorStore.add [] Samples.one_behind = (Ok tt, Samples.one_behind).
Proof.
  exact (add_empty_is_noop Samples.one_behind eq_refl).
Defined.

(** C9 as stated fails on a store that was not loaded yet: [add([])] starts
    by loading, so it raises when index.faiss has another dimension, and
    otherwise fills the sidecar from index.pkl. *)
Lemma add_empty_loads_first :
  VectorStore.add [] Samples.wrong_dimension = (Raise RuntimeError, Samples.wrong_dimension)
  /\ VectorStore._metadata (VectorStore.st Samples.not_yet_loaded) = []
  /\ VectorStore._metadata
       (VectorStore.st (snd (VectorStore.add [] Samples.not_yet_loaded)))
     = [VectorStore.to_dict Samples.r0].
Proof.
  repeat split.
Qed.

(** ** Generation client *)

Section GroqFacts.
Import GroqClient.
Context {R : Type}.
Variable upstream : nat -> outcome R.

Lemma requests_app (w w' : net) : requests (w ++ w') = requests w + requests w'.
Proof. unfold requests. now rewrite List.filter_app, length_app. Qed.

(** One failed attempt with a retriable error: the loop sleeps if a retry
    is left and goes on. *)
Lemma attempts_retriable (attempt : nat) (rest : list nat)
      (last_exception : option groq_exn) (w : net) (exc : groq_exn) :
  upstream (requests w) = Fails exc -> retriable exc ->
  attempts upstream (attempt :: rest) last_exception w
  = if Nat.ltb attempt _MAX_RETRIES
    then match nth_error _BACKOFF_DELAYS attempt with
         | Some delay => attempts upstream rest (Some exc) (w ++ [Request; Sleep delay])
         | None => (IndexRaised, w ++ [Request])
         end
    else attempts upstream rest (Some exc) (w ++ [Request]).
Proof.
  intros Hup Hr. cbn [attempts]. unfold create. rewrite Hup.
  assert (Hs : match status_code_of exc with
               | Some c => (Nat.leb 400 c && Nat.ltb c 500)%bool
               | None => false
               end = false).
  { destruct Hr as [-> | [-> | (c & -> & Hc)]]; cbn [status_code_of]; auto.
    apply andb_false_iff. right. apply Nat.ltb_ge. lia. }
  assert (Hshape : exc <> BadRequestError /\ exc <> Unexpected).
  { destruct Hr as [-> | [-> | (c & -> & Hc)]]; split; discriminate. }
  destruct Hshape as [Hb Hu].
  destruct exc; try congruence;
    rewrite Hs; destruct (Nat.ltb attempt _MAX_RETRIES);
    try destruct (nth_error _BACKOFF_DELAYS attempt);
    unfold sleep; rewrite <- ?app_assoc; reflexivity.
Qed.

(** One failed attempt with a 4xx: the exception leaves [generate]. *)
Lemma attempts_client_error (attempt : nat) (rest : list nat)
      (last_exception : option groq_exn) (w : net) (exc : groq_exn) :
  upstream (requests w) = Fails exc -> client_error exc ->
  attempts upstream (attempt :: rest) last_exception w
  = (Propagated exc, w ++ [Request]).
Proof.
  intros Hup Hc. cbn [attempts]. unfold create. rewrite Hup.
  destruct Hc as [-> | (c & -> & Hc)]; [reflexivity|].
  cbn [status_code_of].
  replace (Nat.leb 400 c && Nat.ltb c 500)%bool with true; [reflexivity|].
  symmetry. apply andb_true_iff. split; [apply Nat.leb_le | apply Nat.ltb_lt]; lia.
Qed.
End GroqFacts.

(** C5.  When each of the three requests of a [generate] call fails with a
    retriable error (timeout, connection failure, 5xx), the client sends
    exactly three requests, sleeping 1 s before the second and 3 s before
    the third, and then raises ConnectionError carrying the last cause.
    When a request fails with an explicit 4xx after retriable failures only,
    that error is propagated at once: no sleep and no further request. *)
Theorem generate_retry_policy {R : Type}
        (upstream : nat -> GroqClient.outcome R) (w : GroqClient.net) :
  ((forall i, i < 3 ->
      exists exc, upstream (GroqClient.requests w + i) = GroqClient.Fails exc
                  /\ GroqClient.retriable exc) ->
   exists last,
     upstream (GroqClient.requests w + 2) = GroqClient.Fails last
     /\ GroqClient.generate upstream w
        = (GroqClient.ConnectionError (Some last),
           w ++ [GroqClient.Request; GroqClient.Sleep 1;
                 GroqClient.Request; GroqClient.Sleep 3;
                 GroqClient.Request]))
  /\ (forall i exc,
        i < 3 ->
        (forall j, j < i ->
           exists exc', upstream (GroqClient.requests w + j) = GroqClient.Fails exc'
                        /\ GroqClient.retriable exc') ->
        upstream (GroqClient.requests w + i) = GroqClient.Fails exc ->
        GroqClient.client_error exc ->
        exists w',
          GroqClient.generate upstream w = (GroqClient.Propagated exc, w' ++ [GroqClient.Request])
          /\ GroqClient.requests (w' ++ [GroqClient.Request]) = GroqClient.requests w + i + 1
          /\ (i = 0 -> w' = w)
          /\ (i = 1 -> w' = w ++ [GroqClient.Request; GroqClient.Sleep 1])
          /\ (i = 2 -> w' = w ++ [GroqClient.Request; GroqClient.Sleep 1;
                                  GroqClient.Request; GroqClient.Sleep 3])).
Proof.
  assert (Hreq : forall (w' : GroqClient.net) n,
             GroqClient.requests w' = n ->
             GroqClient.requests (w ++ w') = GroqClient.requests w + n).
  { intros w' n <-. apply requests_app. }
  split.
  - intros H.
    destruct (H 0) as (e0 & H0 & R0); [lia|].
    destruct (H 1) as (e1 & H1 & R1); [lia|].
    destruct (H 2) as (e2 & H2 & R2); [lia|].
    exists e2. split; [exact H2|].
    unfold GroqClient.generate. cbn [seq Nat.add GroqClient._MAX_RETRIES].
    rewrite Nat.add_0_r in H0.
    rewrite (attempts_retriable upstream 0 _ _ w e0 H0 R0). retry_step.
    rewrite (attempts_retriable upstream 1 _ _ _ e1);
      [|rewrite (Hreq _ 1) by reflexivity; exact H1|exact R1].
    retry_step.
    rewrite (attempts_retriable upstream 2 _ _ _ e2);
      [|rewrite (Hreq _ 2) by reflexivity; exact H2|exact R2].
    retry_step. reflexivity.
  - intros i exc Hi Hprev Hup Hc.
    unfold GroqClient.generate. cbn [seq Nat.add GroqClient._MAX_RETRIES].
    destruct i as [|[|[|i]]]; [| | |lia].
    + rewrite Nat.add_0_r in Hup.
      rewrite (attempts_client_error upstream 0 _ _ w exc Hup Hc).
      exists w. rewrite requests_app. cbn. repeat split; auto; try discriminate; lia.
    + destruct (Hprev 0) as (e0 & H0 & R0); [lia|]. rewrite Nat.add_0_r in H0.
      rewrite (attempts_retriable upstream 0 _ _ w e0 H0 R0). retry_step.
      rewrite (attempts_client_error upstream 1 _ _ _ exc);
        [|rewrite (Hreq _ 1) by reflexivity; exact Hup|exact Hc].
      eexists. split; [reflexivity|]. rewrite !requests_app. cbn.
      repeat split; auto; try discriminate; lia.
    + destruct (Hprev 0) as (e0 & H0 & R0); [lia|]. rewrite Nat.add_0_r in H0.
      destruct (Hprev 1) as (e1 & H1 & R1); [lia|].
      rewrite (attempts_retriable upstream 0 _ _ w e0 H0 R0). retry_step.
      rewrite (attempts_retriable upstream 1 _ _ _ e1);
        [|rewrite (Hreq _ 1) by reflexivity; exact H1|exact R1].
      retry_step.
      rewrite (attempts_client_error upstream 2 _ _ _ exc);
        [|rewrite (Hreq _ 2) by reflexivity; exact Hup|exact Hc].
      rewrite <- app_assoc. cbn [app].
      exists (w ++ [GroqClient.Request; GroqClient.Sleep 1;
                    GroqClient.Request; GroqClient.Sleep 3]).
      rewrite <- !app_assoc. cbn [app]. rewrite (Hreq _ 3) by reflexivity.
      repeat split; auto; try discriminate; lia.
Qed.

(** ** Retriever *)

Section RetrieverFacts.
Import Retriever.

Lemma jaccard_sym (a b : string) :
  _jaccard_similarity a b = _jaccard_similarity b a.
Proof.
  unfold _jaccard_similarity.
  rewrite (union_comm_L (char_set a) (char_set b)).
  rewrite (intersection_comm_L (char_set a) (char_set b)).
  reflexivity.
Qed.

Lemma near_sym (a b : string) : near a b = near b a.
Proof. unfold near. now rewrite jaccard_sym. Qed.

Lemma not_near_le (a b : string) :
  near a b = false -> (_jaccard_similarity a b <= 80 # 100)%Q.
Proof.
  unfold near, Qgtb. intros H. apply negb_false_iff in H.
  now apply Qle_bool_iff.
Qed.

Lemma upd_eq (h : heap) (l : ref) (v : RetrievedChunk) : upd h l v l = v.
Proof. unfold upd. now rewrite Nat.eqb_refl. Qed.

Lemma upd_ne (h : heap) (l l' : ref) (v : RetrievedChunk) :
  l' <> l -> upd h l v l' = h l'.
Proof. unfold upd. intros H. apply Nat.eqb_neq in H. now rewrite H. Qed.

(** [overwrite] touches the overwritten object only, and gives it the
    four fields of the candidate. *)
Lemma overwrite_other (h : heap) (e c r : ref) :
  r <> e -> overwrite h e c r = h r.
Proof.
  intros H. unfold overwrite, set_text, set_score, set_source_file, set_page_number.
  now rewrite !upd_ne by exact H.
Qed.

Lemma overwrite_fields (h : heap) (e c : ref) :
  text (overwrite h e c e) = text (h c)
  /\ score (overwrite h e c e) = score (h c)
  /\ source_file (overwrite h e c e) = source_file (h c)
  /\ page_number (overwrite h e c e) = page_number (h c).
Proof.
  unfold overwrite, set_text, set_score, set_source_file, set_page_number.
  destruct (Nat.eq_dec c e) as [-> | Hne].
  - rewrite !upd_eq. cbn. auto.
  - rewrite !upd_eq. cbn. rewrite !(upd_ne _ e c) by exact Hne. auto.
Qed.

(** The three ways the inner loop can end. *)
Lemma scan_accepted_cases (h : heap) (c : ref) (accepted : list ref) :
  (scan_accepted h c accepted = (h, false)
   /\ scan_overwritten h c accepted = None
   /\ forall e, e ∈ accepted -> near (text (h c)) (text (h e)) = false)
  \/ (scan_accepted h c accepted = (h, true)
      /\ scan_overwritten h c accepted = None)
  \/ (exists e, e ∈ accepted
                /\ scan_accepted h c accepted = (overwrite h e c, true)
                /\ scan_overwritten h c accepted = Some e).
Proof.
  induction accepted as [|x l IH]; cbn [scan_accepted scan_overwritten].
  - left. repeat split. intros e He. inversion He.
  - fold (near (text (h c)) (text (h x))).
    destruct (near (text (h c)) (text (h x))) eqn:N.
    + destruct (Qgtb (score (h c)) (score (h x))).
      * right; right. exists x. repeat split. left.
      * right; left. auto.
    + destruct IH as [(H1 & H2 & H3) | [(H1 & H2) | (e & He & H1 & H2)]].
      * left. repeat split; auto. intros e He.
        apply elem_of_cons in He as [-> | He]; auto.
      * right; left. auto.
      * right; right. exists e. repeat split; auto. now right.
Qed.

Lemma separated_snoc (h : heap) (accepted ow : list ref) (c : ref) :
  separated h accepted ow ->
  (forall e, e ∈ accepted -> near (text (h c)) (text (h e)) = false) ->
  separated h (accepted ++ [c]) ow.
Proof.
  intros S N i j a b Hij Hi Hj.
  apply lookup_snoc_Some in Hi as [[Hi Ha] | [Hi <-]];
    apply lookup_snoc_Some in Hj as [[Hj Hb] | [Hj <-]].
  - eapply S; eauto.
  - right; right. rewrite near_sym. apply N. eapply list_elem_of_lookup_2; eauto.
  - right; right. apply N. eapply list_elem_of_lookup_2; eauto.
  - lia.
Qed.

Lemma separated_overwrite (h : heap) (accepted ow : list ref) (e c : ref) :
  separated h accepted ow ->
  separated (overwrite h e c) accepted (ow ++ [e]).
Proof.
  intros S i j a b Hij Hi Hj.
  destruct (Nat.eq_dec a e) as [-> | Ha];
    [left; apply elem_of_app; right; left|].
  destruct (Nat.eq_dec b e) as [-> | Hb];
    [right; left; apply elem_of_app; right; left|].
  rewrite !overwrite_other by assumption.
  destruct (S i j a b Hij Hi Hj) as [H | [H | H]]; auto.
  - left. apply elem_of_app. now left.
  - right; left. apply elem_of_app. now left.
Qed.

Lemma dedup_loop_separated (chunks : list ref) :
  forall (h : heap) (accepted ow : list ref) h' accepted',
    dedup_loop h chunks accepted = (h', accepted') ->
    separated h accepted ow ->
    separated h' accepted' (ow ++ overwritten_loop h chunks accepted).
Proof.
  induction chunks as [|c rest IH]; intros h accepted ow h' accepted' E S.
  - cbn in E. injection E as <- <-. cbn. now rewrite app_nil_r.
  - cbn [dedup_loop overwritten_loop] in *.
    destruct (scan_accepted_cases h c accepted)
      as [(H1 & H2 & H3) | [(H1 & H2) | (e & He & H1 & H2)]];
      rewrite H1 in *; rewrite H2.
    + cbn [app]. eapply IH; [exact E|]. now apply separated_snoc.
    + cbn [app]. eapply IH; [exact E|]. exact S.
    + rewrite app_assoc. eapply IH; [exact E|]. now apply separated_overwrite.
Qed.

Lemma deduplicate_loop (h : heap) (chunks : list ref) :
  deduplicate h chunks = dedup_loop h chunks [].
Proof. destruct chunks; reflexivity. Qed.
End RetrieverFacts.

(** X27.  In the list returned by [deduplicate], two chunks at distinct
    positions have texts of character-set Jaccard similarity at most 0.80,
    unless one of them is an accepted chunk into which a higher-scored
    candidate was score-replaced; and the similarity of two empty texts
    is 0. *)
Theorem deduplicate_leaves_no_near_duplicates
        (h h' : Retriever.heap) (chunks accepted : list Retriever.ref)
        (i j : nat) (a b : Retriever.ref) :
  Retriever.deduplicate h chunks = (h', accepted) ->
  i <> j -> accepted !! i = Some a -> accepted !! j = Some b ->
  ((Retriever._jaccard_similarity (Retriever.text (h' a)) (Retriever.text (h' b))
    <= 80 # 100)%Q
   \/ a ∈ Retriever.score_replaced h chunks
   \/ b ∈ Retriever.score_replaced h chunks)
  /\ Retriever._jaccard_similarity "" "" = 0%Q.
Proof.
  intros E Hij Hi Hj. split; [|reflexivity].
  rewrite deduplicate_loop in E.
  assert (S0 : Retriever.separated h [] []) by (intros ? ? ? ? _ H; inversion H).
  pose proof (dedup_loop_separated chunks h [] [] h' accepted E S0) as S.
  destruct (S i j a b Hij Hi Hj) as [H | [H | H]]; auto.
  left. now apply not_near_le.
Qed.

Section RetrieveFacts.
Import Retriever.
Variable threshold : Q.
Variable raw_results : list VectorStore.Hit.


(** [from_hit] only looks at the four fields. *)
Lemma from_hit_fields (v v' : RetrievedChunk) :
  text v' = text v -> source_file v' = source_file v ->
  page_number v' = page_number v -> score v' = score v ->
  from_hit threshold raw_results v -> from_hit threshold raw_results v'.
Proof.
  intros Ht Hs Hp Hc (hit & Hin & Hthr & H1 & H2 & H3 & H4).
  exists hit. rewrite Ht, Hs, Hp, Hc. auto 10.
Qed.

Lemma from_hit_boost (h : heap) (r : ref) :
  (exists hit, hit ∈ raw_results
               /\ (threshold <= VectorStore.h_score hit)%Q
               /\ text (h r) = VectorStore.m_text (VectorStore.h_meta hit)
               /\ source_file (h r) = VectorStore.m_source_file (VectorStore.h_meta hit)
               /\ page_number (h r) = VectorStore.m_page_number (VectorStore.h_meta hit)
               /\ score (h r) = VectorStore.h_score hit) ->
  from_hit threshold raw_results (set_score h r (score (h r) + BOOST)%Q r).
Proof.
  intros (hit & Hin & Hthr & H1 & H2 & H3 & H4).
  exists hit. unfold set_score. rewrite upd_eq. cbn. rewrite H4. auto 10.
Qed.

Lemma filter_hits_plain (raw : list VectorStore.Hit) :
  forall (h : heap) (next : ref) (retrieved : list ref) h' retrieved',
    filter_hits threshold raw h next retrieved = (h', retrieved') ->
    (forall hit, hit ∈ raw -> hit ∈ raw_results) ->
    Forall (fun r => r < next) retrieved -> NoDup retrieved ->
    Forall (fun r => plain threshold raw_results (h r)) retrieved ->
    NoDup retrieved' /\ Forall (fun r => plain threshold raw_results (h' r)) retrieved'.
Proof.
  induction raw as [|res rest IH]; intros h next retrieved h' retrieved' E Hsub Hlt Hnd Hp.
  - cbn in E. injection E as <- <-. auto.
  - cbn [filter_hits] in E.
    assert (Hrest : forall hit, hit ∈ rest -> hit ∈ raw_results).
    { intros hit Hin. apply Hsub. now right. }
    destruct (Qltb (VectorStore.h_score res) threshold) eqn:Q.
    + eapply IH; eauto.
    + eapply IH; [exact E | exact Hrest | | |].
      * apply Forall_app. split.
        -- eapply Forall_impl; [exact Hlt|]. cbn. lia.
        -- repeat constructor.
      * apply NoDup_app. split; [exact Hnd|]. split; [|apply NoDup_singleton].
        intros x Hx Hx'. apply list_elem_of_singleton in Hx'. subst x.
        rewrite Forall_forall in Hlt. specialize (Hlt _ Hx). lia.
      * apply Forall_app. split.
        -- rewrite Forall_forall in *. intros x Hx.
           rewrite upd_ne; [auto|]. specialize (Hlt _ Hx). lia.
        -- constructor; [|constructor]. rewrite upd_eq.
           exists res. cbn. repeat split; [apply Hsub; left|].
           unfold Qltb in Q. apply negb_false_iff in Q. now apply Qle_bool_iff.
Qed.

Lemma boost_one_cases (q : string) (h : heap) (x : ref) :
  (forall r, r <> x -> boost_one q h x r = h r)
  /\ (boost_one q h x x = h x
      \/ boost_one q h x = set_score h x (score (h x) + BOOST)%Q).
Proof.
  unfold boost_one. destruct (existsb _ _); [|auto].
  split; [|auto]. intros r Hr. unfold set_score. now rewrite upd_ne.
Qed.

Lemma plain_ok (v : RetrievedChunk) : plain threshold raw_results v -> from_hit threshold raw_results v.
Proof.
  intros (hit & Hin & Hthr & H1 & H2 & H3 & H4). exists hit. auto 10.
Qed.

Lemma boost_fold_ok (q : string) (l : list ref) :
  forall (h : heap),
    NoDup l -> Forall (fun r => plain threshold raw_results (h r)) l ->
    (forall r, r ∉ l -> fold_left (boost_one q) l h r = h r)
    /\ Forall (fun r => from_hit threshold raw_results (fold_left (boost_one q) l h r)) l.
Proof.
  induction l as [|x l IH]; intros h Hnd Hp.
  - cbn. split; auto.
  - cbn [fold_left]. apply NoDup_cons in Hnd as [Hx Hnd].
    apply Forall_cons in Hp as [Hpx Hp].
    destruct (boost_one_cases q h x) as [Hother Hhere].
    assert (Hp' : Forall (fun r => plain threshold raw_results (boost_one q h x r)) l).
    { rewrite Forall_forall in *. intros r Hr. rewrite Hother; [auto|].
      intros ->. contradiction. }
    destruct (IH (boost_one q h x) Hnd Hp') as [Hout Hin].
    split.
    + intros r Hr. apply not_elem_of_cons in Hr as [Hrx Hr].
      rewrite Hout by exact Hr. now apply Hother.
    + constructor; [|exact Hin].
      rewrite Hout by exact Hx.
      destruct Hhere as [-> | ->]; [now apply plain_ok|].
      now apply from_hit_boost.
Qed.

Lemma insert_desc_elem (h : heap) (x y : ref) (l : list ref) :
  y ∈ insert_desc h x l -> y = x \/ y ∈ l.
Proof.
  induction l as [|z l IH]; cbn.
  - intros H. apply list_elem_of_singleton in H. auto.
  - destruct (Qgtb (score (h z)) (score (h x))).
    + intros H. apply elem_of_cons in H as [-> | H]; [right; left|].
      destruct (IH H) as [-> | H']; [auto | right; now right].
    + intros H. apply elem_of_cons in H as [-> | H]; auto.
Qed.

Lemma sort_desc_elem (h : heap) (y : ref) (l : list ref) :
  y ∈ sort_desc h l -> y ∈ l.
Proof.
  unfold sort_desc. induction l as [|x l IH]; cbn; [auto|].
  intros H. apply insert_desc_elem in H as [-> | H]; [left | right; auto].
Qed.

Lemma scan_accepted_ok (h : heap) (c : ref) (accepted : list ref) :
  from_hit threshold raw_results (h c) -> forall r, from_hit threshold raw_results (h r) -> from_hit threshold raw_results (fst (scan_accepted h c accepted) r).
Proof.
  intros Hc r Hr.
  destruct (scan_accepted_cases h c accepted)
    as [(-> & _) | [(-> & _) | (e & _ & -> & _)]]; cbn; auto.
  destruct (Nat.eq_dec r e) as [-> | Hne].
  - destruct (overwrite_fields h e c) as (H1 & H2 & H3 & H4).
    eapply from_hit_fields; eauto.
  - now rewrite overwrite_other.
Qed.

Lemma scan_accepted_flag (h : heap) (c : ref) (accepted : list ref) :
  forall r, r ∈ (if snd (scan_accepted h c accepted)
                 then accepted else accepted ++ [c]) ->
            r ∈ accepted \/ r = c.
Proof.
  intros r. destruct (snd (scan_accepted h c accepted)); [auto|].
  intros H. apply elem_of_app in H as [H | H]; [auto|].
  apply list_elem_of_singleton in H. auto.
Qed.

Lemma dedup_loop_ok (chunks : list ref) :
  forall (h : heap) (accepted : list ref) h' accepted',
    dedup_loop h chunks accepted = (h', accepted') ->
    (forall r, r ∈ chunks \/ r ∈ accepted -> from_hit threshold raw_results (h r)) ->
    forall r, r ∈ accepted' -> from_hit threshold raw_results (h' r).
Proof.
  induction chunks as [|c rest IH]; intros h accepted h' accepted' E Hok.
  - cbn in E. injection E as <- <-. auto.
  - cbn [dedup_loop] in E.
    pose proof (scan_accepted_ok h c accepted (Hok c (or_introl (list_elem_of_here _ _)))) as Hs.
    pose proof (scan_accepted_flag h c accepted) as Hf.
    destruct (scan_accepted h c accepted) as [h1 dup]. cbn [fst snd] in *.
    eapply IH; [exact E|].
    intros r [Hr | Hr].
    + apply Hs, Hok. left. now right.
    + apply Hs, Hok. destruct (Hf r Hr) as [H | ->]; [now right | left; left].
Qed.

Lemma rank_ok (query : string) (c : RetrievedChunk) :
  c ∈ rank query threshold raw_results -> from_hit threshold raw_results c.
Proof.
  unfold rank.
  destruct (filter_hits threshold raw_results (fun _ => blank) 0 []) as [h1 l1] eqn:E1.
  destruct (filter_hits_plain raw_results _ _ _ _ _ E1) as [Hnd Hp];
    [auto | constructor | constructor | constructor |].
  unfold _apply_reranking_boost.
  destruct (boost_fold_ok (Py.lower query) l1 h1 Hnd Hp) as [_ Hb].
  set (h2 := fold_left (boost_one (Py.lower query)) l1 h1) in *.
  destruct (deduplicate h2 (sort_desc h2 l1)) as [h3 l3] eqn:E3.
  rewrite deduplicate_loop in E3.
  intros Hc. apply list_elem_of_fmap in Hc as (r & -> & Hr).
  eapply (dedup_loop_ok _ _ _ _ _ E3); [|exact Hr].
  intros r' [Hr' | Hr']; [|inversion Hr'].
  apply sort_desc_elem in Hr'. rewrite Forall_forall in Hb. auto.
Qed.
End RetrieveFacts.

(** C6.  Every chunk returned by [retrieve] carries the text, source file
    and page of a search result whose similarity score is at least the
    threshold; its own score is that pre-boost score, or that score plus
    0.05.  Results below the threshold are dropped before the boost. *)
Theorem retrieve_respects_threshold
        (encode : string -> VectorStore.vector)
        (faiss_search : VectorStore.IndexFlatIP -> VectorStore.vector -> nat
                        -> result (list (Q * Z)))
        (query : string) (k : nat) (threshold : Q)
        (w w' : VectorStore.world)
        (chunks : list Retriever.RetrievedChunk) (c : Retriever.RetrievedChunk) :
  Retriever.retrieve encode faiss_search query k threshold w = (Ok chunks, w') ->
  c ∈ chunks ->
  exists raw_results hit,
    VectorStore.search faiss_search (encode query) k w = (Ok raw_results, w')
    /\ hit ∈ raw_results
    /\ (threshold <= VectorStore.h_score hit)%Q
    /\ Retriever.text c = VectorStore.m_text (VectorStore.h_meta hit)
    /\ Retriever.source_file c = VectorStore.m_source_file (VectorStore.h_meta hit)
    /\ Retriever.page_number c = VectorStore.m_page_number (VectorStore.h_meta hit)
    /\ (Retriever.score c = VectorStore.h_score hit
        \/ Retriever.score c = (VectorStore.h_score hit + Retriever.BOOST)%Q).
Proof.
  unfold Retriever.retrieve, bind, ret. intros E Hc.
  destruct (VectorStore.search faiss_search (encode query) k w) as [[raw|e] w1];
    [|discriminate].
  injection E as <- <-.
  destruct (rank_ok threshold raw query c Hc) as (hit & H).
  exists raw, hit. split; [reflexivity | exact H].
Qed.

(** ** Ingestion *)

Section IngestionFacts.
Import Ingestion.
Variable tokenizer : option TokenCounter.Tokenizer.
Variable encode_batch : list string -> list VectorStore.vector.
Variable uuid4 : nat -> string.

Lemma build_records_index (filename : string) (chunks_meta : list (string * nat)) :
  forall (embeddings : list VectorStore.vector) (n i : nat) (r : VectorStore.ChunkRecord),
    build_records uuid4 filename n chunks_meta embeddings !! i = Some r ->
    VectorStore.chunk_index r = n + i.
Proof.
  induction chunks_meta as [|meta cm IH]; intros [|emb es] n i r H;
    try discriminate H.
  cbn [build_records] in H. destruct i as [|i]; cbn in H.
  - injection H as <-. cbn. lia.
  - apply IH in H. lia.
Qed.

(** The parts of the ingestion invariant that hold on every input: the
    records are numbered 0, 1, ... in order, and each embedding has the
    dimension of the store, because [add] accepted it. *)
Lemma ingest_pdf_indices_and_dimensions
      (filename : string) (doc : result (list string)) (f : VectorStore.fault)
      (w w' : VectorStore.world) (records : list VectorStore.ChunkRecord) :
  ingest_pdf tokenizer encode_batch uuid4 filename doc f w = (Ok records, w') ->
  forall i r, records !! i = Some r ->
    VectorStore.chunk_index r = i
    /\ exists v, VectorStore.embedding r = Some v
                 /\ length v = VectorStore.dimension (VectorStore.st w).
Proof.
  unfold ingest_pdf, bind, lift_result, ret, raise. intros E i r Hi.
  destruct (extract_text_from_pdf doc) as [[full_text total]|e]; [|discriminate].
  cbn [fst] in E.
  destruct (chunk_text tokenizer full_text) as [|m cm] eqn:Ec; [discriminate|].
  set (recs := build_records uuid4 filename 0 (m :: cm)
                             (encode_batch (map fst (m :: cm)))) in *.
  pose proof (add_spec recs w) as P.
  assert (Hdim : VectorStore.dimension (VectorStore.st (snd (VectorStore._ensure_loaded w)))
                 = VectorStore.dimension (VectorStore.st w)).
  { destruct (ensure_loaded_cases w) as [[e ->] | (s' & -> & Hd & _)]; auto. }
  destruct (VectorStore.add recs w) as [[[]|e] w1]; [|discriminate].
  destruct (VectorStore.persist f w1) as [[[]|e] w2]; [|discriminate].
  injection E as <- <-.
  split.
  - apply (build_records_index _ _ _ 0 i r Hi).
  - destruct P as (_ & _ & vs & F & _).
    destruct (Forall2_lookup_l _ _ _ _ _ F Hi) as (v & _ & He & Hl).
    exists v. split; [exact He | congruence].
Qed.
End IngestionFacts.

(** C7, evaluated on a one-page PDF whose text is "[PAGE_BREAK:0] hello":
    ingestion succeeds and returns one chunk, numbered 0 and with an
    embedding of dimension 384, whose page number is 0. *)
Theorem ingest_pdf_page_number_zero :
  match fst (Ingestion.ingest_pdf None Samples.embed_all Samples.uuid
                                  "manual.pdf" Samples.marker_pdf
                                  VectorStore.NoFault Samples.fresh) with
  | Ok [r] =>
      VectorStore.text r = "hello"
      /\ VectorStore.chunk_index r = 0
      /\ length <$> VectorStore.embedding r = Some 384
      /\ VectorStore.page_number r = 0%Z
  | _ => False
  end.
Proof.
  vm_compute. repeat split.
Qed.

(** On an ordinary two-page PDF the single chunk is attributed to page 1. *)
Example ingest_pdf_two_pages :
  match fst (Ingestion.ingest_pdf None Samples.embed_all Samples.uuid
                                  "guide.pdf" Samples.two_page_pdf
                                  VectorStore.NoFault Samples.fresh) with
  | Ok [r] =>
      VectorStore.chunk_index r = 0 /\ VectorStore.page_number r = 1%Z
  | _ => False
  end.
Proof.
  vm_compute. repeat split.
Qed.

(** ** The theorems at work on concrete inputs *)

(** Two chunks that [deduplicate] keeps side by side. *)
Lemma deduplicate_leaves_no_near_duplicates_witness :
  ((Retriever._jaccard_similarity "abcdefghij" "abcdefghijklm" <= 80 # 100)%Q
   \/ 0 ∈ Retriever.score_replaced Samples.three [0; 1]
   \/ 1 ∈ Retriever.score_replaced Samples.three [0; 1])
  /\ Retriever._jaccard_similarity "" "" = 0%Q.
Proof.
  exact (deduplicate_leaves_no_near_duplicates
           Samples.three Samples.three [0; 1] [0; 1] 0 1 0 1
           ltac:(vm_compute; reflexivity) ltac:(discriminate) eq_refl eq_refl).
Defined.

(** C3, evaluated on the chunks "abcdefghij" (score 0.50), "abcdefghijklm"
    (0.40) and "abcdefghijk" (0.90), in this order.  The first two are
    accepted side by side (similarity 10/13).  The third is a near-duplicate
    of the first and scores higher, so it is copied into the first; it is
    not compared with the second.  The list returned holds "abcdefghijk"
    and "abcdefghijklm", of similarity 11/13 > 0.80, and neither of the two
    was score-replaced into the other. *)
Theorem deduplicate_returns_near_duplicate_pair :
  let h' := fst (Retriever.deduplicate Samples.three [0; 1; 2]) in
  let accepted := snd (Retriever.deduplicate Samples.three [0; 1; 2]) in
  accepted = [0; 1]
  /\ map h' accepted = [Samples.chunk "abcdefghijk" (90 # 100);
                        Samples.chunk "abcdefghijklm" (40 # 100)]
  /\ Retriever.score_replaced Samples.three [0; 1; 2] = [0]
  /\ Retriever.text (Samples.three 2) = Retriever.text (h' 0)
  /\ Retriever._jaccard_similarity (Retriever.text (h' 0)) (Retriever.text (h' 1))
     = 11 # 13
  /\ (80 # 100 < Retriever._jaccard_similarity (Retriever.text (h' 0%nat))
                                                (Retriever.text (h' 1%nat)))%Q
  /\ Retriever._jaccard_similarity "" "" = 0%Q.
Proof.
  vm_compute. repeat split.
Qed.

(** C5 on an upstream that always answers 503, and on one that times out
    once and then answers 429. *)
Lemma generate_retry_policy_witness :
  GroqClient.generate Samples.always_503 []
  = (GroqClient.ConnectionError (Some (GroqClient.APIStatusError 503)),
     [GroqClient.Request; GroqClient.Sleep 1; GroqClient.Request;
      GroqClient.Sleep 3; GroqClient.Request])
  /\ GroqClient.generate Samples.timeout_then_429 []
     = (GroqClient.Propagated (GroqClient.APIStatusError 429),
        [GroqClient.Request; GroqClient.Sleep 1; GroqClient.Request]).
Proof.
  split.
  - destruct (proj1 (generate_retry_policy Samples.always_503 [])) as (last & Hl & Hg).
    + intros i _. exists (GroqClient.APIStatusError 503). split; [reflexivity|].
      right; right. exists 503. split; [reflexivity | lia].
    + injection Hl as <-. exact Hg.
  - destruct (proj2 (generate_retry_policy Samples.timeout_then_429 [])
                    1 (GroqClient.APIStatusError 429)) as (w' & Hg & _ & _ & Hw & _).
    + lia.
    + intros j Hj. exists GroqClient.APITimeoutError.
      replace j with 0 by lia. split; [reflexivity | left; reflexivity].
    + reflexivity.
    + right. exists 429. split; [reflexivity | lia].
    + rewrite Hg, (Hw eq_refl). reflexivity.
Defined.

(** C6 on a store of two chunks, one of them scored below the threshold. *)
Lemma retrieve_respects_threshold_witness :
  exists raw_results hit,
    VectorStore.search Samples.best_first Samples.e1 5 Samples.one_behind
    = (Ok raw_results, Samples.one_behind)
    /\ hit ∈ raw_results
    /\ (Retriever.SIMILARITY_THRESHOLD <= VectorStore.h_score hit)%Q
    /\ "first chunk" = VectorStore.m_text (VectorStore.h_meta hit)
    /\ "guide.pdf" = VectorStore.m_source_file (VectorStore.h_meta hit)
    /\ 1%Z = VectorStore.m_page_number (VectorStore.h_meta hit)
    /\ ((42 # 100) = VectorStore.h_score hit
        \/ (42 # 100) = (VectorStore.h_score hit + Retriever.BOOST)%Q).
Proof.
  exact (retrieve_respects_threshold
           (fun _ => Samples.e1) Samples.best_first "pricing?" 5
           Retriever.SIMILARITY_THRESHOLD Samples.one_behind Samples.one_behind
           [Samples.first_found] Samples.first_found
           ltac:(vm_compute; reflexivity) ltac:(left)).
Defined.

(* ===================================================================== *)
(** * Further properties of the code *)
(* ===================================================================== *)

(** ** Router: the tree in closed form *)

Lemma classify_features_closed (f : Router.Features) :
  Router.classify_features f
  = if (negb (Nat.leb (Router.word_count f) 3 && Nat.leb (Router.question_count f) 1
              && negb (Router.has_complexity_keywords f))
        && (Router.has_complaint_markers f
            || Nat.leb 3 (Router.question_count f)
            || Router.has_comparison_pattern f
            || Router.has_complexity_keywords f
            || Router.has_ambiguity_markers f
            || (Nat.ltb 40 (Router.word_count f)
                && Nat.leb 3 (Router.sentence_count f))))%bool
    then "complex" else "simple".
Proof.
  destruct f as [wc cc qc kw amb cpl cmp sc].
  unfold Router.classify_features.
  cbn [Router.word_count Router.question_count Router.sentence_count
       Router.has_complexity_keywords Router.has_ambiguity_markers
       Router.has_complaint_markers Router.has_comparison_pattern].
  generalize (Nat.leb wc 3), (Nat.leb qc 1), (Nat.leb 3 qc),
    (Nat.ltb 40 wc), (Nat.leb 3 sc), (Nat.ltb 25 wc).
  intros b1 b2 b3 b4 b5 b6.
  destruct b1, b2, b3, b4, b5, b6, kw, amb, cpl, cmp; reflexivity.
Qed.

(** X1.  [classify_query] answers "complex" exactly when the query is not
    trivial (NODE 1) and shows at least one signal: a complaint marker,
    three question marks, a comparison pattern, a complexity keyword, an
    ambiguity marker, or more than 40 words in at least 3 sentences.  In
    particular NODE 6 never decides. *)
Theorem classify_query_closed_form (query : string) :
  let f := Router._extract_features query in
  Router.classify_query query
  = if (negb (Nat.leb (Router.word_count f) 3 && Nat.leb (Router.question_count f) 1
              && negb (Router.has_complexity_keywords f))
        && (Router.has_complaint_markers f
            || Nat.leb 3 (Router.question_count f)
            || Router.has_comparison_pattern f
            || Router.has_complexity_keywords f
            || Router.has_ambiguity_markers f
            || (Nat.ltb 40 (Router.word_count f)
                && Nat.leb 3 (Router.sentence_count f))))%bool
    then "complex" else "simple".
Proof.
  cbv zeta. unfold Router.classify_query. apply classify_features_closed.
Qed.

(** X2.  Three signals cannot be swallowed by NODE 1: a query with three or
    more question marks, with a complexity keyword, or with an ambiguity
    marker and more than three words is always complex. *)
Theorem classify_query_forced_complex (query : string) :
  3 <= Py.count_char "?" query
  \/ Router.has_complexity_keywords (Router._extract_features query) = true
  \/ (Router.has_ambiguity_markers (Router._extract_features query) = true
      /\ 3 < length (Py.split_ws (Py.lower query))) ->
  Router.classify_query query = "complex".
Proof.
  intros H. unfold Router.classify_query. rewrite classify_features_closed.
  change (Py.count_char "?" query)
    with (Router.question_count (Router._extract_features query)) in H.
  change (length (Py.split_ws (Py.lower query)))
    with (Router.word_count (Router._extract_features query)) in H.
  destruct (Router._extract_features query) as [wc cc qc kw amb cpl cmp sc].
  cbn [Router.word_count Router.question_count Router.sentence_count
       Router.has_complexity_keywords Router.has_ambiguity_markers
       Router.has_complaint_markers Router.has_comparison_pattern] in *.
  destruct H as [H | [H | [H1 H2]]].
  - apply Nat.leb_le in H as H3. rewrite H3.
    replace (Nat.leb qc 1) with false by (symmetry; apply Nat.leb_gt; lia).
    rewrite andb_false_r. cbn. now rewrite orb_true_r.
  - subst kw. rewrite !andb_false_r. cbn. now rewrite !orb_true_r.
  - subst amb. replace (Nat.leb wc 3) with false by (symmetry; apply Nat.leb_gt; lia).
    cbn. now rewrite !orb_true_r.
Qed.

Lemma classify_query_forced_complex_witness :
  Router.classify_query "What? Why? How?" = "complex".
Proof.
  apply classify_query_forced_complex. left. vm_compute. lia.
Defined.

(** ** Evaluator: what each flag depends on *)

Section EvaluatorMore.
Import Evaluator.

Lemma mem_In (x : string) (l : list string) : mem x l = true <-> In x l.
Proof.
  unfold mem. rewrite existsb_exists. split.
  - intros (y & Hy & E). apply String.eqb_eq in E. now subst.
  - intros H. exists x. split; [exact H | apply String.eqb_refl].
Qed.

Lemma all_present (l : list string) (extra : string -> bool) :
  existsb (fun x => (negb (mem x l) && extra x)%bool) l = false.
Proof.
  apply not_true_is_false. intros H. apply existsb_exists in H as (x & Hx & H).
  apply andb_true_iff in H as [H _]. apply negb_true_iff in H.
  apply (proj2 (mem_In x l)) in Hx. congruence.
Qed.
End EvaluatorMore.

(** X3.  The three checks of [evaluate_output] are independent:
    "no_context_warning" is raised exactly when the retrieval count is 0,
    "refusal_detected" exactly when the lower-cased response contains one
    of the refusal phrases, and "potential_hallucination" exactly when
    [check_hallucination] reports one. *)
Theorem evaluate_output_flag_conditions
        (response : string) (retrieval_count : Z) (chunks : list Evaluator.chunk_dict) :
  ("no_context_warning" ∈ Evaluator.evaluate_output response retrieval_count chunks
   <-> retrieval_count = 0%Z)
  /\ ("refusal_detected" ∈ Evaluator.evaluate_output response retrieval_count chunks
      <-> exists phrase, In phrase Evaluator.REFUSAL_PHRASES
                         /\ Py.contains phrase (Py.lower response) = true)
  /\ ("potential_hallucination" ∈ Evaluator.evaluate_output response retrieval_count chunks
      <-> Evaluator.check_hallucination response chunks = Some "potential_hallucination").
Proof.
  rewrite evaluate_output_shape.
  assert (Href : existsb (fun p => Py.contains p (Py.lower response))
                         Evaluator.REFUSAL_PHRASES = true
                 <-> exists phrase, In phrase Evaluator.REFUSAL_PHRASES
                                    /\ Py.contains phrase (Py.lower response) = true)
    by apply existsb_exists.
  destruct (existsb (fun p => Py.contains p (Py.lower response))
                    Evaluator.REFUSAL_PHRASES).
  all: destruct (Z.eqb_spec retrieval_count 0) as [E0 | E0].
  all: destruct (check_hallucination_cases response chunks) as [Eh | Eh]; rewrite Eh.
  all: cbn [app]; rewrite ?elem_of_cons, ?elem_of_nil.
  all: repeat split; intros; try tauto; try discriminate; try congruence.
  all: try (apply Href; reflexivity).
  all: try (exfalso; match goal with
                     | H : exists _, _ |- _ => apply Href in H; discriminate H
                     end).
  all: repeat match goal with
              | H : _ \/ _ |- _ => destruct H
              end; try discriminate; try tauto; try congruence.
Qed.

(** X4.  A response is never flagged as a hallucination when it is, word
    for word, the text of the retrieved chunks joined by single spaces:
    every price and every proper noun it contains is found in the chunks. *)
Theorem verbatim_response_is_not_flagged (chunks : list Evaluator.chunk_dict) :
  Evaluator.check_hallucination
    (Py.join " " (map Evaluator.get_text chunks)) chunks = None.
Proof.
  unfold Evaluator.check_hallucination.
  set (t := Py.join " " (map Evaluator.get_text chunks)).
  assert (H1 : existsb (fun price => negb (Evaluator.mem price (Evaluator.extract_prices t)))
                       (Evaluator.extract_prices t) = false).
  { apply not_true_is_false. intros H. apply existsb_exists in H as (x & Hx & H).
    apply negb_true_iff in H. apply (proj2 (mem_In x _)) in Hx. congruence. }
  rewrite H1. now rewrite all_present.
Qed.

(** ** Vector store: reload, stable ids, reads *)

Section VectorStoreMore.
Import VectorStore.
Variable faiss_search :
  IndexFlatIP -> vector -> nat -> result (list (Q * Z)).

Lemma store_eta (s : store) :
  {| dimension := dimension s; _index := _index s;
     _metadata := _metadata s; _loaded := _loaded s |} = s.
Proof. now destruct s. Qed.

Lemma persist_no_fault (w : world) (ix : IndexFlatIP) :
  _loaded (st w) = true -> _index (st w) = Some ix ->
  persist NoFault w
  = (Ok tt, {| st := st w;
               dk := {| faiss_file := Content ix;
                        pkl_file := Content (_metadata (st w)) |} |}).
Proof.
  intros L Ei. unfold persist, bind. rewrite (ensure_loaded_loaded w L).
  destruct w as [s dsk]. cbn in *. munfold. cbn. rewrite Ei. reflexivity.
Qed.

Lemma get_total_chunks_loaded (w : world) (ix : IndexFlatIP) :
  _loaded (st w) = true -> _index (st w) = Some ix ->
  get_total_chunks w = (Ok (ntotal ix), w).
Proof.
  intros L Ei. unfold get_total_chunks, bind. rewrite (ensure_loaded_loaded w L).
  unfold get. now rewrite Ei.
Qed.

Lemma get_dimension_loaded (w : world) (ix : IndexFlatIP) :
  _loaded (st w) = true -> _index (st w) = Some ix ->
  get_dimension w = (Ok (d ix), w).
Proof.
  intros L Ei. unfold get_dimension, bind. rewrite (ensure_loaded_loaded w L).
  unfold get. now rewrite Ei.
Qed.

Lemma collect_hits_valid (metadata : list Meta) (pairs : list (Q * Z)) :
  Forall (fun p => snd p = (-1)%Z
                   \/ (0 <= snd p < Z.of_nat (length metadata))%Z) pairs ->
  exists hits,
    collect_hits metadata pairs = Ok hits
    /\ Forall2 (fun h p => h_score h = fst p
                           /\ nth_error metadata (Z.to_nat (snd p)) = Some (h_meta h))
               hits
               (List.filter (fun p => negb (Z.eqb (snd p) (-1))) pairs).
Proof.
  induction 1 as [| [score idx] rest Hp _ IH].
  - exists []. split; [reflexivity | constructor].
  - destruct IH as (hits & Hc & Hf). cbn [collect_hits List.filter snd].
    destruct (Z.eqb_spec idx (-1)) as [E | E]; cbn [negb].
    + exists hits. auto.
    + cbn [snd] in Hp. destruct Hp as [Hp | Hp]; [contradiction |].
      unfold py_index.
      replace (Z.ltb idx 0) with false by (symmetry; apply Z.ltb_ge; lia).
      replace (Z.ltb idx 0) with false by (symmetry; apply Z.ltb_ge; lia).
      destruct (nth_error metadata (Z.to_nat idx)) as [meta|] eqn:En.
      * rewrite Hc. eexists. split; [reflexivity |].
        constructor; [cbn; auto | exact Hf].
      * apply nth_error_None in En. lia.
Qed.

End VectorStoreMore.

(** X5.  Round trip through the files: after a [persist] that meets no
    failure on a loaded store whose index has the configured dimension,
    [load] into a freshly constructed store of that dimension rebuilds
    exactly the store that was persisted. *)
Theorem persist_then_load_restores_store
        (w : VectorStore.world) (ix : VectorStore.IndexFlatIP) :
  VectorStore._loaded (VectorStore.st w) = true ->
  VectorStore._index (VectorStore.st w) = Some ix ->
  VectorStore.d ix = VectorStore.dimension (VectorStore.st w) ->
  let saved := snd (VectorStore.persist VectorStore.NoFault w) in
  fst (VectorStore.persist VectorStore.NoFault w) = Ok tt
  /\ VectorStore.load
       {| VectorStore.st := VectorStore.init (VectorStore.dimension (VectorStore.st w));
          VectorStore.dk := VectorStore.dk saved |}
     = (Ok tt, {| VectorStore.st := VectorStore.st w;
                  VectorStore.dk := VectorStore.dk saved |}).
Proof.
  intros L Ei Hd. cbv zeta. rewrite (persist_no_fault w ix L Ei).
  split; [reflexivity |]. cbn [snd fst VectorStore.dk].
  destruct w as [[dim oi m l] dsk]. cbn in *. subst.
  munfold. cbn. rewrite Nat.eqb_refl. reflexivity.
Qed.

Lemma persist_then_load_restores_store_witness :
  let saved := snd (VectorStore.persist VectorStore.NoFault Samples.one_behind) in
  VectorStore.pkl_file (VectorStore.dk saved)
  = VectorStore.Content [VectorStore.to_dict Samples.r0; VectorStore.to_dict Samples.r1]
  /\ VectorStore.load
       {| VectorStore.st := VectorStore.init VectorStore.EMBEDDING_DIM;
          VectorStore.dk := VectorStore.dk saved |}
     = (Ok tt, {| VectorStore.st := VectorStore.st Samples.one_behind;
                  VectorStore.dk := VectorStore.dk saved |}).
Proof.
  split; [reflexivity |].
  exact (proj2 (persist_then_load_restores_store
                  Samples.one_behind
                  {| VectorStore.d := VectorStore.EMBEDDING_DIM;
                     VectorStore.xb := [Samples.e1; Samples.e1] |}
                  eq_refl eq_refl eq_refl)).
Defined.

(** X6.  [load] is idempotent, and a successful [load] replaces whatever
    the store held in memory: the store it leaves is the one a freshly
    constructed store of the same dimension would get from the same
    files. *)
Theorem load_is_idempotent_and_discards_memory (w : VectorStore.world) :
  VectorStore.load (snd (VectorStore.load w)) = VectorStore.load w
  /\ (is_ok (fst (VectorStore.load w)) = true ->
      VectorStore.st (snd (VectorStore.load w))
      = VectorStore.st
          (snd (VectorStore.load
                  {| VectorStore.st :=
                       VectorStore.init (VectorStore.dimension (VectorStore.st w));
                     VectorStore.dk := VectorStore.dk w |}))).
Proof.
  destruct w as [[dim oi m l] [ff pf]]. munfold. cbn.
  destruct ff as [| |ix], pf as [| |m']; cbn; try (split; [reflexivity | easy]).
  all: destruct (Nat.eqb (VectorStore.d ix) dim) eqn:E; cbn;
    rewrite ?E; cbn; split; try reflexivity; try easy.
Qed.

(** X7.  [add] is append-only.  When it returns on a loaded store, every
    metadata entry and every vector keeps its position, the dimension and
    the files are untouched, and the new entries follow the old ones in the
    order of [records]. *)
Theorem add_keeps_existing_entries
        (records : list VectorStore.ChunkRecord) (w w' : VectorStore.world)
        (ix : VectorStore.IndexFlatIP) :
  VectorStore._loaded (VectorStore.st w) = true ->
  VectorStore._index (VectorStore.st w) = Some ix ->
  VectorStore.add records w = (Ok tt, w') ->
  VectorStore.dk w' = VectorStore.dk w
  /\ VectorStore.dimension (VectorStore.st w') = VectorStore.dimension (VectorStore.st w)
  /\ VectorStore._metadata (VectorStore.st w')
     = VectorStore._metadata (VectorStore.st w) ++ map VectorStore.to_dict records
  /\ exists ix' vs,
       VectorStore._index (VectorStore.st w') = Some ix'
       /\ VectorStore.d ix' = VectorStore.d ix
       /\ VectorStore.xb ix' = VectorStore.xb ix ++ vs
       /\ map VectorStore.embedding records = map Some vs.
Proof.
  intros L Ei H. unfold VectorStore.add, bind in H.
  rewrite (ensure_loaded_loaded w L) in H.
  destruct records as [| r0 rs].
  - inversion H; subst w'. repeat split; [now rewrite app_nil_r |].
    exists ix, []. repeat split; [exact Ei | now rewrite app_nil_r].
  - set (recs := r0 :: rs) in *. unfold lift_result, get in H.
    destruct (VectorStore.np_array (map VectorStore.embedding recs))
      as [[c vs]|e] eqn:E; [| discriminate H].
    assert (Hm : map VectorStore.embedding recs = map Some vs).
    { apply np_array_ok in E. clear -E. revert E.
      generalize (map VectorStore.embedding recs). intros rows E.
      induction E as [| o v l l' [-> _] _ IH]; [reflexivity |].
      cbn. now f_equal. }
    cbn [fst snd] in H.
    destruct (Nat.eqb c (VectorStore.dimension (VectorStore.st w)));
      cbn [negb] in H; [| discriminate H].
    rewrite Ei in H. unfold VectorStore.index_add in H.
    destruct (Nat.eqb c (VectorStore.d ix)); [| discriminate H].
    cbn in H. inversion H; subst w'. cbn. repeat split.
    exists {| VectorStore.d := VectorStore.d ix;
              VectorStore.xb := VectorStore.xb ix ++ vs |}, vs.
    repeat split. exact Hm.
Qed.

Lemma add_keeps_existing_entries_witness :
  let w' := snd (VectorStore.add [Samples.r1; Samples.r0] Samples.one_behind) in
  VectorStore._metadata (VectorStore.st w')
  = [VectorStore.to_dict Samples.r0; VectorStore.to_dict Samples.r1]
      ++ [VectorStore.to_dict Samples.r1; VectorStore.to_dict Samples.r0]
  /\ exists ix' vs,
       VectorStore._index (VectorStore.st w') = Some ix'
       /\ VectorStore.d ix' = VectorStore.EMBEDDING_DIM
       /\ VectorStore.xb ix' = [Samples.e1; Samples.e1] ++ vs
       /\ map VectorStore.embedding [Samples.r1; Samples.r0] = map Some vs.
Proof.
  intros w'.
  refine (proj2 (proj2
    (add_keeps_existing_entries [Samples.r1; Samples.r0] Samples.one_behind w'
       {| VectorStore.d := VectorStore.EMBEDDING_DIM;
          VectorStore.xb := [Samples.e1; Samples.e1] |} _ _ _)));
    vm_compute; reflexivity.
Defined.

(** X8.  On a loaded store whose sidecar is aligned with a non-empty index,
    [search] cannot raise as long as faiss answers with ids that are -1 or
    positions of the index: it returns one hit per id other than -1, in the
    order of the answer, each with the score of its pair and the metadata
    stored at its id, and leaves store and files as they were. *)
Theorem search_returns_hits_in_order
        (faiss_search : VectorStore.IndexFlatIP -> VectorStore.vector -> nat
                        -> result (list (Q * Z)))
        (query : VectorStore.vector) (k : nat) (w : VectorStore.world)
        (ix : VectorStore.IndexFlatIP) (pairs : list (Q * Z)) :
  VectorStore._loaded (VectorStore.st w) = true ->
  VectorStore._index (VectorStore.st w) = Some ix ->
  VectorStore.aligned (VectorStore.st w) ->
  VectorStore.ntotal ix <> 0 ->
  faiss_search ix query k = Ok pairs ->
  Forall (fun p => snd p = (-1)%Z
                   \/ (0 <= snd p < Z.of_nat (VectorStore.ntotal ix))%Z) pairs ->
  exists hits,
    VectorStore.search faiss_search query k w = (Ok hits, w)
    /\ Forall2 (fun h p =>
                  VectorStore.h_score h = fst p
                  /\ nth_error (VectorStore._metadata (VectorStore.st w))
                               (Z.to_nat (snd p))
                     = Some (VectorStore.h_meta h))
               hits
               (List.filter (fun p => negb (Z.eqb (snd p) (-1))) pairs).
Proof.
  intros L Ei Ha Hn Hs Hv.
  unfold VectorStore.aligned, VectorStore.index_count in Ha. rewrite Ei in Ha.
  rewrite <- Ha in Hv.
  destruct (collect_hits_valid (VectorStore._metadata (VectorStore.st w)) pairs Hv)
    as (hits & Hc & Hf).
  exists hits. split; [| exact Hf].
  unfold VectorStore.search, bind. rewrite (ensure_loaded_loaded w L).
  unfold get. rewrite Ei.
  destruct (Nat.eqb_spec (VectorStore.ntotal ix) 0) as [E | _]; [contradiction |].
  unfold lift_result. rewrite Hs, Hc. reflexivity.
Qed.

Lemma search_returns_hits_in_order_witness :
  exists hits,
    VectorStore.search
      (fun _ _ _ => Ok [((9 # 10)%Q, 1%Z); (0%Q, (-1)%Z); ((1 # 2)%Q, 0%Z)])
      Samples.e1 3 Samples.one_behind
    = (Ok hits, Samples.one_behind)
    /\ Forall2 (fun h p =>
                  VectorStore.h_score h = fst p
                  /\ nth_error (VectorStore._metadata (VectorStore.st Samples.one_behind))
                               (Z.to_nat (snd p))
                     = Some (VectorStore.h_meta h))
               hits [((9 # 10)%Q, 1%Z); ((1 # 2)%Q, 0%Z)].
Proof.
  exact (search_returns_hits_in_order
           (fun _ _ _ => Ok [((9 # 10)%Q, 1%Z); (0%Q, (-1)%Z); ((1 # 2)%Q, 0%Z)])
           Samples.e1 3 Samples.one_behind
           {| VectorStore.d := VectorStore.EMBEDDING_DIM;
              VectorStore.xb := [Samples.e1; Samples.e1] |}
           [((9 # 10)%Q, 1%Z); (0%Q, (-1)%Z); ((1 # 2)%Q, 0%Z)]
           eq_refl eq_refl eq_refl
           ltac:(discriminate) eq_refl
           ltac:(repeat constructor; cbn; lia)).
Defined.

(** X9.  Reading is free of side effects once the store is loaded:
    [search], [get_total_chunks] and [get_dimension] leave memory and files
    as they were, and [persist], whether or not the file system fails,
    leaves the store in memory as it was. *)
Theorem reads_leave_loaded_store_unchanged
        (faiss_search : VectorStore.IndexFlatIP -> VectorStore.vector -> nat
                        -> result (list (Q * Z)))
        (query : VectorStore.vector) (k : nat) (f : VectorStore.fault)
        (w : VectorStore.world) :
  VectorStore._loaded (VectorStore.st w) = true ->
  snd (VectorStore.search faiss_search query k w) = w
  /\ snd (VectorStore.get_total_chunks w) = w
  /\ snd (VectorStore.get_dimension w) = w
  /\ VectorStore.st (snd (VectorStore.persist f w)) = VectorStore.st w.
Proof.
  intros L. repeat split.
  - rewrite search_world. now rewrite (ensure_loaded_loaded w L).
  - unfold VectorStore.get_total_chunks, bind. rewrite (ensure_loaded_loaded w L).
    unfold get. now destruct (VectorStore._index (VectorStore.st w)).
  - unfold VectorStore.get_dimension, bind. rewrite (ensure_loaded_loaded w L).
    unfold get. now destruct (VectorStore._index (VectorStore.st w)).
  - rewrite persist_store. now rewrite (ensure_loaded_loaded w L).
Qed.

Lemma reads_leave_loaded_store_unchanged_witness :
  snd (VectorStore.search Samples.no_hits Samples.e1 5 Samples.one_behind)
  = Samples.one_behind
  /\ snd (VectorStore.get_total_chunks Samples.one_behind) = Samples.one_behind
  /\ snd (VectorStore.get_dimension Samples.one_behind) = Samples.one_behind
  /\ VectorStore.st (snd (VectorStore.persist (VectorStore.DumpFails true)
                                              Samples.one_behind))
     = VectorStore.st Samples.one_behind.
Proof.
  exact (reads_leave_loaded_store_unchanged Samples.no_hits Samples.e1 5
           (VectorStore.DumpFails true) Samples.one_behind eq_refl).
Defined.

(** ** Start-up, the validation script and the health endpoint *)

(** X10.  At start-up the dimension test of [lifespan] can never fire: for
    the store configured with EMBEDDING_DIM, [lifespan] ends exactly as
    [load] does, with the same result and the same store and files.  A
    mismatching index file is already refused by [load]. *)
Theorem lifespan_is_load (w : VectorStore.world) :
  VectorStore.dimension (VectorStore.st w) = VectorStore.EMBEDDING_DIM ->
  Main.lifespan w = VectorStore.load w.
Proof.
  intros Hd. unfold Main.lifespan, Main.try_except, bind.
  destruct (load_cases w) as [[e He] | (ix & m & He & Hc)]; rewrite He.
  - reflexivity.
  - set (w1 := {| VectorStore.st := _; VectorStore.dk := _ |}).
    assert (Hix : VectorStore.d ix = VectorStore.EMBEDDING_DIM).
    { destruct Hc as [(_ & _ & H) | (-> & _ & _)]; [congruence | exact Hd]. }
    rewrite (get_dimension_loaded w1 ix eq_refl eq_refl).
    rewrite Hix, Nat.eqb_refl. cbn [negb].
    rewrite (get_total_chunks_loaded w1 ix eq_refl eq_refl). reflexivity.
Qed.

Lemma lifespan_is_load_witness :
  Main.lifespan Samples.wrong_dimension = VectorStore.load Samples.wrong_dimension.
Proof.
  apply lifespan_is_load. reflexivity.
Defined.

(** X11.  [validate_index] and [load] agree on the directories that
    [persist] writes.  When index.pkl holds a list of metadata dicts, the
    script, with faiss installed, accepts the directory exactly when
    index.faiss exists and [load], called on a freshly constructed store
    of the expected dimension, returns.  The script is stricter on other
    sidecars: it rejects one that does not unpickle to a list, and one
    with an entry among its first three that is not a dict. *)
Theorem validate_index_agrees_with_load (index_dir : ValidateIndex.directory) :
  (forall metadata,
     ValidateIndex.metadata_file index_dir
     = VectorStore.Content (ValidateIndex.PyList (map ValidateIndex.Dict metadata)) ->
     (ValidateIndex.validate_index true index_dir = true
      <-> (VectorStore.exists_ (ValidateIndex.index_file index_dir) = true
           /\ is_ok (fst (VectorStore.load
                            {| VectorStore.st := VectorStore.init VectorStore.EMBEDDING_DIM;
                               VectorStore.dk :=
                                 ValidateIndex.as_disk index_dir metadata |})) = true)))
  /\ (forall faiss_installed,
        ValidateIndex.metadata_file index_dir
        = VectorStore.Content ValidateIndex.NotAList ->
        ValidateIndex.validate_index faiss_installed index_dir = false)
  /\ (forall faiss_installed entries i,
        ValidateIndex.metadata_file index_dir
        = VectorStore.Content (ValidateIndex.PyList entries) ->
        i < 3 -> entries !! i = Some ValidateIndex.NotADict ->
        ValidateIndex.validate_index faiss_installed index_dir = false).
Proof.
  destruct index_dir as [ff pf]. unfold ValidateIndex.validate_index.
  cbn [ValidateIndex.index_file ValidateIndex.metadata_file].
  split; [| split].
  - intros metadata ->. unfold ValidateIndex.as_disk.
    cbn [ValidateIndex.index_file ValidateIndex.metadata_file].
    assert (Hd : forallb ValidateIndex.is_dict
                         (firstn 3 (map ValidateIndex.Dict metadata)) = true).
    { generalize 3. induction metadata as [| m ms IH]; intros [| n]; cbn; auto. }
    rewrite Hd. munfold. cbn.
    destruct ff as [| | ix]; cbn; try (split; [discriminate | easy]).
    unfold ValidateIndex.EXPECTED_DIM, VectorStore.EMBEDDING_DIM.
    destruct (Nat.eqb (VectorStore.d ix) 384); cbn; split;
      try discriminate; try easy.
  - intros b ->. cbn.
    destruct ff as [| | ix]; cbn; try reflexivity;
      destruct b; try reflexivity;
      destruct (negb (Nat.eqb (VectorStore.d ix) ValidateIndex.EXPECTED_DIM));
      reflexivity.
  - intros b entries i -> Hi He.
    assert (Hd : forallb ValidateIndex.is_dict (firstn 3 entries) = false).
    { apply not_true_is_false. intros C.
      rewrite forallb_forall in C.
      assert (Hin : In ValidateIndex.NotADict (firstn 3 entries)).
      { apply list_elem_of_In. apply list_elem_of_lookup. exists i.
        rewrite lookup_take. destruct (decide (i < 3)); [exact He | contradiction]. }
      specialize (C _ Hin). discriminate C. }
    rewrite Hd. cbn.
    destruct ff as [| | ix]; cbn; try reflexivity;
      destruct b; try reflexivity;
      destruct (negb (Nat.eqb (VectorStore.d ix) ValidateIndex.EXPECTED_DIM));
      reflexivity.
Qed.

Lemma validate_index_agrees_with_load_witness :
  ValidateIndex.validate_index true
    {| ValidateIndex.index_file :=
         VectorStore.Content {| VectorStore.d := VectorStore.EMBEDDING_DIM;
                                VectorStore.xb := [Samples.e1] |};
       ValidateIndex.metadata_file :=
         VectorStore.Content
           (ValidateIndex.PyList [ValidateIndex.Dict (VectorStore.to_dict Samples.r0)]) |}
  = true.
Proof.
  apply (proj2 (proj1 (validate_index_agrees_with_load
                         {| ValidateIndex.index_file :=
                              VectorStore.Content
                                {| VectorStore.d := VectorStore.EMBEDDING_DIM;
                                   VectorStore.xb := [Samples.e1] |};
                            ValidateIndex.metadata_file :=
                              VectorStore.Content
                                (ValidateIndex.PyList
                                   [ValidateIndex.Dict (VectorStore.to_dict Samples.r0)]) |})
                      [VectorStore.to_dict Samples.r0] eq_refl)).
  split; vm_compute; reflexivity.
Defined.

(** X12.  The health endpoint reads the loaded flag before it asks for the
    chunk count, and the count loads the index on demand.  So when it
    returns, the index is loaded, the reported count is the size of that
    index, but the reported flag is the one from before the call, and the
    status is "healthy" exactly when the index had been loaded before and
    Groq is reachable. *)
Theorem health_reports_state_before_call
        (groq_reachable : bool) (uptime : Q) (w w' : VectorStore.world)
        (r : RoutesHealth.HealthResponse) :
  RoutesHealth.health_endpoint groq_reachable uptime w = (Ok r, w') ->
  VectorStore._loaded (VectorStore.st w') = true
  /\ RoutesHealth.total_chunks r = VectorStore.index_count (VectorStore.st w')
  /\ RoutesHealth.faiss_index_loaded r = VectorStore._loaded (VectorStore.st w)
  /\ (RoutesHealth.status r = "healthy"
      <-> VectorStore._loaded (VectorStore.st w) = true /\ groq_reachable = true).
Proof.
  unfold RoutesHealth.health_endpoint, VectorStore.get_total_chunks, bind.
  unfold get at 1. intros H.
  destruct (ensure_loaded_cases w) as [[e He] | (s' & He & _ & Hl & Hu)];
    rewrite He in H; [discriminate H |].
  assert (L' : VectorStore._loaded s' = true).
  { destruct (VectorStore._loaded (VectorStore.st w)) eqn:L.
    - rewrite Hl; auto.
    - destruct (Hu eq_refl) as (ix & m & -> & _). reflexivity. }
  unfold get in H. cbn [VectorStore.st] in H.
  destruct (VectorStore._index s') as [ix|] eqn:Ei; [| discriminate H].
  cbn in H. inversion H; subst r w'. cbn.
  unfold VectorStore.index_count, VectorStore.is_loaded. rewrite Ei.
  repeat split; auto.
  - destruct (VectorStore._loaded (VectorStore.st w)); [reflexivity |].
    cbn in H0. discriminate H0.
  - destruct (VectorStore._loaded (VectorStore.st w)), groq_reachable;
      cbn in H0; try reflexivity; discriminate H0.
  - intros [-> ->]. reflexivity.
Qed.

Lemma health_reports_state_before_call_witness :
  let out := RoutesHealth.health_endpoint true 0 Samples.fresh in
  VectorStore._loaded (VectorStore.st (snd out)) = true
  /\ VectorStore._loaded (VectorStore.st Samples.fresh) = false.
Proof.
  split; [| reflexivity].
  exact (proj1 (health_reports_state_before_call true 0 Samples.fresh
                  (snd (RoutesHealth.health_endpoint true 0 Samples.fresh))
                  {| RoutesHealth.status := "degraded";
                     RoutesHealth.faiss_index_loaded := false;
                     RoutesHealth.total_chunks := 0;
                     RoutesHealth.groq_api_reachable := true;
                     RoutesHealth.uptime_seconds := 0 |} eq_refl)).
Defined.

(** ** Retriever: similarity, re-ranking and the order of the result *)

Section RetrieverMore.
Import Retriever.

Lemma Qgtb_false (x y : Q) : Qgtb x y = false -> (x <= y)%Q.
Proof.
  unfold Qgtb. intros H. apply negb_false_iff in H. now apply Qle_bool_iff.
Qed.

Lemma Qgtb_true (x y : Q) : Qgtb x y = true -> (y <= x)%Q.
Proof.
  unfold Qgtb. intros H. apply negb_true_iff in H.
  apply Qlt_le_weak, Qnot_le_lt. intros C. apply Qle_bool_iff in C. congruence.
Qed.

Lemma Qgtb_le (x y : Q) : (x <= y)%Q -> Qgtb x y = false.
Proof.
  intros H. unfold Qgtb. apply negb_false_iff. now apply Qle_bool_iff.
Qed.

Lemma insert_desc_perm (h : heap) (x : ref) (l : list ref) :
  insert_desc h x l ≡ₚ x :: l.
Proof.
  induction l as [| y l IH]; [reflexivity |]. cbn [insert_desc].
  destruct (Qgtb (score (h y)) (score (h x))); [| reflexivity].
  rewrite IH. apply Permutation_swap.
Qed.

Lemma sort_desc_perm (h : heap) (l : list ref) : sort_desc h l ≡ₚ l.
Proof.
  induction l as [| x l IH]; [reflexivity |]. cbn [sort_desc fold_right].
  rewrite insert_desc_perm. now constructor.
Qed.

Lemma insert_desc_sorted (h : heap) (x : ref) (l : list ref) :
  StronglySorted (by_score h) l -> StronglySorted (by_score h) (insert_desc h x l).
Proof.
  induction 1 as [| y l Hs IH Hy]; cbn [insert_desc].
  - repeat constructor.
  - destruct (Qgtb (score (h y)) (score (h x))) eqn:E.
    + constructor; [exact IH |].
      rewrite insert_desc_perm. constructor; [| exact Hy].
      apply Qgtb_true in E. exact E.
    + apply Qgtb_false in E. constructor; [now constructor |].
      constructor; [exact E |].
      eapply Forall_impl; [exact Hy |]. intros z Hz. unfold by_score in *.
      eapply Qle_trans; eauto.
Qed.

Lemma sort_desc_sorted (h : heap) (l : list ref) :
  StronglySorted (by_score h) (sort_desc h l).
Proof.
  induction l as [| x l IH]; [constructor |]. now apply insert_desc_sorted.
Qed.

Lemma boost_one_score (q : string) (h : heap) (x : ref) :
  boost_one q h x x
  = {| text := text (h x); source_file := source_file (h x);
       page_number := page_number (h x);
       score := if existsb (fun kw => Py.contains kw q)
                           (_extract_filename_keywords (source_file (h x)))
                then (score (h x) + BOOST)%Q else score (h x) |}.
Proof.
  unfold boost_one.
  destruct (existsb _ _).
  - unfold set_score. now rewrite upd_eq.
  - now destruct (h x).
Qed.

Lemma boost_fold_score (q : string) (l : list ref) :
  forall h, NoDup l ->
    (forall r, r ∉ l -> fold_left (boost_one q) l h r = h r)
    /\ (forall r, r ∈ l -> fold_left (boost_one q) l h r = boost_one q h r r).
Proof.
  induction l as [| x l IH]; intros h Hn.
  - split; [reflexivity |]. intros r Hr. inversion Hr.
  - inversion Hn as [| ? ? Hx Hn']; subst. cbn [fold_left].
    destruct (IH (boost_one q h x) Hn') as [Ho Hi].
    destruct (boost_one_cases q h x) as [Hne _].
    split.
    + intros r Hr. rewrite Ho by (intros C; apply Hr; now right).
      apply Hne. intros ->. apply Hr. now left.
    + intros r Hr. apply elem_of_cons in Hr as [-> | Hr].
      * apply Ho. intros C. apply Hx. exact C.
      * rewrite (Hi r Hr).
        assert (Hrx : r <> x) by (intros ->; apply Hx; exact Hr).
        rewrite !boost_one_score. now rewrite (Hne r Hrx).
Qed.

Lemma scan_sorted (h : heap) (c : ref) (accepted : list ref) :
  (forall e, e ∈ accepted -> (score (h c) <= score (h e))%Q) ->
  fst (scan_accepted h c accepted) = h /\ scan_overwritten h c accepted = None.
Proof.
  induction accepted as [| e rest IH]; intros Hle; [split; reflexivity |].
  cbn [scan_accepted scan_overwritten].
  destruct (Qgtb (_jaccard_similarity (text (h c)) (text (h e))) (80 # 100)).
  - rewrite (Qgtb_le _ _ (Hle e ltac:(left))). split; reflexivity.
  - apply IH. intros e' He'. apply Hle. now right.
Qed.

Lemma dedup_loop_sorted (chunks : list ref) :
  forall (h : heap) (accepted : list ref),
    StronglySorted (by_score h) chunks ->
    (forall e c, e ∈ accepted -> c ∈ chunks -> (score (h c) <= score (h e))%Q) ->
    fst (dedup_loop h chunks accepted) = h
    /\ overwritten_loop h chunks accepted = [].
Proof.
  induction chunks as [| c rest IH]; intros h accepted Hs Hle; [split; reflexivity |].
  cbn [dedup_loop overwritten_loop].
  destruct (scan_sorted h c accepted) as [Hh Ho].
  { intros e He. apply Hle; [exact He | now left]. }
  destruct (scan_accepted h c accepted) as [h' dup]. cbn [fst] in Hh. subst h'.
  rewrite Ho. cbn [app].
  inversion Hs as [| ? ? Hs' Hc]; subst.
  apply IH; [exact Hs' |].
  intros e c' He Hc'. destruct dup.
  - apply Hle; [exact He | now right].
  - apply elem_of_app in He as [He | He].
    + apply Hle; [exact He | now right].
    + apply list_elem_of_singleton in He. subst e.
      rewrite Forall_forall in Hc. now apply Hc.
Qed.

Lemma dedup_loop_sublist (chunks : list ref) :
  forall (h : heap) (accepted : list ref),
    exists kept, snd (dedup_loop h chunks accepted) = accepted ++ kept
                 /\ sublist kept chunks
                 /\ (accepted = [] -> head kept = head chunks).
Proof.
  induction chunks as [| c rest IH]; intros h accepted.
  - exists []. cbn. rewrite app_nil_r. repeat split; constructor.
  - cbn [dedup_loop].
    destruct (scan_accepted h c accepted) as [h' dup] eqn:Es.
    destruct dup.
    + destruct (IH h' accepted) as (kept & Hk & Hsub & _).
      exists kept. split; [exact Hk |]. split; [now constructor |].
      intros ->. cbn in Es. discriminate Es.
    + destruct (IH h' (accepted ++ [c])) as (kept & Hk & Hsub & _).
      exists (c :: kept). split; [now rewrite Hk, <- app_assoc |].
      split; [now constructor | reflexivity].
Qed.

Lemma dedup_loop_heap (chunks : list ref) :
  forall (h : heap) (accepted : list ref) (r : ref),
    r ∉ overwritten_loop h chunks accepted ->
    fst (dedup_loop h chunks accepted) r = h r.
Proof.
  induction chunks as [| c rest IH]; intros h accepted r Hr; [reflexivity |].
  cbn [dedup_loop overwritten_loop] in *.
  destruct (scan_accepted_cases h c accepted)
    as [(Es & Eo & _) | [(Es & Eo) | (e & He & Es & Eo)]];
    rewrite Es in *; rewrite Eo in Hr; cbn [app] in Hr.
  - now apply IH.
  - now apply IH.
  - rewrite IH by (intros C; apply Hr; now right).
    apply overwrite_other. intros ->. apply Hr. now left.
Qed.

Lemma filter_hits_length (threshold : Q) (raw : list VectorStore.Hit) :
  forall (h : heap) (next : ref) (retrieved : list ref),
    length (snd (filter_hits threshold raw h next retrieved))
    <= length retrieved + length raw.
Proof.
  induction raw as [| res rest IH]; intros h next retrieved; cbn [filter_hits].
  - cbn. lia.
  - destruct (Qltb (VectorStore.h_score res) threshold).
    + specialize (IH h next retrieved). cbn [length]. lia.
    + match goal with
      | |- context [filter_hits _ _ ?h' ?n' ?r'] => specialize (IH h' n' r')
      end.
      rewrite length_app in IH. cbn [length] in *. lia.
Qed.

Lemma StronglySorted_sublist {A} (R : A -> A -> Prop) (l k : list A) :
  sublist k l -> StronglySorted R l -> StronglySorted R k.
Proof.
  induction 1 as [| x k l Hsub IH | x k l Hsub IH]; intros Hs.
  - constructor.
  - inversion Hs as [| ? ? Hs' Hx]; subst. constructor; [auto |].
    rewrite Forall_forall in Hx. rewrite Forall_forall. intros y Hy. apply Hx.
    eapply elem_of_sublist; [exact Hy | exact Hsub].
  - inversion Hs; subst. auto.
Qed.

Lemma StronglySorted_map {A B} (f : A -> B) (R : B -> B -> Prop) (l : list A) :
  StronglySorted (fun a b => R (f a) (f b)) l -> StronglySorted R (map f l).
Proof.
  induction 1 as [| x l Hs IH Hx]; cbn; constructor; [exact IH |].
  rewrite Forall_forall in Hx. rewrite Forall_forall. intros y Hy.
  apply list_elem_of_fmap in Hy as (z & -> & Hz). now apply Hx.
Qed.

(** What [rank] computes, stage by stage. *)
Lemma rank_stages (query : string) (threshold : Q) (raw : list VectorStore.Hit) :
  let filtered := filter_hits threshold raw (fun _ => blank) 0 [] in
  let reranked :=
    _apply_reranking_boost (fst filtered) (snd filtered) (Py.lower query) in
  let h := fst reranked in
  let kept := snd (deduplicate h (snd reranked)) in
  score_replaced h (snd reranked) = []
  /\ fst (deduplicate h (snd reranked)) = h
  /\ rank query threshold raw = map h kept
  /\ StronglySorted (by_score h) kept
  /\ separated h kept []
  /\ length kept <= length raw.
Proof.
  cbv zeta. unfold rank, score_replaced.
  pose proof (filter_hits_length threshold raw (fun _ => blank) 0 []) as Hlen.
  destruct (filter_hits threshold raw (fun _ => blank) 0 []) as [h1 l1] eqn:Ef.
  cbn [fst snd length] in *. unfold _apply_reranking_boost. cbn [fst snd].
  set (h2 := fold_left (boost_one (Py.lower query)) l1 h1).
  set (l2 := sort_desc h2 l1).
  rewrite !deduplicate_loop.
  assert (Hs : StronglySorted (by_score h2) l2) by apply sort_desc_sorted.
  destruct (dedup_loop_sorted l2 h2 [] Hs) as [Hh Ho].
  { intros e c He. inversion He. }
  destruct (dedup_loop_sublist l2 h2 []) as (kept & Hk & Hsub & _).
  pose proof (dedup_loop_separated l2 h2 [] []) as Hsep.
  destruct (dedup_loop h2 l2 []) as [h3 l3]. cbn [fst snd app] in *. subst h3 l3.
  split; [exact Ho |]. split; [reflexivity |]. split; [reflexivity |].
  split; [eapply StronglySorted_sublist; eauto |].
  split.
  - specialize (Hsep h2 kept eq_refl). rewrite Ho in Hsep. apply Hsep.
    intros i j a b _ Ha. rewrite lookup_nil in Ha. discriminate Ha.
  - apply sublist_length in Hsub.
    assert (Hp : length l2 = length l1) by (unfold l2; now rewrite sort_desc_perm).
    lia.
Qed.

End RetrieverMore.

(** X13.  The character-set Jaccard similarity lies between 0 and 1, is
    symmetric, and is 1 for a non-empty text compared with itself. *)
Theorem jaccard_similarity_bounds (a b : string) :
  (0 <= Retriever._jaccard_similarity a b)%Q
  /\ (Retriever._jaccard_similarity a b <= 1)%Q
  /\ Retriever._jaccard_similarity a b = Retriever._jaccard_similarity b a
  /\ (a <> EmptyString -> (Retriever._jaccard_similarity a a == 1)%Q).
Proof.
  assert (Hb : forall x y, (0 <= Retriever._jaccard_similarity x y)%Q
                           /\ (Retriever._jaccard_similarity x y <= 1)%Q).
  { intros x y. unfold Retriever._jaccard_similarity. cbv zeta.
    set (sa := Retriever.char_set x). set (sb := Retriever.char_set y).
    destruct (Nat.eqb_spec (size (sa ∪ sb)) 0) as [E | E].
    - split; unfold Qle; cbn; lia.
    - assert (Hle : size (sa ∩ sb) <= size (sa ∪ sb))
        by (apply subseteq_size; transitivity sa;
            [apply intersection_subseteq_l | apply union_subseteq_l]).
      unfold Qle. cbn [Qnum Qden].
      rewrite <- (positive_nat_Z (Pos.of_nat _)), Nat2Pos.id by exact E.
      split; lia. }
  split; [apply Hb |]. split; [apply Hb |]. split; [apply jaccard_sym |].
  intros Ha. unfold Retriever._jaccard_similarity. cbv zeta.
  set (sa := Retriever.char_set a).
  assert (Hi : sa ∩ sa = sa)
    by (apply leibniz_equiv; intros x; rewrite elem_of_intersection; tauto).
  assert (Hu : sa ∪ sa = sa)
    by (apply leibniz_equiv; intros x; rewrite elem_of_union; tauto).
  rewrite Hi, Hu.
  assert (Hn : size sa <> 0).
  { destruct a as [| c s]; [contradiction |].
    intros C. apply size_empty_inv in C.
    assert (Hc : c ∈ sa)
      by (unfold sa, Retriever.char_set; apply elem_of_list_to_set; cbn; left).
    apply (proj1 (C c)) in Hc. now apply elem_of_empty in Hc. }
  destruct (Nat.eqb_spec (size sa) 0) as [E | _]; [contradiction |].
  unfold Qeq. cbn [Qnum Qden].
  rewrite <- (positive_nat_Z (Pos.of_nat _)), Nat2Pos.id by exact Hn. lia.
Qed.

(** X14.  Re-ranking a list of distinct chunks returns a permutation of
    it, sorted by descending score.  It changes no chunk outside the list
    and no text, file or page; the score of a chunk is raised by 0.05
    exactly when a keyword of its file name occurs in the lower-cased
    query, and only once. *)
Theorem reranking_sorts_and_boosts_once
        (h : Retriever.heap) (chunks : list Retriever.ref) (query_lower : string) :
  NoDup chunks ->
  let h' := fst (Retriever._apply_reranking_boost h chunks query_lower) in
  let sorted := snd (Retriever._apply_reranking_boost h chunks query_lower) in
  sorted ≡ₚ chunks
  /\ StronglySorted (fun a b => (Retriever.score (h' b) <= Retriever.score (h' a))%Q)
                    sorted
  /\ (forall r, r ∉ chunks -> h' r = h r)
  /\ (forall r, r ∈ chunks ->
        h' r = {| Retriever.text := Retriever.text (h r);
                  Retriever.source_file := Retriever.source_file (h r);
                  Retriever.page_number := Retriever.page_number (h r);
                  Retriever.score :=
                    if existsb (fun kw => Py.contains kw query_lower)
                               (Retriever._extract_filename_keywords
                                  (Retriever.source_file (h r)))
                    then (Retriever.score (h r) + Retriever.BOOST)%Q
                    else Retriever.score (h r) |}).
Proof.
  intros Hn. cbv zeta. unfold Retriever._apply_reranking_boost. cbn [fst snd].
  destruct (boost_fold_score query_lower chunks h Hn) as [Ho Hi].
  split; [apply sort_desc_perm |].
  split; [apply sort_desc_sorted |].
  split; [exact Ho |].
  intros r Hr. rewrite (Hi r Hr). apply boost_one_score.
Qed.

Lemma reranking_sorts_and_boosts_once_witness :
  snd (Retriever._apply_reranking_boost Samples.three [0; 1; 2] "pricing guide")
  ≡ₚ [0; 1; 2].
Proof.
  refine (proj1 (reranking_sorts_and_boosts_once Samples.three [0; 1; 2]
                   "pricing guide" _)).
  apply (bool_decide_unpack _). vm_compute. exact I.
Defined.

(** X15.  [deduplicate] returns a subsequence of its input that starts
    with the first input chunk, and it changes no chunk other than the
    accepted chunks into which a higher-scored duplicate was copied. *)
Theorem deduplicate_keeps_subsequence
        (h : Retriever.heap) (chunks : list Retriever.ref) :
  let h' := fst (Retriever.deduplicate h chunks) in
  let accepted := snd (Retriever.deduplicate h chunks) in
  sublist accepted chunks
  /\ head accepted = head chunks
  /\ (forall r, r ∉ Retriever.score_replaced h chunks -> h' r = h r).
Proof.
  cbv zeta. rewrite deduplicate_loop.
  destruct (dedup_loop_sublist chunks h []) as (kept & Hk & Hsub & Hh).
  rewrite Hk. cbn [app]. split; [exact Hsub |]. split; [now apply Hh |].
  intros r Hr. now apply dedup_loop_heap.
Qed.

(** X16.  What [retrieve] returns is ordered by descending score, contains
    no two chunks, at different positions, whose texts are more than 80%
    similar, and is no longer than the list of search results.  The list is
    sorted before it is de-duplicated, so the branch of [deduplicate] that
    overwrites an accepted chunk is never taken there: no chunk is
    score-replaced, [deduplicate] leaves every chunk as the re-ranking made
    it, and the result is the list of the chunks it kept. *)
Theorem retrieve_sorted_without_near_duplicates
        (encode : string -> VectorStore.vector)
        (faiss_search : VectorStore.IndexFlatIP -> VectorStore.vector -> nat
                        -> result (list (Q * Z)))
        (query : string) (k : nat) (threshold : Q)
        (w w' : VectorStore.world) (chunks : list Retriever.RetrievedChunk) :
  Retriever.retrieve encode faiss_search query k threshold w = (Ok chunks, w') ->
  StronglySorted (fun a b => (Retriever.score b <= Retriever.score a)%Q) chunks
  /\ (forall i j a b, i <> j -> chunks !! i = Some a -> chunks !! j = Some b ->
        Retriever.near (Retriever.text a) (Retriever.text b) = false)
  /\ exists raw_results,
       VectorStore.search faiss_search (encode query) k w = (Ok raw_results, w')
       /\ length chunks <= length raw_results
       /\ let filtered :=
            Retriever.filter_hits threshold raw_results
                                  (fun _ => Retriever.blank) 0 [] in
          let reranked :=
            Retriever._apply_reranking_boost (fst filtered) (snd filtered)
                                             (Py.lower query) in
          Retriever.score_replaced (fst reranked) (snd reranked) = []
          /\ fst (Retriever.deduplicate (fst reranked) (snd reranked)) = fst reranked
          /\ chunks
             = map (fst reranked)
                   (snd (Retriever.deduplicate (fst reranked) (snd reranked))).
Proof.
  unfold Retriever.retrieve, bind, ret. intros E.
  destruct (VectorStore.search faiss_search (encode query) k w) as [[raw|e] w1];
    [| discriminate].
  injection E as <- <-.
  pose proof (rank_stages query threshold raw) as H. cbv zeta in H.
  destruct H as (Ho & Hh & Hr & Hs & Hsep & Hl).
  rewrite Hr.
  split; [now apply StronglySorted_map |].
  split.
  - intros i j a b Hij Ha Hb.
    rewrite list_lookup_fmap in Ha, Hb.
    match type of Ha with
    | _ <$> ?kept !! i = _ =>
        destruct (kept !! i) as [ra|] eqn:Ea; [| discriminate Ha];
        destruct (kept !! j) as [rb|] eqn:Eb; [| discriminate Hb]
    end.
    cbn in Ha, Hb. injection Ha as <-. injection Hb as <-.
    destruct (Hsep i j ra rb Hij Ea Eb) as [C | [C | H]];
      [inversion C | inversion C | exact H].
  - exists raw. split; [reflexivity |]. split; [now rewrite length_map |].
    cbv zeta. split; [exact Ho |]. split; [exact Hh | reflexivity].
Qed.

(** [retrieve] at threshold 0.25 on a store of two chunks found with
    scores 0.42 and 0.30: both are returned, the better one first. *)
Lemma retrieve_sorted_without_near_duplicates_witness :
  let second := {| Retriever.text := "second chunk";
                   Retriever.source_file := "guide.pdf";
                   Retriever.page_number := 1%Z;
                   Retriever.score := 30 # 100 |} in
  StronglySorted (fun a b => (Retriever.score b <= Retriever.score a)%Q)
                 [Samples.first_found; second]
  /\ Retriever.near (Retriever.text Samples.first_found) (Retriever.text second)
     = false.
Proof.
  intros second.
  destruct (retrieve_sorted_without_near_duplicates
              (fun _ => Samples.e1) Samples.best_first "pricing?" 5
              (25 # 100) Samples.one_behind Samples.one_behind
              [Samples.first_found; second] ltac:(vm_compute; reflexivity))
    as (Hs & Hn & _).
  split; [exact Hs |].
  exact (Hn 0 1 Samples.first_found second ltac:(discriminate) eq_refl eq_refl).
Defined.

(** ** Ingestion: what the records and the store look like afterwards *)

Section PyStrings.

Lemma lstrip_head (s : string) :
  match Py.lstrip s with
  | EmptyString => True
  | String c _ => Py.isspace c = false
  end.
Proof.
  induction s as [| c s IH]; cbn; [exact I |].
  destruct (Py.isspace c) eqn:E; [exact IH | exact E].
Qed.

Lemma rstrip_idem (s : string) : Py.rstrip (Py.rstrip s) = Py.rstrip s.
Proof.
  induction s as [| c s IH]; [reflexivity |]. cbn [Py.rstrip].
  destruct (Py.rstrip s) as [| c' r] eqn:E.
  - destruct (Py.isspace c) eqn:Ec; [reflexivity |]. cbn. now rewrite Ec.
  - cbn [Py.rstrip]. cbn [Py.rstrip] in IH. now rewrite IH.
Qed.

Lemma lstrip_fixed (s : string) :
  match s with EmptyString => True | String c _ => Py.isspace c = false end ->
  Py.lstrip s = s.
Proof. destruct s as [| c s]; [reflexivity |]. cbn. now intros ->. Qed.

Lemma rstrip_head (c : ascii) (s : string) :
  Py.isspace c = false -> exists r, Py.rstrip (String c s) = String c r.
Proof.
  intros E. cbn [Py.rstrip]. destruct (Py.rstrip s); rewrite ?E; eauto.
Qed.

Lemma strip_idem (s : string) : Py.strip (Py.strip s) = Py.strip s.
Proof.
  unfold Py.strip. pose proof (lstrip_head s) as H.
  destruct (Py.lstrip s) as [| c u]; [reflexivity |].
  destruct (rstrip_head c u H) as (r & E).
  rewrite E, (lstrip_fixed (String c r) H), <- E. apply rstrip_idem.
Qed.

End PyStrings.

Section IngestionMore.
Import Ingestion.
Variable tokenizer : option TokenCounter.Tokenizer.
Variable encode_batch : list string -> list VectorStore.vector.
Variable uuid4 : nat -> string.

Lemma build_records_lookup (filename : string) (chunks_meta : list (string * nat)) :
  forall (embeddings : list VectorStore.vector) (n i : nat) (r : VectorStore.ChunkRecord),
    build_records uuid4 filename n chunks_meta embeddings !! i = Some r ->
    exists meta emb,
      chunks_meta !! i = Some meta /\ embeddings !! i = Some emb
      /\ r = {| VectorStore.chunk_id := uuid4 (n + i);
                VectorStore.text := fst meta;
                VectorStore.source_file := filename;
                VectorStore.page_number := Z.of_nat (snd meta);
                VectorStore.chunk_index := n + i;
                VectorStore.embedding := Some emb |}.
Proof.
  induction chunks_meta as [| meta cm IH]; intros [| emb es] n i r H;
    try discriminate H.
  cbn [build_records] in H. destruct i as [| i]; cbn in H.
  - injection H as <-. exists meta, emb. rewrite Nat.add_0_r. auto.
  - destruct (IH _ _ _ _ H) as (meta' & emb' & H1 & H2 & ->).
    exists meta', emb'. rewrite <- Nat.add_succ_comm. auto.
Qed.

Lemma insert_by_offset_elem (x y : nat * nat) (l : list (nat * nat)) :
  y ∈ insert_by_offset x l -> y = x \/ y ∈ l.
Proof.
  induction l as [| z l IH]; cbn [insert_by_offset].
  - intros H. apply list_elem_of_singleton in H. auto.
  - destruct (Nat.leb (fst z) (fst x)).
    + intros H. apply elem_of_cons in H as [-> | H].
      * right. left.
      * destruct (IH H) as [-> | H']; [now left | right; now right].
    + intros H. apply elem_of_cons in H as [-> | H]; auto.
Qed.

Lemma build_page_map_elem (full_text : string) (y : nat * nat) :
  y ∈ _build_page_map full_text ->
  exists m, m ∈ Re.finditer _PAGE_BREAK_PATTERN full_text
            /\ y = (Re.m_start m, Py.int_of_digits (group1 (Re.m_text m))).
Proof.
  unfold _build_page_map.
  set (pm := map _ _).
  assert (H : forall l, y ∈ fold_right insert_by_offset [] l -> y ∈ l).
  { induction l as [| x l IH]; cbn; [auto |].
    intros Hy. apply insert_by_offset_elem in Hy as [-> | Hy]; [left | right; auto]. }
  intros Hy. apply H in Hy.
  apply list_elem_of_In, in_rev, list_elem_of_In in Hy. unfold pm in Hy.
  apply list_elem_of_fmap in Hy as (m & -> & Hm). eauto.
Qed.

Lemma lookup_loop_cases (char_offset : Z) (page_map : list (nat * nat)) :
  forall page,
    lookup_loop char_offset page_map page = page
    \/ exists offset, (offset, lookup_loop char_offset page_map page) ∈ page_map.
Proof.
  induction page_map as [| [mo mp] rest IH]; intros page; cbn [lookup_loop]; [auto |].
  destruct (Z.leb (Z.of_nat mo) char_offset); [| auto].
  right. destruct (IH mp) as [-> | (o & Ho)].
  - exists mo. left.
  - exists o. now right.
Qed.

Lemma assign_pages_elem (clean_text full_text : string) (page_map : list (nat * nat))
      (raw_chunks : list string) :
  forall (search_start : nat) (t : string) (p : nat),
    (t, p) ∈ assign_pages clean_text full_text page_map raw_chunks search_start ->
    Py.truthy t = true /\ Py.strip t = t
    /\ (exists raw, raw ∈ raw_chunks /\ t = Py.strip raw)
    /\ (p = 1 \/ exists offset, (offset, p) ∈ page_map).
Proof.
  induction raw_chunks as [| c rest IH]; intros search_start t p H; cbn [assign_pages] in H.
  - inversion H.
  - assert (IH' : forall s, (t, p) ∈ assign_pages clean_text full_text page_map rest s ->
                   Py.truthy t = true /\ Py.strip t = t
                   /\ (exists raw, raw ∈ c :: rest /\ t = Py.strip raw)
                   /\ (p = 1 \/ exists offset, (offset, p) ∈ page_map)).
    { intros s Hs. destruct (IH s t p Hs) as (H1 & H2 & (raw & Hr & H3) & H4).
      repeat split; auto. exists raw. split; [now right | exact H3]. }
    destruct (Py.truthy (Py.strip c)) eqn:Et; cbn [negb] in H; [| eauto].
    assert (Here : forall q, (q = 1 \/ exists offset, (offset, q) ∈ page_map) ->
                     (t, p) = (Py.strip c, q) ->
                     Py.truthy t = true /\ Py.strip t = t
                     /\ (exists raw, raw ∈ c :: rest /\ t = Py.strip raw)
                     /\ (p = 1 \/ exists offset, (offset, p) ∈ page_map)).
    { intros q Hq E. injection E as -> ->. repeat split; auto.
      - apply strip_idem.
      - exists c. split; [left | reflexivity]. }
    destruct (match Py.find clean_text c search_start with
              | Some i => Some i
              | None => Py.find clean_text c 0
              end) as [idx |].
    + apply elem_of_cons in H as [H | H]; [| eauto].
      eapply Here; [| exact H]. unfold _lookup_page.
      destruct (lookup_loop_cases (approx_full_offset idx clean_text full_text)
                                  page_map 1) as [-> | Ho]; auto.
    + apply elem_of_cons in H as [H | H]; [| eauto].
      eapply Here; [| exact H]. auto.
Qed.

Lemma persist_cases (f : VectorStore.fault) (w : VectorStore.world) :
  VectorStore._loaded (VectorStore.st w) = true ->
  match VectorStore.persist f w with
  | (Ok _, w') =>
      f = VectorStore.NoFault
      /\ exists ix, VectorStore._index (VectorStore.st w) = Some ix
                    /\ w' = {| VectorStore.st := VectorStore.st w;
                               VectorStore.dk :=
                                 {| VectorStore.faiss_file := VectorStore.Content ix;
                                    VectorStore.pkl_file :=
                                      VectorStore.Content
                                        (VectorStore._metadata (VectorStore.st w)) |} |}
  | (Raise _, w') =>
      VectorStore.st w' = VectorStore.st w
      /\ (f = VectorStore.NoFault -> VectorStore._index (VectorStore.st w) = None)
  end.
Proof.
  intros L. unfold VectorStore.persist, bind. rewrite (ensure_loaded_loaded w L).
  destruct w as [s dsk]. cbn [VectorStore.st] in *.
  destruct f as [| | [|] | [|]]; munfold; cbn;
    destruct (VectorStore._index s) as [ix |]; cbn; eauto; try (split; [reflexivity | discriminate]).
Qed.

Lemma add_ok_loaded (records : list VectorStore.ChunkRecord) (w wa : VectorStore.world) :
  VectorStore.add records w = (Ok tt, wa) ->
  VectorStore._loaded (VectorStore.st wa) = true.
Proof.
  intros H. destruct (add_cases records w) as [(e & _ & He) | (w1 & _ & L & _ & He)];
    [congruence |].
  rewrite He in H. unfold VectorStore.add, bind in H.
  rewrite (ensure_loaded_loaded w1 L) in H.
  destruct records as [| r0 rs]; [now inversion H; subst |].
  unfold lift_result, get in H.
  destruct (VectorStore.np_array _) as [[c vs] | e]; [| discriminate H].
  cbn [fst snd] in H.
  destruct (negb _); [discriminate H |].
  destruct (VectorStore._index (VectorStore.st w1)) as [ix |]; [| discriminate H].
  destruct (VectorStore.index_add ix c vs); [| discriminate H].
  cbn in H. now inversion H; subst.
Qed.

Lemma ingest_pdf_ok_inv (filename : string) (doc : result (list string))
      (f : VectorStore.fault) (w w' : VectorStore.world)
      (records : list VectorStore.ChunkRecord) :
  ingest_pdf tokenizer encode_batch uuid4 filename doc f w = (Ok records, w') ->
  exists full_text total_pages chunks_meta wa,
    extract_text_from_pdf doc = Ok (full_text, total_pages)
    /\ chunk_text tokenizer full_text = chunks_meta
    /\ chunks_meta <> []
    /\ records = build_records uuid4 filename 0 chunks_meta
                               (encode_batch (map fst chunks_meta))
    /\ VectorStore.add records w = (Ok tt, wa)
    /\ VectorStore.persist f wa = (Ok tt, w').
Proof.
  unfold ingest_pdf, bind, lift_result, ret, raise. intros E.
  destruct (extract_text_from_pdf doc) as [[full_text total] | e]; [| discriminate].
  cbn [fst] in E.
  destruct (chunk_text tokenizer full_text) as [| m cm] eqn:Ec; [discriminate |].
  set (recs := build_records uuid4 filename 0 (m :: cm)
                             (encode_batch (map fst (m :: cm)))) in *.
  destruct (VectorStore.add recs w) as [[[] | e] w1] eqn:Ea; [| discriminate].
  destruct (VectorStore.persist f w1) as [[[] | e] w2] eqn:Ep; [| discriminate].
  injection E as <- <-.
  exists full_text, total, (m :: cm), w1. repeat split; auto.
Qed.

End IngestionMore.

(** X17.  Every record that [ingest_pdf] returns is numbered with its
    position, carries the identifier drawn for that position and the given
    file name, and has an embedding of the dimension of the store. *)
Theorem ingest_pdf_record_identity
        (tokenizer : option TokenCounter.Tokenizer)
        (encode_batch : list string -> list VectorStore.vector)
        (uuid4 : nat -> string)
        (filename : string) (doc : result (list string)) (f : VectorStore.fault)
        (w w' : VectorStore.world) (records : list VectorStore.ChunkRecord)
        (i : nat) (r : VectorStore.ChunkRecord) :
  Ingestion.ingest_pdf tokenizer encode_batch uuid4 filename doc f w = (Ok records, w') ->
  records !! i = Some r ->
  VectorStore.chunk_index r = i
  /\ VectorStore.chunk_id r = uuid4 i
  /\ VectorStore.source_file r = filename
  /\ exists v, VectorStore.embedding r = Some v
               /\ length v = VectorStore.dimension (VectorStore.st w).
Proof.
  intros E Hi.
  destruct (ingest_pdf_indices_and_dimensions tokenizer encode_batch uuid4
              filename doc f w w' records E i r Hi) as [Hidx Hemb].
  split; [exact Hidx |]. split; [| split; [| exact Hemb]].
  all: destruct (ingest_pdf_ok_inv tokenizer encode_batch uuid4 _ _ _ _ _ _ E)
    as (full_text & total & cm & wa & _ & _ & _ & -> & _);
    destruct (build_records_lookup uuid4 _ _ _ _ _ _ Hi) as (meta & emb & _ & _ & ->);
    reflexivity.
Qed.

Lemma ingest_pdf_record_identity_witness :
  let out := Ingestion.ingest_pdf None Samples.embed_all Samples.uuid
                                  "guide.pdf" Samples.two_page_pdf
                                  VectorStore.NoFault Samples.fresh in
  let records := match fst out with Ok l => l | Raise _ => [] end in
  VectorStore.chunk_index (nth 0 records Samples.r1) = 0
  /\ VectorStore.chunk_id (nth 0 records Samples.r1) = Samples.uuid 0.
Proof.
  intros out records.
  destruct (ingest_pdf_record_identity None Samples.embed_all Samples.uuid
              "guide.pdf" Samples.two_page_pdf VectorStore.NoFault Samples.fresh
              (snd out) records 0 (nth 0 records Samples.r1)
              ltac:(vm_compute; reflexivity) ltac:(vm_compute; reflexivity))
    as (H1 & H2 & _).
  split; [exact H1 | exact H2].
Defined.

(** X18.  The text of every record that [ingest_pdf] returns is non-empty
    and carries no leading or trailing white space, and its page number is
    1 or the number written in a "[PAGE_BREAK:n]" marker that occurs in the
    extracted text. *)
Theorem ingest_pdf_record_content
        (tokenizer : option TokenCounter.Tokenizer)
        (encode_batch : list string -> list VectorStore.vector)
        (uuid4 : nat -> string)
        (filename : string) (doc : result (list string)) (f : VectorStore.fault)
        (w w' : VectorStore.world) (records : list VectorStore.ChunkRecord)
        (r : VectorStore.ChunkRecord) :
  Ingestion.ingest_pdf tokenizer encode_batch uuid4 filename doc f w = (Ok records, w') ->
  r ∈ records ->
  Py.truthy (VectorStore.text r) = true
  /\ Py.strip (VectorStore.text r) = VectorStore.text r
  /\ (VectorStore.page_number r = 1%Z
      \/ exists full_text total_pages m,
           Ingestion.extract_text_from_pdf doc = Ok (full_text, total_pages)
           /\ m ∈ Re.finditer Ingestion._PAGE_BREAK_PATTERN full_text
           /\ VectorStore.page_number r
              = Z.of_nat (Py.int_of_digits (Ingestion.group1 (Re.m_text m)))).
Proof.
  intros E Hr.
  destruct (ingest_pdf_ok_inv tokenizer encode_batch uuid4 _ _ _ _ _ _ E)
    as (full_text & total & cm & wa & Hx & Hc & _ & -> & _).
  apply list_elem_of_lookup in Hr as (i & Hi).
  destruct (build_records_lookup uuid4 _ _ _ _ _ _ Hi) as (meta & emb & Hm & _ & ->).
  cbn [VectorStore.text VectorStore.page_number].
  apply list_elem_of_lookup_2 in Hm. rewrite <- Hc in Hm.
  destruct meta as [t p]. unfold Ingestion.chunk_text in Hm.
  apply assign_pages_elem in Hm as (H1 & H2 & _ & H4). cbn [fst snd].
  split; [exact H1 |]. split; [exact H2 |].
  destruct H4 as [-> | (o & Ho)]; [now left | right].
  apply build_page_map_elem in Ho as (m & Hm & Hy).
  exists full_text, total, m. split; [exact Hx |]. split; [exact Hm |].
  now injection Hy as _ ->.
Qed.

Lemma ingest_pdf_record_content_witness :
  let out := Ingestion.ingest_pdf None Samples.embed_all Samples.uuid
                                  "manual.pdf" Samples.marker_pdf
                                  VectorStore.NoFault Samples.fresh in
  let records := match fst out with Ok l => l | Raise _ => [] end in
  Py.truthy (VectorStore.text (nth 0 records Samples.r1)) = true.
Proof.
  intros out records.
  refine (proj1 (ingest_pdf_record_content None Samples.embed_all Samples.uuid
                   "manual.pdf" Samples.marker_pdf VectorStore.NoFault Samples.fresh
                   (snd out) records (nth 0 records Samples.r1)
                   ltac:(vm_compute; reflexivity) _)).
  apply list_elem_of_lookup. exists 0. vm_compute. reflexivity.
Defined.

(** X19.  When [ingest_pdf] returns, it has met no file-system failure,
    the records have been appended to the metadata in memory, and the two
    files hold exactly the index and the metadata now in memory. *)
Theorem ingest_pdf_persists_what_it_added
        (tokenizer : option TokenCounter.Tokenizer)
        (encode_batch : list string -> list VectorStore.vector)
        (uuid4 : nat -> string)
        (filename : string) (doc : result (list string)) (f : VectorStore.fault)
        (w w' : VectorStore.world) (records : list VectorStore.ChunkRecord) :
  Ingestion.ingest_pdf tokenizer encode_batch uuid4 filename doc f w = (Ok records, w') ->
  f = VectorStore.NoFault
  /\ VectorStore._loaded (VectorStore.st w') = true
  /\ VectorStore._metadata (VectorStore.st w')
     = VectorStore._metadata (VectorStore.st (snd (VectorStore._ensure_loaded w)))
         ++ map VectorStore.to_dict records
  /\ exists ix,
       VectorStore._index (VectorStore.st w') = Some ix
       /\ VectorStore.dk w'
          = {| VectorStore.faiss_file := VectorStore.Content ix;
               VectorStore.pkl_file :=
                 VectorStore.Content (VectorStore._metadata (VectorStore.st w')) |}.
Proof.
  intros E.
  destruct (ingest_pdf_ok_inv tokenizer encode_batch uuid4 _ _ _ _ _ _ E)
    as (full_text & total & cm & wa & _ & _ & _ & _ & Ha & Hp).
  pose proof (add_ok_loaded records w wa Ha) as La.
  pose proof (add_spec records w) as P. rewrite Ha in P.
  unfold add_post in P. cbv beta iota in P.
  destruct P as (_ & Hm & _).
  pose proof (persist_cases f wa La) as C. rewrite Hp in C.
  destruct C as (-> & ix & Hi & ->). cbn.
  split; [reflexivity |]. split; [exact La |]. split; [exact Hm |].
  exists ix. split; [exact Hi | reflexivity].
Qed.

Lemma ingest_pdf_persists_what_it_added_witness :
  VectorStore._loaded
    (VectorStore.st
       (snd (Ingestion.ingest_pdf None Samples.embed_all Samples.uuid
                                  "guide.pdf" Samples.two_page_pdf
                                  VectorStore.NoFault Samples.fresh))) = true.
Proof.
  refine (proj1 (proj2
    (ingest_pdf_persists_what_it_added None Samples.embed_all Samples.uuid
       "guide.pdf" Samples.two_page_pdf VectorStore.NoFault Samples.fresh
       (snd (Ingestion.ingest_pdf None Samples.embed_all Samples.uuid
                                  "guide.pdf" Samples.two_page_pdf
                                  VectorStore.NoFault Samples.fresh))
       (match fst (Ingestion.ingest_pdf None Samples.embed_all Samples.uuid
                                  "guide.pdf" Samples.two_page_pdf
                                  VectorStore.NoFault Samples.fresh)
        with Ok l => l | Raise _ => [] end) _))).
  vm_compute. reflexivity.
Defined.

(** X20.  [ingest_pdf] is not atomic.  When the chunks have been added
    and the final [persist] then meets a file-system failure, the call
    raises, but the store in memory keeps the new chunks: it is the store
    [add] left. *)
Theorem ingest_pdf_failed_persist_keeps_chunks
        (tokenizer : option TokenCounter.Tokenizer)
        (encode_batch : list string -> list VectorStore.vector)
        (uuid4 : nat -> string)
        (filename : string) (doc : result (list string)) (f : VectorStore.fault)
        (w wa : VectorStore.world) (full_text : string) (total_pages : nat) :
  Ingestion.extract_text_from_pdf doc = Ok (full_text, total_pages) ->
  Ingestion.chunk_text tokenizer full_text <> [] ->
  VectorStore.add
    (Ingestion.build_records uuid4 filename 0
       (Ingestion.chunk_text tokenizer full_text)
       (encode_batch (map fst (Ingestion.chunk_text tokenizer full_text)))) w
  = (Ok tt, wa) ->
  f <> VectorStore.NoFault ->
  exists e w',
    Ingestion.ingest_pdf tokenizer encode_batch uuid4 filename doc f w = (Raise e, w')
    /\ VectorStore.st w' = VectorStore.st wa
    /\ VectorStore._metadata (VectorStore.st w')
       = VectorStore._metadata (VectorStore.st (snd (VectorStore._ensure_loaded w)))
           ++ map VectorStore.to_dict
                (Ingestion.build_records uuid4 filename 0
                   (Ingestion.chunk_text tokenizer full_text)
                   (encode_batch (map fst (Ingestion.chunk_text tokenizer full_text)))).
Proof.
  intros Hx Hc Ha Hf.
  set (recs := Ingestion.build_records uuid4 filename 0
                 (Ingestion.chunk_text tokenizer full_text)
                 (encode_batch (map fst (Ingestion.chunk_text tokenizer full_text)))) in *.
  pose proof (add_ok_loaded _ w wa Ha) as La.
  pose proof (add_spec recs w) as P. rewrite Ha in P.
  unfold add_post in P. cbv beta iota in P.
  destruct P as (_ & Hm & _).
  pose proof (persist_cases f wa La) as C.
  unfold Ingestion.ingest_pdf, bind, lift_result. rewrite Hx. cbn [fst].
  fold recs. clearbody recs.
  destruct (Ingestion.chunk_text tokenizer full_text) as [| m cm] eqn:Ec;
    [contradiction |].
  rewrite Ha.
  destruct (VectorStore.persist f wa) as [[[] | e] wp].
  - destruct C as [C _]. contradiction.
  - destruct C as [C _]. exists e, wp. split; [reflexivity |].
    split; [exact C |]. now rewrite C.
Qed.

Lemma ingest_pdf_failed_persist_keeps_chunks_witness :
  exists e w',
    Ingestion.ingest_pdf None Samples.embed_all Samples.uuid "guide.pdf"
                         Samples.two_page_pdf VectorStore.MakedirsFails Samples.fresh
    = (Raise e, w')
    /\ length (VectorStore._metadata (VectorStore.st w')) = 1.
Proof.
  destruct (ingest_pdf_failed_persist_keeps_chunks
              None Samples.embed_all Samples.uuid "guide.pdf"
              Samples.two_page_pdf VectorStore.MakedirsFails Samples.fresh
              (snd (VectorStore.add
                      (Ingestion.build_records Samples.uuid "guide.pdf" 0
                         (Ingestion.chunk_text None
                            (Ingestion.concat_pages
                               ["Hello Clearpath world."; "Second page."] 0 ""))
                         (Samples.embed_all
                            (map fst (Ingestion.chunk_text None
                                        (Ingestion.concat_pages
                                           ["Hello Clearpath world."; "Second page."]
                                           0 "")))))
                      Samples.fresh))
              (Ingestion.concat_pages ["Hello Clearpath world."; "Second page."] 0 "")
              2
              ltac:(vm_compute; reflexivity)
              ltac:(vm_compute; discriminate)
              ltac:(vm_compute; reflexivity)
              ltac:(discriminate))
    as (e & w' & H1 & _ & H3).
  exists e, w'. split; [exact H1 |]. rewrite H3. vm_compute. reflexivity.
Defined.

(** ** Groq client: every call is bounded *)

Section GroqMore.
Import GroqClient.
Context {R : Type}.
Variable upstream : nat -> outcome R.

Lemma attempts_step (attempt : nat) (rest : list nat)
      (last_exception : option groq_exn) (w : net) :
  attempts upstream (attempt :: rest) last_exception w
  = match upstream (requests w) with
    | Returns response => (Returned response, w ++ [Request])
    | Fails exc =>
        if gives_up exc then (Propagated exc, w ++ [Request])
        else if Nat.ltb attempt _MAX_RETRIES
             then match nth_error _BACKOFF_DELAYS attempt with
                  | Some delay =>
                      attempts upstream rest (Some exc) (w ++ [Request; Sleep delay])
                  | None => (IndexRaised, w ++ [Request])
                  end
             else attempts upstream rest (Some exc) (w ++ [Request])
    end.
Proof.
  cbn [attempts]. unfold create, sleep.
  destruct (upstream (requests w)) as [r | exc]; [reflexivity |].
  destruct exc as [| c | | |]; cbn [gives_up status_code_of]; try reflexivity.
  - destruct (Nat.leb 400 c && Nat.ltb c 500)%bool; [reflexivity |].
    destruct (Nat.ltb attempt _MAX_RETRIES); [| reflexivity].
    destruct (nth_error _BACKOFF_DELAYS attempt); [| reflexivity].
    now rewrite <- app_assoc.
  - destruct (Nat.ltb attempt _MAX_RETRIES); [| reflexivity].
    destruct (nth_error _BACKOFF_DELAYS attempt); [| reflexivity].
    now rewrite <- app_assoc.
  - destruct (Nat.ltb attempt _MAX_RETRIES); [| reflexivity].
    destruct (nth_error _BACKOFF_DELAYS attempt); [| reflexivity].
    now rewrite <- app_assoc.
Qed.

Lemma requests_snoc_request (w : net) (t : list event) (n : nat) :
  requests t = n -> requests (w ++ t) = requests w + n.
Proof. intros <-. apply requests_app. Qed.

(** [generate], unrolled: what it does is decided by the first of its
    three requests that succeeds or fails with an error it gives up on. *)
Lemma generate_unrolled (w : net) :
  generate upstream w
  = match upstream (requests w + 0) with
    | Returns response => (Returned response, w ++ [Request])
    | Fails e0 =>
        if gives_up e0 then (Propagated e0, w ++ [Request])
        else
          match upstream (requests w + 1) with
          | Returns response =>
              (Returned response, w ++ [Request; Sleep 1; Request])
          | Fails e1 =>
              if gives_up e1
              then (Propagated e1, w ++ [Request; Sleep 1; Request])
              else
                match upstream (requests w + 2) with
                | Returns response =>
                    (Returned response,
                     w ++ [Request; Sleep 1; Request; Sleep 3; Request])
                | Fails e2 =>
                    (if gives_up e2 then Propagated e2
                     else ConnectionError (Some e2),
                     w ++ [Request; Sleep 1; Request; Sleep 3; Request])
                end
          end
    end.
Proof.
  unfold generate. cbn [seq Nat.add _MAX_RETRIES].
  assert (R2 : requests (w ++ [Request; Sleep 1]) = requests w + 1)
    by (apply requests_snoc_request; reflexivity).
  assert (R4 : requests (w ++ [Request; Sleep 1; Request; Sleep 3]) = requests w + 2)
    by (apply requests_snoc_request; reflexivity).
  rewrite attempts_step, Nat.add_0_r.
  destruct (upstream (requests w)) as [r0 | e0]; [reflexivity |].
  destruct (gives_up e0); [reflexivity |].
  retry_step. rewrite attempts_step, R2.
  destruct (upstream (requests w + 1)) as [r1 | e1]; [retry_step; reflexivity |].
  destruct (gives_up e1); [retry_step; reflexivity |].
  retry_step. rewrite attempts_step, R4.
  destruct (upstream (requests w + 2)) as [r2 | e2]; [retry_step; reflexivity |].
  destruct (gives_up e2); retry_step; reflexivity.
Qed.

Lemma gives_up_iff (exc : groq_exn) :
  gives_up exc = true
  <-> (exc = BadRequestError \/ exc = Unexpected
       \/ exists c, exc = APIStatusError c /\ 400 <= c < 500).
Proof.
  split.
  - destruct exc as [| c | | |]; unfold gives_up; auto; try discriminate.
    intros H. apply andb_true_iff in H as [H1 H2].
    apply Nat.leb_le in H1. apply Nat.ltb_lt in H2. right. right. eauto.
  - intros [-> | [-> | (c & -> & H1 & H2)]]; unfold gives_up; auto.
    apply andb_true_iff. split; [apply Nat.leb_le | apply Nat.ltb_lt]; lia.
Qed.

End GroqMore.

(** X21.  Whatever the upstream does, one call of [generate] sends one,
    two or three requests, sleeps 1 s before the second and 3 s before the
    third and never otherwise, and never runs out of back-off delays.  It
    stops at the first request that succeeds, and returns its response, or
    that fails with an error it gives up on (a 400, another 4xx status or
    an error of an unexpected class), and propagates that error; every
    earlier request failed with another error.  When none of three requests
    is such a one, it raises ConnectionError with the error of the third as
    its cause.  Conversely, a response it returns, an error it propagates
    and the cause of its ConnectionError come from its last request. *)
Theorem generate_is_bounded {R : Type}
        (upstream : nat -> GroqClient.outcome R) (w : GroqClient.net) :
  let res := fst (GroqClient.generate upstream w) in
  let w' := snd (GroqClient.generate upstream w) in
  let retried i :=
    exists exc, upstream (GroqClient.requests w + i) = GroqClient.Fails exc
                /\ gives_up exc = false in
  let trace i :=
    match i with
    | 0 => [GroqClient.Request]
    | 1 => [GroqClient.Request; GroqClient.Sleep 1; GroqClient.Request]
    | _ => [GroqClient.Request; GroqClient.Sleep 1;
            GroqClient.Request; GroqClient.Sleep 3; GroqClient.Request]
    end in
  (forall exc,
     gives_up exc = true
     <-> (exc = GroqClient.BadRequestError \/ exc = GroqClient.Unexpected
          \/ exists c, exc = GroqClient.APIStatusError c /\ 400 <= c < 500))
  /\ (exists i, i < 3 /\ w' = w ++ trace i /\ forall j, j < i -> retried j)
  /\ res <> GroqClient.IndexRaised
  /\ (forall i response,
        i < 3 -> (forall j, j < i -> retried j) ->
        upstream (GroqClient.requests w + i) = GroqClient.Returns response ->
        res = GroqClient.Returned response /\ w' = w ++ trace i)
  /\ (forall i exc,
        i < 3 -> (forall j, j < i -> retried j) ->
        upstream (GroqClient.requests w + i) = GroqClient.Fails exc ->
        gives_up exc = true ->
        res = GroqClient.Propagated exc /\ w' = w ++ trace i)
  /\ ((forall j, j < 3 -> retried j) ->
      exists exc, upstream (GroqClient.requests w + 2) = GroqClient.Fails exc
                  /\ res = GroqClient.ConnectionError (Some exc)
                  /\ w' = w ++ trace 2)
  /\ (forall response, res = GroqClient.Returned response ->
        exists i, i < 3 /\ w' = w ++ trace i
                  /\ upstream (GroqClient.requests w + i) = GroqClient.Returns response)
  /\ (forall exc, res = GroqClient.Propagated exc ->
        gives_up exc = true
        /\ exists i, i < 3 /\ w' = w ++ trace i
                     /\ upstream (GroqClient.requests w + i) = GroqClient.Fails exc)
  /\ (forall cause, res = GroqClient.ConnectionError cause ->
        w' = w ++ trace 2
        /\ exists exc, cause = Some exc
                       /\ upstream (GroqClient.requests w + 2) = GroqClient.Fails exc).
Proof.
  cbv zeta. rewrite generate_unrolled.
  apply conj; [exact gives_up_iff |].
  destruct (upstream (GroqClient.requests w + 0)) as [r0 | e0] eqn:U0;
    [| destruct (gives_up e0) eqn:G0;
       [| destruct (upstream (GroqClient.requests w + 1)) as [r1 | e1] eqn:U1;
          [| destruct (gives_up e1) eqn:G1;
             [| destruct (upstream (GroqClient.requests w + 2)) as [r2 | e2] eqn:U2;
                [| destruct (gives_up e2) eqn:G2]]]]];
    cbn [fst snd].
  all: repeat apply conj.
  (* the trace and the failures before it *)
  all: try lazymatch goal with
           | |- exists i, i < 3 /\ _ = _ /\ forall j, _ =>
               first
                 [ exists 0; split; [lia |]; split; [reflexivity |]; intros j Hj; lia
                 | exists 1; split; [lia |]; split; [reflexivity |];
                   intros [| j] Hj; [| lia]; eexists; split; eassumption
                 | exists 2; split; [lia |]; split; [reflexivity |];
                   intros [| [| j]] Hj; [| | lia]; eexists; split; eassumption ]
           end.
  all: try discriminate.
  all: intros.
  (* results that this run does not have *)
  all: try match goal with
           | H : _ = _ :> GroqClient.ending _ |- _ =>
               first [discriminate H | injection H as <-]
           end.
  (* the index of the request in question *)
  all: try match goal with
           | Hi : ?i < 3 |- _ =>
               assert (Hi' : i = 0 \/ i = 1 \/ i = 2) by lia;
               destruct Hi' as [-> | [-> | ->]]; clear Hi
           end.
  all: repeat match goal with
              | H : forall j, j < ?n -> exists _, _ |- _ =>
                  try (destruct (H 0 ltac:(lia)) as (? & ? & ?));
                  try (destruct (H 1 ltac:(lia)) as (? & ? & ?));
                  try (destruct (H 2 ltac:(lia)) as (? & ? & ?));
                  clear H
              end.
  all: repeat match goal with
              | H1 : ?l = _ :> GroqClient.outcome _, H2 : ?l = _ |- _ =>
                  rewrite H1 in H2;
                  first [discriminate H2 | injection H2 as <- | clear H2]
              end.
  all: try congruence.
  all: try (split; reflexivity).
  all: try (eexists; split; [eassumption |]; split; reflexivity).
  all: try (split; [reflexivity |]; eexists; split; [reflexivity | eassumption]).
  all: try (first [ exists 0; split; [lia |]; split; [reflexivity | eassumption]
                  | exists 1; split; [lia |]; split; [reflexivity | eassumption]
                  | exists 2; split; [lia |]; split; [reflexivity | eassumption] ]).
  all: try (eexists; split; [reflexivity |]; split; reflexivity).
  all: try (split; [reflexivity |]; eexists; split; reflexivity).
  all: try (split; [assumption |];
            first [ exists 0; split; [lia |]; split; [reflexivity | eassumption]
                  | exists 1; split; [lia |]; split; [reflexivity | eassumption]
                  | exists 2; split; [lia |]; split; [reflexivity | eassumption] ]).
Qed.

(** ** Logs: the debug tail and the pages of /api/logs *)

Section LoggerMore.
Import StructuredLogger.
Context {A : Type}.

Lemma py_slice_from (l : list A) (a : Z) :
  (0 <= a)%Z ->
  py_slice l (Some a) None = skipn (Z.to_nat a) l.
Proof.
  intros Ha. unfold py_slice, slice_index.
  replace (Z.ltb a 0) with false by (symmetry; apply Z.ltb_ge; lia).
  destruct (Z.le_ge_cases (Z.of_nat (length l)) a) as [H | H].
  - rewrite Z.min_l by lia.
    rewrite Z.sub_diag. rewrite Nat2Z.id. cbn [Z.to_nat firstn].
    symmetry. apply skipn_all2. lia.
  - rewrite Z.min_r by lia.
    apply firstn_all2. rewrite length_skipn. lia.
Qed.

Lemma py_slice_window (l : list A) (a n : Z) :
  (0 <= a)%Z -> (0 <= n)%Z ->
  py_slice l (Some a) (Some (a + n)%Z) = firstn (Z.to_nat n) (skipn (Z.to_nat a) l).
Proof.
  intros Ha Hn. unfold py_slice, slice_index.
  replace (Z.ltb a 0) with false by (symmetry; apply Z.ltb_ge; lia).
  replace (Z.ltb (a + n) 0) with false by (symmetry; apply Z.ltb_ge; lia).
  set (len := Z.of_nat (length l)).
  destruct (Z.le_ge_cases len a) as [H | H].
  - rewrite !Z.min_l by lia. rewrite Z.sub_diag. cbn [Z.to_nat firstn].
    rewrite !skipn_all2 by (unfold len in *; lia). now rewrite !firstn_nil.
  - rewrite (Z.min_r len a) by lia.
    destruct (Z.le_ge_cases len (a + n)) as [H' | H'].
    + rewrite Z.min_l by lia.
      rewrite !firstn_all2; [reflexivity | |]; rewrite length_skipn; unfold len in *; lia.
    + rewrite Z.min_r by lia. f_equal. lia.
Qed.

Lemma rev_skipn_firstn (l : list A) (k : nat) :
  k <= length l -> rev (skipn (length l - k) l) = firstn k (rev l).
Proof.
  intros Hk. rewrite <- (firstn_skipn (length l - k) l) at 3.
  rewrite rev_app_distr.
  rewrite firstn_app.
  assert (Hl : length (rev (skipn (length l - k) l)) = k)
    by (rewrite length_rev, length_skipn; lia).
  rewrite Hl, Nat.sub_diag. cbn [firstn]. rewrite app_nil_r.
  symmetry. apply firstn_all2. lia.
Qed.

End LoggerMore.

(** X22.  For n >= 1, the range the debug route accepts,
    [get_recent_logs] returns the newest entries first and at most n of
    them: the first n elements of the reversed log; [total_count] of the
    debug response is the number of entries returned, the smaller of n and
    the size of the log.  For n = 0 the slice [all_entries[-0:]] is the
    whole list, so every entry is returned. *)
Theorem get_recent_logs_is_reversed_tail
        {LogEntry : Type} (validate : string -> option LogEntry)
        (fh : StructuredLogger.log_file) (n : Z) :
  ((1 <= n)%Z ->
   StructuredLogger.get_recent_logs LogEntry validate fh n
   = firstn (Z.to_nat n) (rev (StructuredLogger.get_all_logs LogEntry validate fh))
   /\ StructuredLogger.total_count _
        (StructuredLogger.debug_endpoint LogEntry validate fh n)
      = Nat.min (Z.to_nat n)
                (length (StructuredLogger.get_all_logs LogEntry validate fh)))
  /\ StructuredLogger.get_recent_logs LogEntry validate fh 0
     = rev (StructuredLogger.get_all_logs LogEntry validate fh).
Proof.
  unfold StructuredLogger.debug_endpoint. cbn [StructuredLogger.total_count].
  unfold StructuredLogger.get_recent_logs.
  set (all := StructuredLogger.get_all_logs LogEntry validate fh).
  split.
  - intros Hn.
    assert (E : StructuredLogger.py_slice all (Some (- n)%Z) None
                = skipn (length all - Z.to_nat n) all).
    { unfold StructuredLogger.py_slice, StructuredLogger.slice_index.
      replace (Z.ltb (- n) 0) with true by (symmetry; apply Z.ltb_lt; lia).
      replace (Z.to_nat (Z.max 0 (Z.of_nat (length all) + - n)))
        with (length all - Z.to_nat n) by lia.
      apply firstn_all2. rewrite length_skipn. lia. }
    rewrite E.
    destruct (Nat.le_gt_cases (Z.to_nat n) (length all)) as [H | H].
    + rewrite rev_skipn_firstn by exact H.
      split; [reflexivity |]. rewrite length_firstn, length_rev. reflexivity.
    + replace (length all - Z.to_nat n) with 0 by lia. rewrite drop_0.
      rewrite firstn_all2 by (rewrite length_rev; lia).
      split; [reflexivity |]. rewrite length_rev. lia.
  - f_equal. change (- 0)%Z with 0%Z. rewrite py_slice_from by lia. reflexivity.
Qed.

(** X23.  The pages of /api/logs fit together: for an offset >= 0 and
    limits >= 1, a page holds the [limit] entries that follow the first
    [offset] ones, a page followed by the page that starts where it ends is
    the page of both limits together, and [total] is the number of entries
    whatever the page. *)
Theorem logs_pages_fit_together
        {LogEntry : Type} (validate : string -> option LogEntry)
        (fh : StructuredLogger.log_file) (offset limit limit' : Z) :
  (0 <= offset)%Z -> (1 <= limit)%Z -> (1 <= limit')%Z ->
  let page := StructuredLogger.logs_endpoint LogEntry validate fh in
  let all := StructuredLogger.get_all_logs LogEntry validate fh in
  StructuredLogger.logs _ (page offset limit)
  = firstn (Z.to_nat limit) (skipn (Z.to_nat offset) all)
  /\ StructuredLogger.logs _ (page offset limit)
       ++ StructuredLogger.logs _ (page (offset + limit)%Z limit')
     = StructuredLogger.logs _ (page offset (limit + limit')%Z)
  /\ StructuredLogger.total _ (page offset limit) = length all.
Proof.
  intros Ho Hl Hl'. cbv zeta. unfold StructuredLogger.logs_endpoint.
  cbn [StructuredLogger.logs StructuredLogger.total].
  set (all := StructuredLogger.get_all_logs LogEntry validate fh).
  rewrite !py_slice_window by lia.
  split; [reflexivity |]. split; [| reflexivity].
  replace (Z.to_nat (offset + limit)) with (Z.to_nat offset + Z.to_nat limit) by lia.
  replace (Z.to_nat (limit + limit')) with (Z.to_nat limit + Z.to_nat limit') by lia.
  generalize (Z.to_nat limit) as a, (Z.to_nat limit') as b. intros a b.
  rewrite <- drop_drop. apply take_take_drop.
Qed.

Lemma logs_pages_fit_together_witness :
  let page := StructuredLogger.logs_endpoint string Some
                (StructuredLogger.Readable ["a"; " "; "b"; "c"; "d"]) in
  StructuredLogger.logs _ (page 0%Z 1%Z) ++ StructuredLogger.logs _ (page 1%Z 2%Z)
  = StructuredLogger.logs _ (page 0%Z 3%Z).
Proof.
  intros page.
  refine (proj1 (proj2 (logs_pages_fit_together
                          Some (StructuredLogger.Readable ["a"; " "; "b"; "c"; "d"])
                          0 1 2 _ _ _))); lia.
Defined.

(** ** Text sanitizers *)

Section SanitizerMore.
Import Re TextSanitizer.

Lemma chars_nil (P : ascii -> Prop) : chars P "".
Proof. constructor. Qed.

Lemma chars_cons (P : ascii -> Prop) (c : ascii) (s : string) :
  chars P (String c s) <-> P c /\ chars P s.
Proof. unfold chars. cbn. apply Forall_cons. Qed.

Lemma chars_app (P : ascii -> Prop) (a b : string) :
  chars P a -> chars P b -> chars P (a +:+ b).
Proof.
  induction a as [| c a IH]; cbn; [auto |].
  intros Ha Hb. apply chars_cons in Ha as [Hc Ha]. apply chars_cons. auto.
Qed.

Lemma chars_take (P : ascii -> Prop) (n : nat) (s : string) :
  chars P s -> chars P (Py.take n s).
Proof.
  revert s. induction n as [| n IH]; intros [| c s] H; cbn; try apply chars_nil.
  apply chars_cons in H as [Hc H]. apply chars_cons. auto.
Qed.

Lemma chars_drop (P : ascii -> Prop) (n : nat) (s : string) :
  chars P s -> chars P (Py.drop n s).
Proof.
  revert s. induction n as [| n IH]; intros [| c s] H; cbn; auto.
  apply chars_cons in H as [_ H]. auto.
Qed.

Lemma chars_join (P : ascii -> Prop) (sep : string) (parts : list string) :
  chars P sep -> Forall (chars P) parts -> chars P (Py.join sep parts).
Proof.
  intros Hs. induction 1 as [| p rest Hp Hr IH]; [apply chars_nil |].
  cbn [Py.join]. destruct rest as [| q rest]; [exact Hp |].
  apply chars_app; [exact Hp |]. apply chars_app; [exact Hs | exact IH].
Qed.

Lemma chars_pieces (P : ascii -> Prop) (ms : list found) :
  forall (s : string) (pos : nat), chars P s -> Forall (chars P) (pieces ms s pos).
Proof.
  induction ms as [| m ms IH]; intros s pos H; cbn [pieces].
  - repeat constructor. exact H.
  - constructor; [now apply chars_take |]. apply IH. now apply chars_drop.
Qed.

Lemma chars_sub (P : ascii -> Prop) (r : regex) (repl s : string) :
  chars P repl -> chars P s -> chars P (sub r repl s).
Proof.
  intros Hr Hs. unfold sub, split. apply chars_join; [exact Hr |].
  now apply chars_pieces.
Qed.

Lemma chars_lstrip (P : ascii -> Prop) (s : string) :
  chars P s -> chars P (Py.lstrip s).
Proof.
  induction s as [| c s IH]; cbn; [auto |]. intros H.
  destruct (Py.isspace c); [| exact H]. apply chars_cons in H as [_ H]. auto.
Qed.

Lemma chars_rstrip (P : ascii -> Prop) (s : string) :
  chars P s -> chars P (Py.rstrip s).
Proof.
  induction s as [| c s IH]; cbn [Py.rstrip]; [auto |]. intros H.
  apply chars_cons in H as [Hc H]. specialize (IH H).
  destruct (Py.rstrip s) as [| c' r].
  - destruct (Py.isspace c); [apply chars_nil |]. apply chars_cons. auto.
  - apply chars_cons. auto.
Qed.

Lemma chars_strip (P : ascii -> Prop) (s : string) :
  chars P s -> chars P (Py.strip s).
Proof. intros H. unfold Py.strip. now apply chars_rstrip, chars_lstrip. Qed.

Lemma chars_keep (q : ascii -> bool) (s : string) :
  chars (fun c => q c = true) (keep q s).
Proof.
  induction s as [| c s IH]; cbn; [apply chars_nil |].
  destruct (q c) eqn:E; [| exact IH]. apply chars_cons. auto.
Qed.

Lemma keep_app (q : ascii -> bool) (a b : string) :
  keep q (a +:+ b) = keep q a +:+ keep q b.
Proof.
  induction a as [| c a IH]; [reflexivity |].
  change (String c a +:+ b) with (String c (a +:+ b)). cbn [keep].
  destruct (q c); rewrite IH; reflexivity.
Qed.

Lemma take_one (x : ascii) (s : string) :
  Py.take (Py.len (String x s) - Py.len s) (String x s) = String x "".
Proof.
  unfold Py.len. cbn [String.length].
  replace (S (String.length s) - String.length s) with 1 by lia. reflexivity.
Qed.

Lemma single_Class (p : ascii -> bool) : single (Class p) p.
Proof.
  intros prev [| x s]; [reflexivity |]. unfold match_here. cbn [run].
  destruct (p x); [| reflexivity]. now rewrite take_one.
Qed.

Lemma single_Lit (c : ascii) : single (Lit c) (fun x => Ascii.eqb x c).
Proof.
  intros prev [| x s]; [reflexivity |]. unfold match_here. cbn [run].
  destruct (Ascii.eqb x c); [| reflexivity]. now rewrite take_one.
Qed.

Lemma search_single (r : regex) (p : ascii -> bool) :
  single r p ->
  forall (s : string) (prev : option ascii) (i : nat),
    (search_from r prev s i = None /\ keep (fun c => negb (p c)) s = s)
    \/ exists k x a s',
         search_from r prev s i
         = Some {| m_start := i + k; m_text := String x "";
                   m_prev := Some x; m_rest := s' |}
         /\ p x = true
         /\ s = a +:+ String x s'
         /\ keep (fun c => negb (p c)) a = a
         /\ Py.take k s = a
         /\ Py.drop (k + 1) s = s'
         /\ Py.len s = k + 1 + Py.len s'.
Proof.
  intros Hr. induction s as [| c s IH]; intros prev i.
  - left. cbn [search_from]. rewrite Hr. auto.
  - pose proof (Hr prev (String c s)) as Hm. cbv beta iota in Hm.
    destruct (p c) eqn:Ep.
    + right. exists 0, c, "", s. cbn [search_from]. rewrite Hm, Nat.add_0_r.
      repeat split; auto.
    + destruct (IH (Some c) (S i))
        as [[E K] | (k & x & a & s' & E & Hx & Hs & Ka & Ht & Hd & Hl)].
      * left. cbn [search_from]. rewrite Hm, E. split; [reflexivity |].
        cbn [keep]. rewrite Ep. cbn [negb]. now rewrite K.
      * right. exists (S k), x, (String c a), s'. cbn [search_from].
        rewrite Hm, E. replace (S i + k) with (i + S k) by lia.
        split; [reflexivity |]. split; [exact Hx |].
        split; [change (String c a +:+ String x s')
                  with (String c (a +:+ String x s')); now rewrite <- Hs |].
        split; [cbn [keep]; rewrite Ep; cbn [negb]; now rewrite Ka |].
        split; [cbn [Py.take]; now rewrite Ht |].
        split; [exact Hd |].
        unfold Py.len in *. cbn [String.length]. lia.
Qed.

Lemma pieces_nonempty (ms : list found) (s : string) (pos : nat) :
  pieces ms s pos <> [].
Proof. destruct ms; discriminate. Qed.

Lemma join_empty_cons (a : string) (l : list string) :
  l <> [] -> Py.join "" (a :: l) = a +:+ Py.join "" l.
Proof. destruct l; [contradiction | reflexivity]. Qed.

Lemma finditer_single (r : regex) (p : ascii -> bool) :
  single r p ->
  forall (fuel : nat) (s : string) (prev : option ascii) (i : nat),
    Py.len s < fuel ->
    Py.join "" (pieces (finditer_aux fuel r prev s i) s i)
    = keep (fun c => negb (p c)) s.
Proof.
  intros Hr. induction fuel as [| fuel IH]; intros s prev i Hf; [lia |].
  cbn [finditer_aux].
  destruct (search_single r p Hr s prev i)
    as [[E K] | (k & x & a & s' & E & Hx & Hs & Ka & Ht & Hd & Hl)]; rewrite E.
  - cbn. now rewrite K.
  - cbn [m_text m_rest m_prev m_start pieces].
    rewrite join_empty_cons by apply pieces_nonempty.
    replace (i + k - i) with k by lia.
    replace (Py.len (String x "")) with 1 by reflexivity.
    rewrite Ht, Hd. rewrite IH by lia.
    rewrite Hs at 1. rewrite keep_app. cbn [keep]. rewrite Hx. cbn [negb].
    now rewrite Ka.
Qed.

Lemma sub_single (r : regex) (p : ascii -> bool) (s : string) :
  single r p -> sub r "" s = keep (fun c => negb (p c)) s.
Proof.
  intros Hr. unfold sub, split, finditer. apply finditer_single; [exact Hr | lia].
Qed.

Lemma printable_tail (s : string) :
  chars (fun c => not_printable c = false) s ->
  chars (fun c => not_printable c = false)
        (Py.strip (sub (Seq nl (Seq nl (Plus nl))) (String "010" (String "010" ""))
                       (sub (Plus (Class blank_or_tab)) " " s))).
Proof.
  intros H. apply chars_strip. apply chars_sub.
  - repeat (apply chars_cons; split; [reflexivity |]). apply chars_nil.
  - apply chars_sub; [| exact H].
    apply chars_cons; split; [reflexivity | apply chars_nil].
Qed.

Lemma printable_after_removal (s : string) :
  chars (fun c => not_printable c = false) (sub (Class not_printable) "" s).
Proof.
  rewrite (sub_single _ _ s (single_Class not_printable)).
  eapply Forall_impl; [apply chars_keep |]. intros c Hc.
  now apply negb_true_iff in Hc.
Qed.

End SanitizerMore.

(** X24.  What [sanitize_input] and [sanitize_pdf_text] return consists of
    printable characters only (tab, line feed, carriage return, 0x20-0x7E
    and 0x80-0xFF), and has no leading or trailing white space. *)
Theorem sanitizers_return_printable_text (text : string) :
  Forall (fun c => TextSanitizer.not_printable c = false)
         (list_ascii_of_string (TextSanitizer.sanitize_input text))
  /\ Forall (fun c => TextSanitizer.not_printable c = false)
            (list_ascii_of_string (TextSanitizer.sanitize_pdf_text text))
  /\ Py.strip (TextSanitizer.sanitize_input text) = TextSanitizer.sanitize_input text
  /\ Py.strip (TextSanitizer.sanitize_pdf_text text)
     = TextSanitizer.sanitize_pdf_text text.
Proof.
  unfold TextSanitizer.sanitize_input, TextSanitizer.sanitize_pdf_text.
  destruct (Py.truthy text); cbn [negb].
  - split; [apply printable_tail, printable_after_removal |].
    split; [apply printable_tail, printable_after_removal |].
    split; apply strip_idem.
  - repeat split; constructor.
Qed.

Section WordsMore.

Lemma flush_words (cur : list ascii) :
  Forall (fun c => Py.isspace c = false) cur ->
  Forall word match cur with
              | [] => []
              | _ => [string_of_list_ascii (rev cur)]
              end.
Proof.
  intros H. destruct cur as [| c cur]; constructor; [| constructor].
  split.
  - intros E. apply (f_equal list_ascii_of_string) in E.
    rewrite list_ascii_of_string_of_list_ascii in E. cbn in E.
    destruct (rev cur); discriminate E.
  - rewrite list_ascii_of_string_of_list_ascii. now apply List.Forall_rev.
Qed.

Lemma split_ws_aux_words (s : string) :
  forall cur, Forall (fun c => Py.isspace c = false) cur ->
              Forall word (Py.split_ws_aux s cur).
Proof.
  induction s as [| c s IH]; intros cur H; cbn [Py.split_ws_aux].
  - now apply flush_words.
  - destruct (Py.isspace c) eqn:E.
    + apply Forall_app. split; [now apply flush_words | apply IH; constructor].
    + apply IH. now constructor.
Qed.

Lemma split_ws_aux_prefix (w : string) :
  forall rest cur,
    Forall (fun c => Py.isspace c = false) (list_ascii_of_string w) ->
    Py.split_ws_aux (w +:+ rest) cur
    = Py.split_ws_aux rest (rev (list_ascii_of_string w) ++ cur).
Proof.
  induction w as [| c w IH]; intros rest cur H; [reflexivity |].
  change (String c w +:+ rest) with (String c (w +:+ rest)).
  cbn [list_ascii_of_string] in *. inversion H as [| ? ? Hc Hw]; subst.
  cbn [Py.split_ws_aux]. rewrite Hc, IH by exact Hw.
  cbn [rev]. now rewrite <- app_assoc.
Qed.

Lemma flush_word (w : string) :
  word w ->
  match rev (list_ascii_of_string w) ++ [] with
  | [] => []
  | _ => [string_of_list_ascii (rev (rev (list_ascii_of_string w) ++ []))]
  end = [w].
Proof.
  intros [Hne _]. rewrite app_nil_r, rev_involutive, string_of_list_ascii_of_string.
  destruct w as [| c w]; [contradiction |]. cbn [list_ascii_of_string rev].
  destruct (rev (list_ascii_of_string w) ++ [c]) eqn:E; [| reflexivity].
  apply (f_equal (@length ascii)) in E. rewrite length_app in E. cbn in E. lia.
Qed.

Lemma split_ws_join (ws : list string) :
  Forall word ws -> Py.split_ws (Py.join " " ws) = ws.
Proof.
  unfold Py.split_ws. induction 1 as [| w rest Hw Hr IH]; [reflexivity |].
  cbn [Py.join]. destruct rest as [| w2 rest].
  - assert (E : w = w +:+ "") by (clear; induction w as [| c w IHw];
      [reflexivity | change (String c w +:+ "") with (String c (w +:+ ""));
                     now rewrite <- IHw]).
    rewrite E at 1. rewrite split_ws_aux_prefix by apply Hw.
    cbn [Py.split_ws_aux]. now apply flush_word.
  - rewrite split_ws_aux_prefix by apply Hw.
    change (" " +:+ Py.join " " (w2 :: rest))
      with (String " " (Py.join " " (w2 :: rest))).
    cbn [Py.split_ws_aux].
    replace (Py.isspace " ") with true by reflexivity.
    rewrite IH. rewrite (flush_word w Hw). reflexivity.
Qed.

Lemma split_ws_lstrip (s : string) :
  Py.split_ws (Py.lstrip s) = Py.split_ws s.
Proof.
  unfold Py.split_ws. induction s as [| c s IH]; [reflexivity |].
  cbn [Py.lstrip Py.split_ws_aux]. destruct (Py.isspace c) eqn:E.
  - exact IH.
  - cbn [Py.split_ws_aux]. now rewrite E.
Qed.

Lemma split_ws_aux_rstrip (s : string) :
  forall cur, Py.split_ws_aux (Py.rstrip s) cur = Py.split_ws_aux s cur.
Proof.
  induction s as [| c s IH]; intros cur; [reflexivity |].
  cbn [Py.rstrip]. destruct (Py.rstrip s) as [| c' r] eqn:Er.
  - destruct (Py.isspace c) eqn:E.
    + cbn [Py.split_ws_aux]. rewrite E, <- IH. cbn [Py.split_ws_aux].
      now rewrite app_nil_r.
    + cbn [Py.split_ws_aux]. rewrite E, <- IH. reflexivity.
  - cbn [Py.split_ws_aux]. destruct (Py.isspace c); now rewrite <- !IH.
Qed.

Lemma split_ws_strip (s : string) : Py.split_ws (Py.strip s) = Py.split_ws s.
Proof.
  unfold Py.strip. unfold Py.split_ws at 1. rewrite split_ws_aux_rstrip.
  apply split_ws_lstrip.
Qed.

End WordsMore.

(** X25.  A chunk that went through [sanitize_chunk] has at most 450
    words, whatever its length before, and no leading or trailing white
    space. *)
Theorem sanitize_chunk_word_limit (text : string) :
  length (Py.split_ws (TextSanitizer.sanitize_chunk text)) <= 450
  /\ Py.strip (TextSanitizer.sanitize_chunk text) = TextSanitizer.sanitize_chunk text.
Proof.
  unfold TextSanitizer.sanitize_chunk.
  destruct (Py.truthy text); cbn [negb]; [| split; [cbn; lia | reflexivity]].
  cbv zeta.
  set (max_words := Z.to_nat _).
  assert (Hmax : max_words = 450) by (vm_compute; reflexivity).
  clearbody max_words. subst max_words.
  set (joined := Py.join _ (List.filter _ _)).
  split; [| apply strip_idem].
  rewrite split_ws_strip.
  destruct (Nat.ltb 450 (length (Py.split_ws joined))) eqn:E.
  - rewrite split_ws_join.
    + rewrite length_firstn. lia.
    + apply Forall_take. apply split_ws_aux_words. constructor.
  - apply Nat.ltb_ge in E. exact E.
Qed.

(** ** Upload file names *)

Section RegexMore.
Import Re.

(** The matcher is sound: when it succeeds, the continuation was entered
    after a prefix that the regex derives. *)
Lemma run_sound {A : Type} (r : regex) :
  forall (prev : option ascii) (s : string)
         (k : option ascii -> string -> option A) (a : A),
    run r prev s k = Some a ->
    exists p' s', derives r prev s p' s' /\ k p' s' = Some a.
Proof.
  induction r as [c | c | p | | r1 IH1 r2 IH2 | r1 IH1 r2 IH2 | r1 IH1 | r1 IH1 | | |];
    intros prev s k a H; cbn [run] in H.
  - destruct s as [| x s]; [discriminate |].
    destruct (Ascii.eqb_spec x c) as [-> | _]; [| discriminate].
    eexists _, _. split; [constructor | exact H].
  - destruct s as [| x s]; [discriminate |].
    destruct (Ascii.eqb_spec (Py.lower_char x) (Py.lower_char c)) as [E | _];
      [| discriminate].
    eexists _, _. split; [now constructor | exact H].
  - destruct s as [| x s]; [discriminate |].
    destruct (p x) eqn:E; [| discriminate].
    eexists _, _. split; [now constructor | exact H].
  - destruct s as [| x s]; [discriminate |].
    destruct (Ascii.eqb_spec x "010") as [| E]; [discriminate |].
    eexists _, _. split; [now constructor | exact H].
  - apply IH1 in H as (p1 & s1 & D1 & H). apply IH2 in H as (p2 & s2 & D2 & H).
    eexists _, _. split; [eapply d_Seq; eauto | exact H].
  - destruct (run r1 prev s k) as [a' |] eqn:E.
    + injection H as ->. apply IH1 in E as (p' & s' & D & E).
      eexists _, _. split; [apply d_Alt_l; eauto | exact E].
    + apply IH2 in H as (p' & s' & D & H).
      eexists _, _. split; [apply d_Alt_r; eauto | exact H].
  - revert H. generalize (Py.len s) at 1. intros fuel. revert prev s.
    induction fuel as [| fuel IHf]; intros prev s H.
    + eexists _, _. split; [apply d_Star_nil | exact H].
    + match type of H with
      | match ?X with _ => _ end = _ => destruct X as [a' |] eqn:E
      end.
      * injection H as ->. apply IH1 in E as (p1 & s1 & D1 & E).
        destruct (Nat.ltb (Py.len s1) (Py.len s)); [| discriminate].
        apply IHf in E as (p2 & s2 & D2 & E).
        eexists _, _. split; [eapply d_Star_cons; eauto | exact E].
      * eexists _, _. split; [apply d_Star_nil | exact H].
  - destruct (run r1 prev s k) as [a' |] eqn:E.
    + injection H as ->. apply IH1 in E as (p' & s' & D & E).
      eexists _, _. split; [apply d_Opt_some; eauto | exact E].
    + eexists _, _. split; [apply d_Opt_none | exact H].
  - destruct (xorb _ _) eqn:E; [| discriminate].
    eexists _, _. split; [now constructor | exact H].
  - destruct s as [| x [| y s]].
    + eexists _, _. split; [constructor; auto | exact H].
    + destruct (Ascii.eqb_spec x "010") as [-> | _]; [| discriminate].
      eexists _, _. split; [constructor; auto | exact H].
    + discriminate.
  - eexists _, _. split; [constructor | exact H].
Qed.

Lemma derives_star_class (p : ascii -> bool) (r : regex) prev s p' s' :
  derives r prev s p' s' -> r = Star (Class p) ->
  exists m, s = m +:+ s' /\ Forall (fun c => p c = true) (list_ascii_of_string m).
Proof.
  induction 1 as [| | | | | | | | | r0 prev s
                  | r0 prev s p1 s1 p2 s2 D1 _ D2 IH2 | | |];
    intros E; try discriminate E.
  - exists "". split; [reflexivity | constructor].
  - injection E as ->. destruct (IH2 eq_refl) as (m & -> & Hm).
    inversion D1; subst.
    exists (String x m). split; [reflexivity |]. cbn. now constructor.
Qed.

End RegexMore.

(** X26.  A file name that [_sanitize_filename] accepts is a non-empty
    stem of ASCII letters, digits, underscores and hyphens, followed by a
    dot and by "pdf" in any letter case: it holds no path separator, no
    space and no second dot. *)
Theorem sanitized_filename_is_safe (filename sanitized : string) :
  RoutesIngest._sanitize_filename filename = Ok sanitized ->
  exists stem ext,
    sanitized = stem +:+ "." +:+ ext
    /\ stem <> EmptyString
    /\ Forall (fun c => RoutesIngest.safe_char c = true) (list_ascii_of_string stem)
    /\ Py.lower ext = "pdf".
Proof.
  unfold RoutesIngest._sanitize_filename.
  destruct (negb (Py.truthy filename)); [discriminate |].
  set (raw := RoutesIngest.replace_char _ _ _).
  destruct (negb (RoutesIngest.endswith ".pdf" _)); [discriminate |].
  assert (Hc : chars (fun c => RoutesIngest.unsafe_char c = false)
                     (Re.sub (Re.Class RoutesIngest.unsafe_char) "" raw)).
  { rewrite (sub_single _ _ raw (single_Class RoutesIngest.unsafe_char)).
    eapply Forall_impl; [apply chars_keep |]. intros c Hc.
    now apply negb_true_iff in Hc. }
  destruct (Re.match_here _ _ _) as [[[t p'] rest] |] eqn:E; [| discriminate].
  intros [= <-]. revert Hc E.
  generalize (Re.sub (Re.Class RoutesIngest.unsafe_char) "" raw). clear raw.
  intros s Hc E. unfold Re.match_here in E.
  apply run_sound in E as (p2 & s2 & D & _).
  unfold RoutesIngest._SAFE_FILENAME_RE, Re.Plus, Re.StrI in D. cbn [Re.lits] in D.
  inversion D as [| | | | ? ? ? ? pa sa ? ? Dplus Drest | | | | | | | | |]; subst.
  inversion Dplus as [| | | | ? ? ? ? pb sb ? ? Dfirst Dstar | | | | | | | | |]; subst.
  inversion Dfirst as [| | ? x ? ? Hx | | | | | | | | | | |]; subst.
  destruct (derives_star_class _ _ _ _ _ _ Dstar eq_refl) as (m & -> & Hm).
  inversion Drest as [| | | | ? ? ? ? pc sc ? ? Ddot Dext | | | | | | | | |]; subst.
  inversion Ddot; subst.
  inversion Dext as [| | | | ? ? ? ? pd sd ? ? Dpdf Deos | | | | | | | | |]; subst.
  inversion Dpdf as [| | | | ? ? ? ? p3 s3 ? ? Dp Ddf | | | | | | | | |]; subst.
  inversion Dp as [| ? xp ? ? Hp | | | | | | | | | | | |]; subst.
  inversion Ddf as [| | | | ? ? ? ? p4 s4 ? ? Dd Df | | | | | | | | |]; subst.
  inversion Dd as [| ? xd ? ? Hd | | | | | | | | | | | |]; subst.
  inversion Df as [| ? xf ? ? Hf | | | | | | | | | | | |]; subst.
  inversion Deos as [| | | | | | | | | | | | ? ? Hend |]; subst.
  assert (Hs2 : s2 = EmptyString).
  { destruct Hend as [-> | ->]; [reflexivity |]. exfalso.
    assert (Hn : chars (fun c => RoutesIngest.unsafe_char c = false)
                       (String "010" "")).
    { repeat match type of Hc with
             | chars _ (String _ _) => apply chars_cons in Hc as [_ Hc]
             end.
      clear -Hc. induction m as [| c m IH]; cbn in Hc.
      - do 4 (apply chars_cons in Hc as [_ Hc]). exact Hc.
      - apply chars_cons in Hc as [_ Hc]. auto. }
    apply chars_cons in Hn as [Hn _]. vm_compute in Hn. discriminate Hn. }
  subst s2.
  exists (String x m), (String xp (String xd (String xf ""))).
  split; [| split; [discriminate | split]].
  - reflexivity.
  - cbn. constructor; [exact Hx | exact Hm].
  - cbn [Py.lower]. rewrite Hp, Hd, Hf. reflexivity.
Qed.

Lemma sanitized_filename_is_safe_witness :
  exists stem ext,
    "My_Guide-2.PDF" = stem +:+ "." +:+ ext
    /\ stem <> EmptyString
    /\ Forall (fun c => RoutesIngest.safe_char c = true) (list_ascii_of_string stem)
    /\ Py.lower ext = "pdf".
Proof.
  apply (sanitized_filename_is_safe "../uploads/My Guide-2.PDF" "My_Guide-2.PDF").
  vm_compute. reflexivity.
Defined.
